(** * Nexus Pricing ML service: a shallow embedding of [src/ml/forecasting.py]

    Layout.  The definitions come first and follow the Python module: the
    exceptions and values of the interpreter, pandas timestamps, the
    fallback generator, the price optimiser, what numpy and scikit-learn
    do on the arrays the forecasters hand them, and then, in a section
    over the third-party libraries, the two forecasters, the forecast
    endpoint, the training-job registry and the background task.  The
    properties follow, component by component, and the file ends with
    runs of the model on concrete inputs.

    Conventions.
    - Where the module itself computes with floats (the fallback
      generator and the price optimiser) a Python [float] is an IEEE-754
      binary64 number ([float], with the operations of the standard
      library's [SpecFloat], rounding to nearest even); a record field
      that holds such a float carries its exact value, a rational.
      The arrays that the forecasters hand to scikit-learn and Keras are
      lists of rationals, and what the libraries compute on them is
      exact or abstract: the properties of the forecasters are about
      shapes, positions and the order of calls, not about digits.
    - A raised exception is a value of [PyExc]; a call that can raise
      returns a [result]; a method that mutates [self] or the registry is
      a computation in the monad [M], whose state survives an exception.
    - What Prophet, Keras, joblib and the clock contribute is a section
      variable: the theorems hold for every behaviour of those libraries.
      The module [Stub] gives computable stand-ins for the examples. *)

From Stdlib Require Import ZArith QArith Qminmax Qround List Ascii String Lia Lqa.
From Stdlib Require Import SpecFloat.
From stdpp Require Import base option list gmap strings pretty.
Import ListNotations.

Local Open Scope Z_scope.

(* ===================================================================== *)
(** ** Python exceptions and results *)
(* ===================================================================== *)

(** The exception classes that the module raises itself or receives from
    numpy, pandas, scikit-learn, Prophet and Keras.  All of them derive
    from [Exception], so an [except Exception] clause catches each one.
    [HTTPException] is FastAPI's. *)
Inductive PyExc : Type :=
| ValueError (msg : string)
| TypeError (msg : string)
| KeyError (msg : string)
| IndexError (msg : string)
| OverflowError (msg : string)
| LibraryError (cls msg : string)
| HTTPException (status_code : Z) (detail : string).

(** [str(e)] *)
Definition exc_str (e : PyExc) : string :=
  match e with
  | ValueError m | TypeError m | IndexError m | OverflowError m => m
  | KeyError m => "'" ++ m ++ "'"
  | LibraryError _ m => m
  | HTTPException c d => d
  end.

Inductive result (A : Type) : Type :=
| Ok (a : A)
| Raise (e : PyExc).
Arguments Ok {A} a.
Arguments Raise {A} e.

Definition rbind {A B} (r : result A) (k : A -> result B) : result B :=
  match r with
  | Ok a => k a
  | Raise e => Raise e
  end.

Notation "'let!' x ':=' c 'in' k" := (rbind c (fun x => k))
  (at level 10, x name, c at level 100, k at level 200).
Notation "'let!' ' p ':=' c 'in' k" := (rbind c (fun x => let 'p := x in k))
  (at level 10, p strict pattern, c at level 100, k at level 200).

Fixpoint rmapM {A B} (f : A -> result B) (l : list A) : result (list B) :=
  match l with
  | [] => Ok []
  | a :: l' => let! b := f a in let! bs := rmapM f l' in Ok (b :: bs)
  end.

(* ===================================================================== *)
(** ** Python floats *)
(* ===================================================================== *)

(** A Python [float]: an IEEE-754 binary64 number, with 53 bits of
    precision and infinities at exponent 1024. *)
Definition float : Type := spec_float.

(** The float nearest to an integer (ties to even); an integer beyond
    the range of the finite floats gives an infinity. *)
Definition float_of_Z (n : Z) : float := binary_normalize 53 1024 n 0 false.

(** [x * y], [x + y], [x - y] and [x / y] on floats. *)
Definition fmul (x y : float) : float := SFmul 53 1024 x y.
Definition fadd (x y : float) : float := SFadd 53 1024 x y.
Definition fsub (x y : float) : float := SFsub 53 1024 x y.
Definition fdiv (x y : float) : float := SFdiv 53 1024 x y.

(** The float that a decimal literal denotes: [decimal m k] is the
    literal with digits [m] and [k] digits after the point, the float
    nearest to [m / 10^k].  The division of two floats is correctly
    rounded, and [m] and [10^k] are floats themselves for the literals
    of this file ([|m| < 2^53], [k <= 22]). *)
Definition decimal (m : Z) (k : nat) : float :=
  fdiv (float_of_Z m) (float_of_Z (10 ^ Z.of_nat k)).

(** [max(a, b)] and [min(a, b)] of the interpreter: the second argument
    wins only when it is strictly larger (smaller). *)
Definition py_max (a b : float) : float := if SFltb a b then b else a.
Definition py_min (a b : float) : float := if SFltb b a then b else a.

(** The spec's [clamp(x, lo, hi)], as the module writes it:
    [min(max(x, lo), hi)]. *)
Definition clamp (x lo hi : float) : float := py_min (py_max x lo) hi.

(** The exact value of a finite float (infinities and NaN have none;
    they are given 0). *)
Definition float_value (x : float) : Q :=
  match x with
  | S754_finite s m e => (inject_Z (cond_Zopp s (Zpos m)) * Qpower 2 e)%Q
  | _ => 0%Q
  end.

(* ===================================================================== *)
(** ** pandas timestamps *)
(* ===================================================================== *)

Definition NS_PER_DAY : Z := 86400000000000.

(** A naive [pd.Timestamp]: [value] is the number of nanoseconds since
    1970-01-01T00:00:00. *)
Record Timestamp : Type := mkTimestamp { ts_value : Z }.

(** [pd.Timedelta]; [datetime.timedelta(days=n)] is [mkTimedelta (n * NS_PER_DAY)]. *)
Record Timedelta : Type := mkTimedelta { td_value : Z }.

Definition timedelta_days (n : Z) : Timedelta := mkTimedelta (n * NS_PER_DAY).

(** [a - b] *)
Definition ts_sub (a b : Timestamp) : Timedelta :=
  mkTimedelta (ts_value a - ts_value b).

(** The instant [d] after [t], as a count of nanoseconds. *)
Definition ts_add (t : Timestamp) (d : Timedelta) : Timestamp :=
  mkTimestamp (ts_value t + td_value d).

(** The nanosecond count is a 64-bit integer whose least value stands
    for [NaT]: [pd.Timestamp.max] is 2262-04-11T23:47:16.854775807 and
    [pd.Timestamp.min] is 1677-09-21T00:12:43.145224193. *)
Definition TS_MAX : Z := 9223372036854775807.
Definition TS_MIN : Z := - TS_MAX.

Definition ts_in_bounds (t : Timestamp) : bool :=
  (TS_MIN <=? ts_value t) && (ts_value t <=? TS_MAX).

(** What pandas raises for a sum that is no timestamp; its text names
    the nanosecond count that was asked for. *)
Definition out_of_bounds_datetime (new_value : Z) : PyExc :=
  LibraryError "OutOfBoundsDatetime"
    ("Out of bounds nanosecond timestamp: " ++ pretty new_value).

(** [t + d] in the interpreter: pandas raises when the sum is not a
    timestamp. *)
Definition ts_add_checked (t : Timestamp) (d : Timedelta) : result Timestamp :=
  if ts_in_bounds (ts_add t d) then Ok (ts_add t d)
  else Raise (out_of_bounds_datetime (ts_value t + td_value d)).

(** [d.days]: whole days, rounded towards minus infinity. *)
Definition td_days (d : Timedelta) : Z := td_value d / NS_PER_DAY.

Definition ts_leb (a b : Timestamp) : bool := ts_value a <=? ts_value b.

(** Days since 1970-01-01 of the calendar day the instant falls on. *)
Definition ts_ordinal (t : Timestamp) : Z := ts_value t / NS_PER_DAY.

(** Proleptic Gregorian calendar: (year, month, day) of a day number. *)
Definition civil_from_days (days : Z) : Z * Z * Z :=
  let z := days + 719468 in
  let era := z / 146097 in
  let doe := z - era * 146097 in
  let yoe := (doe - doe / 1460 + doe / 36524 - doe / 146096) / 365 in
  let doy := doe - (365 * yoe + yoe / 4 - yoe / 100) in
  let mp := (5 * doy + 2) / 153 in
  let d := doy - (153 * mp + 2) / 5 + 1 in
  let m := if mp <? 10 then mp + 3 else mp - 9 in
  let y := yoe + era * 400 in
  (if m <=? 2 then y + 1 else y, m, d).

(** The inverse direction, used to write dates down. *)
Definition days_from_civil (y m d : Z) : Z :=
  let y' := if m <=? 2 then y - 1 else y in
  let era := y' / 400 in
  let yoe := y' - era * 400 in
  let mp := if 2 <? m then m - 3 else m + 9 in
  let doy := (153 * mp + 2) / 5 + d - 1 in
  let doe := yoe * 365 + yoe / 4 - yoe / 100 + doy in
  era * 146097 + doe - 719468.

(** [pd.to_datetime("YYYY-MM-DD")] *)
Definition ts_of_date (y m d : Z) : Timestamp :=
  mkTimestamp (days_from_civil y m d * NS_PER_DAY).

(** [t.month], 1 to 12. *)
Definition ts_month (t : Timestamp) : Z :=
  snd (fst (civil_from_days (ts_ordinal t))).

(** [t.dayofweek]: Monday is 0, Sunday is 6.  1970-01-01 was a Thursday. *)
Definition ts_dayofweek (t : Timestamp) : Z := (ts_ordinal t + 3) mod 7.

(* ===================================================================== *)
(** ** Response models *)
(* ===================================================================== *)

(** [class ForecastPoint(BaseModel)].  The source stores
    [current_date.isoformat()] in [date]; the model keeps the timestamp
    that text denotes.  A numeric field holds the value of the float
    that the source stores. *)
Record ForecastPoint : Type := mkForecastPoint {
  date : Timestamp;
  predictedValue : Q;
  lowerBound : option Q;
  upperBound : option Q;
  confidence : Q
}.

(* ===================================================================== *)
(** ** The fallback generator *)
(* ===================================================================== *)

Definition seasonal_map : gmap Z float :=
  list_to_map
    [ (1, decimal 85 2); (2, decimal 90 2); (3, decimal 95 2); (4, decimal 105 2);
      (5, decimal 115 2); (6, decimal 130 2); (7, decimal 135 2); (8, decimal 135 2);
      (9, decimal 120 2); (10, decimal 110 2); (11, decimal 95 2); (12, decimal 100 2) ].

(** [1.2 if day_of_week >= 5 else 1.0] *)
Definition weekend_factor (day_of_week : Z) : float :=
  if 5 <=? day_of_week then decimal 12 1 else decimal 10 1.

(** The body of the [while] loop of [generate_fallback_forecast] up to the
    [append]: the point built for [current_date].  [seasonal_map[month]]
    raises [KeyError] on a key that is not in the dictionary.  The
    numbers are computed in binary64, and the point carries their exact
    values. *)
Definition fallback_point (current_date : Timestamp) : result ForecastPoint :=
  let month := ts_month current_date in
  let day_of_week := ts_dayofweek current_date in
  let base_occupancy := decimal 5 1 in
  match seasonal_map !! month with
  | None => Raise (KeyError "month")
  | Some seasonal_factor =>
      let weekend_factor := weekend_factor day_of_week in
      let predicted_value := fmul (fmul base_occupancy seasonal_factor) weekend_factor in
      let predicted_value := py_min (py_max predicted_value (decimal 0 1)) (decimal 10 1) in
      Ok {| date := current_date;
            predictedValue := float_value predicted_value;
            lowerBound :=
              Some (float_value (py_max (fsub predicted_value (decimal 1 1)) (decimal 0 1)));
            upperBound :=
              Some (float_value (py_min (fadd predicted_value (decimal 1 1)) (decimal 10 1)));
            confidence := float_value (decimal 5 1) |}
  end.

(** [while current_date <= end_date: ...; current_date += timedelta(days=1)].
    The loop is run with fuel; [None] means the fuel ran out before the
    loop condition became false. *)
Fixpoint fallback_loop (fuel : nat) (current_date end_date : Timestamp)
    (forecast_points : list ForecastPoint) : option (result (list ForecastPoint)) :=
  if ts_leb current_date end_date then
    match fuel with
    | O => None
    | S fuel' =>
        match fallback_point current_date with
        | Raise e => Some (Raise e)
        | Ok p =>
            match ts_add_checked current_date (timedelta_days 1) with
            | Raise e => Some (Raise e)
            | Ok next_date =>
                fallback_loop fuel' next_date end_date (forecast_points ++ [p])
            end
        end
    end
  else Some (Ok forecast_points).

Definition generate_fallback_forecast (fuel : nat) (start_date end_date : Timestamp)
    : option (result (list ForecastPoint)) :=
  fallback_loop fuel start_date end_date [].


(* ===================================================================== *)
(** ** Python values, as they arrive in a JSON body *)
(* ===================================================================== *)

#[warnings="-register-all"]
Inductive PyVal : Type :=
| PyNone
| PyBool (b : bool)
| PyInt (n : Z)
| PyFloat (x : float)
| PyStr (s : string)
| PyList (items : list PyVal)
| PyDict (items : list (string * PyVal)).

Definition py_type_name (v : PyVal) : string :=
  match v with
  | PyNone => "NoneType"
  | PyBool _ => "bool"
  | PyInt _ => "int"
  | PyFloat _ => "float"
  | PyStr _ => "str"
  | PyList _ => "list"
  | PyDict _ => "dict"
  end.

(** A number of the interpreter: an [int] of any size or a [float]. *)
Inductive PyNum : Type :=
| NInt (n : Z)
| NFloat (x : float).

(** The number a value stands for in arithmetic; [bool] is a subclass of
    [int]. *)
Definition py_number (v : PyVal) : option PyNum :=
  match v with
  | PyBool b => Some (NInt (if b then 1 else 0))
  | PyInt n => Some (NInt n)
  | PyFloat x => Some (NFloat x)
  | _ => None
  end.

(** [n >= c] for a number and a float: two floats are compared as
    IEEE-754 does (nothing is at least NaN, NaN is at least nothing); an
    [int] is compared with the exact value of the float, without being
    converted. *)
Definition num_ge (n : PyNum) (c : float) : bool :=
  match n with
  | NFloat x => SFleb c x
  | NInt k =>
      match c with
      | S754_nan => false
      | S754_infinity negative => negative
      | _ => Qle_bool (float_value c) (inject_Z k)
      end
  end.

(** [float(k)] for an [int]: the nearest float, and [OverflowError] when
    that would be an infinity. *)
Definition float_of_int (k : Z) : result float :=
  match float_of_Z k with
  | S754_infinity _ => Raise (OverflowError "int too large to convert to float")
  | x => Ok x
  end.

(** The float a number enters a float multiplication as. *)
Definition num_float (n : PyNum) : result float :=
  match n with
  | NFloat x => Ok x
  | NInt k => float_of_int k
  end.

(** [v >= c] for a float constant [c]. *)
Definition py_ge (v : PyVal) (c : float) : result bool :=
  match py_number v with
  | Some n => Ok (num_ge n c)
  | None =>
      Raise (TypeError ("'>=' not supported between instances of '"
                          ++ py_type_name v ++ "' and 'float'"))
  end.

(** [v * c] for a float constant [c]: an [int] is converted to a float
    first. *)
Definition py_mul (v : PyVal) (c : float) : result float :=
  match py_number v with
  | Some n => let! x := num_float n in Ok (fmul x c)
  | None =>
      match v with
      | PyStr _ | PyList _ =>
          Raise (TypeError "can't multiply sequence by non-int of type 'float'")
      | _ =>
          Raise (TypeError ("unsupported operand type(s) for *: '"
                              ++ py_type_name v ++ "' and 'float'"))
      end
  end.

(** [d.get(key, dflt)] *)
Definition dict_get {V} (d : gmap string V) (key : string) (dflt : V) : V :=
  default dflt (d !! key).

(* ===================================================================== *)
(** ** Request and response models *)
(* ===================================================================== *)

Record HistoricalDataPoint : Type := mkHistoricalDataPoint {
  hdp_date : string;
  hdp_value : Q;
  hdp_metadata : option (gmap string PyVal)
}.

Record ForecastRequest : Type := mkForecastRequest {
  freq_propertyId : string;
  freq_startDate : string;
  freq_endDate : string;
  freq_modelType : string;
  freq_historicalData : option (list HistoricalDataPoint)
}.

Record ForecastResponse : Type := mkForecastResponse {
  fresp_propertyId : string;
  fresp_modelType : string;
  fresp_forecast : list ForecastPoint;
  fresp_accuracy : option Q;
  fresp_mape : option Q;
  fresp_generatedAt : string
}.

Record TrainingRequest : Type := mkTrainingRequest {
  treq_modelType : string;
  treq_propertyId : option string;
  treq_trainingData : list HistoricalDataPoint;
  treq_parameters : option (gmap string PyVal)
}.

(** The [status] strings of the module. *)
Inductive JobStatus : Type := PENDING | IN_PROGRESS | COMPLETED | FAILED.

Record TrainingResponse : Type := mkTrainingResponse {
  tresp_jobId : string;
  tresp_modelType : string;
  tresp_status : JobStatus;
  tresp_accuracy : option Q;
  tresp_mape : option Q;
  tresp_errorMessage : option string
}.

Record OptimizePriceRequest : Type := mkOptimizePriceRequest {
  oreq_propertyId : string;
  oreq_date : string;
  oreq_context : gmap string PyVal
}.

Record OptimizePriceResponse : Type := mkOptimizePriceResponse {
  recommendedPrice : float;
  opt_confidence : float
}.

(** The metrics dictionary returned by both [train] methods. *)
Record Metrics : Type := mkMetrics {
  m_mape : Q;
  m_rmse : Q;
  m_accuracy : Q
}.

(** The two readings of [datetime.utcnow()] a handler uses:
    [.isoformat()] and [.strftime('%Y%m%d_%H%M%S')]. *)
Record Clock : Type := mkClock {
  now_iso : string;
  now_stamp : string
}.

(* ===================================================================== *)
(** ** The price optimiser *)
(* ===================================================================== *)

(** The [try] block of [optimize_price]. *)
Definition optimize_price_try (request : OptimizePriceRequest)
    : result OptimizePriceResponse :=
  let base_price := dict_get (oreq_context request) "basePrice" (PyInt 100) in
  let occupancy :=
    dict_get (oreq_context request) "currentOccupancy" (PyFloat (decimal 5 1)) in
  let! multiplier :=
    (let! c1 := py_ge occupancy (decimal 9 1) in
     if c1 then Ok (decimal 15 1) else
     let! c2 := py_ge occupancy (decimal 7 1) in
     if c2 then Ok (decimal 12 1) else
     let! c3 := py_ge occupancy (decimal 5 1) in
     if c3 then Ok (decimal 10 1) else
     let! c4 := py_ge occupancy (decimal 3 1) in
     if c4 then Ok (decimal 9 1) else Ok (decimal 85 2)) in
  let! recommended_price := py_mul base_price multiplier in
  let confidence := decimal 75 2 in
  Ok {| recommendedPrice := recommended_price; opt_confidence := confidence |}.

(** [optimize_price]: any exception becomes an HTTP 500 with its text. *)
Definition optimize_price (request : OptimizePriceRequest)
    : result OptimizePriceResponse :=
  match optimize_price_try request with
  | Ok r => Ok r
  | Raise e => Raise (HTTPException 500 (exc_str e))
  end.

(** The spec's reading of a context field: absent means the default. *)
Definition context_number (ctx : gmap string PyVal) (key : string) (dflt : PyNum)
    : option PyNum :=
  match ctx !! key with
  | None => Some dflt
  | Some v => py_number v
  end.

(* ===================================================================== *)
(** ** numpy and scikit-learn, as far as the forecasters use them *)
(* ===================================================================== *)

(** [l[lo:hi]] for [0 <= lo <= hi]. *)
Definition py_slice {A} (l : list A) (lo hi : nat) : list A :=
  take (hi - lo) (drop lo l).

(** [l[-n:]]: the last [n] items, and the whole list when [n] is zero
    (since [-0] is [0]) or exceeds the length. *)
Definition py_slice_last {A} (l : list A) (n : nat) : list A :=
  match n with
  | O => l
  | _ => drop (length l - n) l
  end.

(** [l[:n]]: a negative [n] counts from the end. *)
Definition py_slice_to {A} (l : list A) (n : Z) : list A :=
  if n <? 0 then take (length l - Z.to_nat (- n)) l else take (Z.to_nat n) l.

(** [l[i]] *)
Definition py_index {A} (l : list A) (i : nat) : result A :=
  match l !! i with
  | Some x => Ok x
  | None => Raise (IndexError "index out of bounds")
  end.

(** [np.array(X).shape] for a list of windows, each window an (L, 1)
    array: the empty list gives a one-dimensional array. *)
Definition np_shape (X : list (list Q)) : list nat :=
  match X with
  | [] => [0%nat]
  | w :: _ => [length X; length w; 1%nat]
  end.

(** [shape[i]] on the shape tuple. *)
Definition shape_index (shape : list nat) (i : nat) : result nat :=
  match shape !! i with
  | Some d => Ok d
  | None => Raise (IndexError "tuple index out of range")
  end.

(** [a.reshape(1, n, 1)] of a column of values. *)
Definition np_reshape_window (a : list Q) (n : nat) : result (list Q) :=
  if Nat.eqb (length a) n then Ok a
  else Raise (ValueError ("cannot reshape array of size " ++ pretty (length a)
                            ++ " into shape (1," ++ pretty n ++ ",1)")).

(** The fitted attributes of [MinMaxScaler()] (feature range (0, 1), one
    column): [X_scaled = X * scale_ + min_]. *)
Record ScalerFit : Type := mkScalerFit {
  scale_ : Q;
  min_ : Q
}.

(** [self.scaler]: [None] until fitted. *)
Definition MinMaxScaler : Type := option ScalerFit.

Definition not_fitted : PyExc :=
  LibraryError "NotFittedError" "This MinMaxScaler instance is not fitted yet.".

(** scikit-learn validates every array it is given and refuses one with
    no sample; the text names the estimator when the check was made on
    behalf of one ([fit] and [transform] do so, [inverse_transform] does
    not). *)
Definition no_samples (estimator_name : string) : PyExc :=
  ValueError
    ("Found array with 0 sample(s) (shape=(0, 1)) while a minimum of 1 is required"
       ++ match estimator_name with
          | EmptyString => EmptyString
          | _ => " by " ++ estimator_name
          end
       ++ ".").

Definition check_array (estimator_name : string) (X : list Q) : result (list Q) :=
  match X with
  | [] => Raise (no_samples estimator_name)
  | _ => Ok X
  end.

Definition list_min (x : Q) (l : list Q) : Q := fold_left Qmin l x.
Definition list_max (x : Q) (l : list Q) : Q := fold_left Qmax l x.

(** [scaler.fit(X)], on the rationals the arrays of this model hold. *)
Definition scaler_fit (X : list Q) : result ScalerFit :=
  match X with
  | [] => Raise (no_samples "MinMaxScaler")
  | x :: rest =>
      let data_min := list_min x rest in
      let data_max := list_max x rest in
      let data_range := (data_max - data_min)%Q in
      let scale := (1 / (if Qeq_bool data_range 0 then 1 else data_range))%Q in
      Ok {| scale_ := scale; min_ := (0 - data_min * scale)%Q |}
  end.

(** [scaler.transform(X)] *)
Definition scaler_transform (sc : MinMaxScaler) (X : list Q) : result (list Q) :=
  match sc with
  | None => Raise not_fitted
  | Some f =>
      let! X := check_array "MinMaxScaler" X in
      Ok (map (fun x => x * scale_ f + min_ f)%Q X)
  end.

(** [scaler.inverse_transform(X)] *)
Definition scaler_inverse_transform (sc : MinMaxScaler) (X : list Q) : result (list Q) :=
  match sc with
  | None => Raise not_fitted
  | Some f =>
      let! X := check_array EmptyString X in
      Ok (map (fun x => (x - min_ f) / scale_ f)%Q X)
  end.

(* ===================================================================== *)
(** ** A state-and-exception monad for methods that mutate [self] *)
(* ===================================================================== *)

(** A computation over a mutable state: the state survives a raised
    exception, as an object mutated before a [raise] stays mutated. *)
Definition M (S A : Type) : Type := S -> result A * S.

Definition ret {S A} (a : A) : M S A := fun s => (Ok a, s).

Definition bind {S A B} (c : M S A) (k : A -> M S B) : M S B :=
  fun s =>
    match c s with
    | (Ok a, s') => k a s'
    | (Raise e, s') => (Raise e, s')
    end.

Definition raise {S A} (e : PyExc) : M S A := fun s => (Raise e, s).

Definition lift {S A} (r : result A) : M S A := fun s => (r, s).

Definition get {S} : M S S := fun s => (Ok s, s).

Definition modify {S} (f : S -> S) : M S unit := fun s => (Ok tt, f s).

(** [try: c  except Exception as e: h e] *)
Definition try_except {S A} (c : M S A) (h : PyExc -> M S A) : M S A :=
  fun s =>
    match c s with
    | (Ok a, s') => (Ok a, s')
    | (Raise e, s') => h e s'
    end.

Notation "'let*' x ':=' c 'in' k" := (bind c (fun x => k))
  (at level 10, x name, c at level 100, k at level 200).
Notation "'let*' ' p ':=' c 'in' k" := (bind c (fun x => let 'p := x in k))
  (at level 10, p strict pattern, c at level 100, k at level 200).
Notation "'run*' c 'in' k" := (bind c (fun _ => k))
  (at level 10, c at level 100, k at level 200).

(* ===================================================================== *)
(** ** Library objects *)
(* ===================================================================== *)

(** A [Prophet] instance: its parameters and, once [fit] has run, the
    history dates and the fitted state (of a type the library owns). *)
Record Prophet (Fit : Type) : Type := mkProphet {
  prophet_params : gmap string PyVal;
  history_dates : option (list Timestamp);
  prophet_fitted : option Fit
}.
Arguments mkProphet {Fit} _ _ _.
Arguments prophet_params {Fit} _.
Arguments history_dates {Fit} _.
Arguments prophet_fitted {Fit} _.

(* ===================================================================== *)
(** ** Stand-ins for the libraries *)
(* ===================================================================== *)

(** Concrete, computable instances of what the libraries contribute;
    they are used to run the model on examples. *)
Module Stub.

Definition MODELS_DIR : string := "/app/models".

Definition digit (c : Ascii.ascii) : option Z :=
  let n := Z.of_nat (Ascii.nat_of_ascii c) in
  if (48 <=? n) && (n <=? 57) then Some (n - 48) else None.

Fixpoint digits (cs : list Ascii.ascii) (acc : Z) : option Z :=
  match cs with
  | [] => Some acc
  | c :: cs' =>
      match digit c with
      | Some d => digits cs' (10 * acc + d)
      | None => None
      end
  end.

(** Dates written [YYYY-MM-DD]; anything else is refused. *)
Definition pd_to_datetime (s : string) : result Timestamp :=
  match String.list_ascii_of_string s with
  | [y1; y2; y3; y4; "-"%char; m1; m2; "-"%char; d1; d2] =>
      match digits [y1; y2; y3; y4] 0, digits [m1; m2] 0, digits [d1; d2] 0 with
      | Some y, Some m, Some d => Ok (ts_of_date y m d)
      | _, _, _ => Raise (ValueError "Unknown datetime string format")
      end
  | _ => Raise (ValueError "Unknown datetime string format")
  end.

Definition pd_date_range_negative : result (list Timestamp) :=
  Raise (ValueError "Number of periods must be non-negative").

Definition mean_absolute_percentage_error (y_true y_pred : list Q) : result Q :=
  match y_true with
  | [] => Raise (ValueError "Found array with 0 sample(s) (shape=(0,)) while a minimum of 1 is required.")
  | _ => Ok 0.1%Q
  end.

Definition mean_squared_error (y_true y_pred : list Q) : result Q :=
  match y_true with
  | [] => Raise (ValueError "Found array with 0 sample(s) (shape=(0,)) while a minimum of 1 is required.")
  | _ => Ok 0.04%Q
  end.

Definition np_sqrt (x : Q) : Q := 0.2%Q.

Definition ProphetFit : Type := unit.

Definition prophet_validate (params : gmap string PyVal) : option PyExc := None.

Definition prophet_fit (params : gmap string PyVal) (df : list (Timestamp * Q))
    : result ProphetFit :=
  if (length df <? 2)%nat
  then Raise (ValueError "Dataframe has less than 2 non-NaN rows.")
  else Ok tt.

Definition prophet_predict (f : ProphetFit) (d : Timestamp) : Q * Q * Q :=
  (0.5%Q, 0.4%Q, 0.6%Q).

(** A network is its window length; it answers with the mean of the
    first and the last entry of the window. *)
Definition KerasModel : Type := nat.

Definition keras_compile (timesteps : nat) : KerasModel := timesteps.

Definition keras_fit (m : KerasModel) (X_train : list (list Q)) (y_train : list Q)
    (X_val : list (list Q)) (y_val : list Q) (epochs batch_size : PyVal)
    : result KerasModel :=
  match X_train with
  | [] => Raise (ValueError "Expect x to be a non-empty array or dataset.")
  | _ => Ok m
  end.

Definition keras_predict (m : KerasModel) (window : list Q) : Q :=
  ((hd 0%Q window + List.last window 0%Q) / 2)%Q.

Definition joblib_dump (path : string) : result unit := Ok tt.

Definition keras_save (path : string) : result unit := Ok tt.

Definition keras_load_model (path : string) : result KerasModel :=
  Raise (LibraryError "OSError" "No file or directory found").

Definition joblib_load_scaler (path : string) : result MinMaxScaler :=
  Raise (LibraryError "FileNotFoundError" "No such file or directory").

Definition joblib_load_prophet (path : string) : result (Prophet ProphetFit) :=
  Raise (LibraryError "FileNotFoundError" "No such file or directory").

Definition now : Clock :=
  {| now_iso := "2024-07-01T12:00:00"; now_stamp := "20240701_120000" |}.

End Stub.

(* ===================================================================== *)
(** ** The forecasters and the service, over the third-party libraries *)
(* ===================================================================== *)

(** Calls recorded when the sequence-window forecaster reaches Keras. *)
Inductive KerasEvent : Type :=
| EvBuild (timesteps : nat)
| EvFit.

Section Service.

Set Default Proof Using "Type".

(** *** What the libraries and the environment contribute *)

(** [MODELS_DIR] *)
Variable MODELS_DIR : string.

(** [pd.to_datetime] on a string. *)
Variable pd_to_datetime : string -> result Timestamp.

(** What [pd.date_range] does when asked for a negative number of
    periods. *)
Variable pd_date_range_negative : result (list Timestamp).

(** scikit-learn's metrics and numpy's square root. *)
Variable mean_absolute_percentage_error : list Q -> list Q -> result Q.
Variable mean_squared_error : list Q -> list Q -> result Q.
Variable np_sqrt : Q -> Q.

(** Prophet: constructor validation, the fit, and the prediction
    ([yhat], [yhat_lower], [yhat_upper]) of a fitted model at a date. *)
Variable ProphetFit : Type.
Variable prophet_validate : gmap string PyVal -> option PyExc.
Variable prophet_fit : gmap string PyVal -> list (Timestamp * Q) -> result ProphetFit.
Variable prophet_predict : ProphetFit -> Timestamp -> Q * Q * Q.

(** Keras: the compiled network for a window length, the training run,
    and the prediction of a network on one window. *)
Variable KerasModel : Type.
Variable keras_compile : nat -> KerasModel.
Variable keras_fit :
  KerasModel -> list (list Q) -> list Q -> list (list Q) -> list Q ->
  PyVal -> PyVal -> result KerasModel.
Variable keras_predict : KerasModel -> list Q -> Q.

(** Persistence: [joblib.dump], [model.save], and the loaders. *)
Variable joblib_dump : string -> result unit.
Variable keras_save : string -> result unit.
Variable keras_load_model : string -> result KerasModel.
Variable joblib_load_scaler : string -> result MinMaxScaler.

Variable joblib_load_prophet : string -> result (Prophet ProphetFit).

(** *** Prophet objects *)

(** The constructor [Prophet], applied to the keyword arguments [params]. *)
Definition Prophet_new (params : gmap string PyVal) : result (Prophet ProphetFit) :=
  match prophet_validate params with
  | Some e => Raise e
  | None => Ok {| prophet_params := params; history_dates := None; prophet_fitted := None |}
  end.

Fixpoint insert_date (t : Timestamp) (l : list Timestamp) : list Timestamp :=
  match l with
  | [] => [t]
  | u :: l' =>
      if ts_value t <? ts_value u then t :: l
      else if ts_value t =? ts_value u then l
      else u :: insert_date t l'
  end.

(** [df['ds'].unique()] sorted: the dates Prophet keeps as history. *)
Definition sorted_unique (ds : list Timestamp) : list Timestamp :=
  foldr insert_date [] ds.

(** [m.fit(df)]: on failure the object stays unfitted. *)
Definition Prophet_fit (m : Prophet ProphetFit) (df : list (Timestamp * Q)) : result (Prophet ProphetFit) :=
  let! f := prophet_fit (prophet_params m) df in
  Ok {| prophet_params := prophet_params m;
        history_dates := Some (sorted_unique (map fst df));
        prophet_fitted := Some f |}.

(** One row of the frame [predict] returns. *)
Record ForecastRow : Type := mkForecastRow {
  ds : Timestamp;
  yhat : Q;
  yhat_lower : Q;
  yhat_upper : Q
}.

Definition not_fit : PyExc := LibraryError "Exception" "Model has not been fit.".

(** [m.predict(df)]: one row for each date of the frame. *)
Definition Prophet_predict (m : Prophet ProphetFit) (dates : list Timestamp)
    : result (list ForecastRow) :=
  match prophet_fitted m with
  | None => Raise not_fit
  | Some f =>
      Ok (map (fun d => let '(y, lo, hi) := prophet_predict f d in
                        {| ds := d; yhat := y; yhat_lower := lo; yhat_upper := hi |})
              dates)
  end.

(** [pd.date_range(start=start, periods=n, freq='D')] *)
Definition pd_date_range (start : Timestamp) (n : Z) : result (list Timestamp) :=
  if n <? 0 then pd_date_range_negative
  else Ok (map (fun k : nat => ts_add start (timedelta_days (Z.of_nat k)))
               (seq 0 (Z.to_nat n))).

Definition max_date (l : list Timestamp) : Timestamp :=
  mkTimestamp (foldr (fun t acc => Z.max (ts_value t) acc)
                     (match l with [] => 0 | t :: _ => ts_value t end) l).

(** [m.make_future_dataframe(periods, freq='D')]: the history dates
    followed by [periods] daily steps after the last one. *)
Definition make_future_dataframe (m : Prophet ProphetFit) (periods : Z)
    : result (list Timestamp) :=
  match history_dates m with
  | None => Raise not_fit
  | Some h =>
      let last_date := max_date h in
      let! dates := pd_date_range last_date (periods + 1) in
      let dates := filter (fun d => ts_value last_date <? ts_value d) dates in
      let dates := py_slice_to dates periods in
      Ok (h ++ dates)
  end.

(** *** [class ProphetForecaster] *)

Record ProphetForecaster : Type := mkProphetForecaster {
  pf_model : option (Prophet ProphetFit);
  pf_scaler : MinMaxScaler
}.

(** [ProphetForecaster()] *)
Definition ProphetForecaster_init : ProphetForecaster :=
  {| pf_model := None; pf_scaler := None |}.

Definition pf_set_model (m : option (Prophet ProphetFit)) : M ProphetForecaster unit :=
  modify (fun self => {| pf_model := m; pf_scaler := pf_scaler self |}).

Definition prophet_default_params : gmap string PyVal :=
  list_to_map
    [ ("yearly_seasonality", PyBool true);
      ("weekly_seasonality", PyBool true);
      ("daily_seasonality", PyBool false);
      ("changepoint_prior_scale", PyFloat (decimal 5 2));
      ("seasonality_prior_scale", PyFloat (decimal 100 1)) ]%string.

Definition not_trained : PyExc := ValueError "Model not trained. Call train() first.".

(** [ProphetForecaster.train] *)
Definition ProphetForecaster_train (data : list (Timestamp * Q))
    (parameters : option (gmap string PyVal)) : M ProphetForecaster Metrics :=
  let params :=
    match parameters with
    | Some p => p ∪ prophet_default_params
    | None => prophet_default_params
    end in
  let* model := lift (Prophet_new params) in
  run* pf_set_model (Some model) in
  let* fitted := lift (Prophet_fit model data) in
  run* pf_set_model (Some fitted) in
  let* forecast := lift (Prophet_predict fitted (map fst data)) in
  let* mape := lift (mean_absolute_percentage_error (map snd data) (map yhat forecast)) in
  let* mse := lift (mean_squared_error (map snd data) (map yhat forecast)) in
  let rmse := np_sqrt mse in
  ret {| m_mape := mape; m_rmse := rmse; m_accuracy := (1 - mape)%Q |}.

(** [ProphetForecaster.forecast] *)
Definition ProphetForecaster_forecast (periods : Z)
    : M ProphetForecaster (list ForecastRow) :=
  let* self := get in
  match pf_model self with
  | None => raise not_trained
  | Some model =>
      let* future := lift (make_future_dataframe model periods) in
      let* forecast := lift (Prophet_predict model future) in
      ret forecast
  end.

(** [ProphetForecaster.save] *)
Definition ProphetForecaster_save (path : string) : M ProphetForecaster unit :=
  let* self := get in
  match pf_model self with
  | Some _ => lift (joblib_dump path)
  | None => ret tt
  end.

(** [ProphetForecaster.load] *)
Definition ProphetForecaster_load (path : string) : M ProphetForecaster unit :=
  let* model := lift (joblib_load_prophet path) in
  pf_set_model (Some model).

(** *** [class LSTMForecaster] *)

Record LSTMForecaster : Type := mkLSTMForecaster {
  lstm_model : option KerasModel;
  lstm_scaler : MinMaxScaler;
  sequence_length : nat
}.

(** The object together with the log of the Keras calls made on its
    behalf. *)
Definition LSTMState : Type := LSTMForecaster * list KerasEvent.

(** [LSTMForecaster(sequence_length)]; the default is 30. *)
Definition LSTMForecaster_init (sequence_length : nat) : LSTMForecaster :=
  {| lstm_model := None; lstm_scaler := None; sequence_length := sequence_length |}.

Definition lstm_set_model (m : option KerasModel) : M LSTMState unit :=
  modify (fun '(self, log) =>
    ({| lstm_model := m; lstm_scaler := lstm_scaler self;
        sequence_length := sequence_length self |}, log)).

Definition lstm_set_scaler (sc : MinMaxScaler) : M LSTMState unit :=
  modify (fun '(self, log) =>
    ({| lstm_model := lstm_model self; lstm_scaler := sc;
        sequence_length := sequence_length self |}, log)).

Definition keras_log_event (ev : KerasEvent) : M LSTMState unit :=
  modify (fun '(self, log) => (self, log ++ [ev])).

(** [self.scaler.fit_transform(data.reshape(-1, 1))] *)
Definition fit_transform (data : list Q) : M LSTMState (list Q) :=
  let* f := lift (scaler_fit data) in
  run* lstm_set_scaler (Some f) in
  lift (scaler_transform (Some f) data).

(** The [for i in range(...)] loop of [prepare_data]. *)
Fixpoint prepare_loop (scaled_data : list Q) (sequence_length : nat)
    (range : list nat) (X : list (list Q)) (y : list Q)
    : result (list (list Q) * list Q) :=
  match range with
  | [] => Ok (X, y)
  | i :: range' =>
      let window := py_slice scaled_data i (i + sequence_length) in
      let! target := py_index scaled_data (i + sequence_length) in
      prepare_loop scaled_data sequence_length range' (X ++ [window]) (y ++ [target])
  end.

(** [LSTMForecaster.prepare_data] *)
Definition prepare_data (data : list Q) : M LSTMState (list (list Q) * list Q) :=
  let* scaled_data := fit_transform data in
  let* st := get in
  let sequence_length := sequence_length (fst st) in
  lift (prepare_loop scaled_data sequence_length
          (seq 0 (length scaled_data - sequence_length)) [] []).

(** [LSTMForecaster.build_model] for [input_shape = (timesteps, 1)]. *)
Definition build_model (timesteps : nat) : M LSTMState KerasModel :=
  run* keras_log_event (EvBuild timesteps) in
  ret (keras_compile timesteps).

Definition training_parameter (parameters : option (gmap string PyVal))
    (key : string) (dflt : Z) : PyVal :=
  match parameters with
  | Some p => dict_get p key (PyInt dflt)
  | None => PyInt dflt
  end.

(** [LSTMForecaster.train] *)
Definition LSTMForecaster_train (data : list Q)
    (parameters : option (gmap string PyVal)) : M LSTMState Metrics :=
  let* '(X, y) := prepare_data data in
  let split_idx := Z.to_nat (Qfloor (inject_Z (Z.of_nat (length X)) * 0.8)) in
  let X_train := take split_idx X in
  let X_val := drop split_idx X in
  let y_train := take split_idx y in
  let y_val := drop split_idx y in
  let* timesteps := lift (shape_index (np_shape X) 1) in
  let* model := build_model timesteps in
  run* lstm_set_model (Some model) in
  let epochs := training_parameter parameters "epochs" 50 in
  let batch_size := training_parameter parameters "batch_size" 32 in
  run* keras_log_event EvFit in
  let* model := lift (keras_fit model X_train y_train X_val y_val epochs batch_size) in
  run* lstm_set_model (Some model) in
  let predictions := map (keras_predict model) X_val in
  let* mse := lift (mean_squared_error y_val predictions) in
  let rmse := np_sqrt mse in
  let* st := get in
  let* y_val_inv := lift (scaler_inverse_transform (lstm_scaler (fst st)) y_val) in
  let* pred_inv := lift (scaler_inverse_transform (lstm_scaler (fst st)) predictions) in
  let* mape := lift (mean_absolute_percentage_error y_val_inv pred_inv) in
  ret {| m_mape := mape; m_rmse := rmse; m_accuracy := (1 - mape)%Q |}.

(** The [for _ in range(periods)] loop of [forecast]. *)
Fixpoint forecast_loop (model : KerasModel) (periods : nat)
    (current_sequence : list Q) (predictions : list Q) : list Q :=
  match periods with
  | O => predictions
  | S periods' =>
      let next_pred := keras_predict model current_sequence in
      forecast_loop model periods'
        (drop 1 current_sequence ++ [next_pred]) (predictions ++ [next_pred])
  end.

(** [LSTMForecaster.forecast] *)
Definition LSTMForecaster_forecast (last_sequence : list Q) (periods : Z)
    : M LSTMState (list Q) :=
  let* st := get in
  let self := fst st in
  match lstm_model self with
  | None => raise not_trained
  | Some model =>
      let* scaled_sequence := lift (scaler_transform (lstm_scaler self) last_sequence) in
      let* current_sequence :=
        lift (np_reshape_window (py_slice_last scaled_sequence (sequence_length self))
                (sequence_length self)) in
      let predictions := forecast_loop model (Z.to_nat periods) current_sequence [] in
      let* predictions := lift (scaler_inverse_transform (lstm_scaler self) predictions) in
      ret predictions
  end.

(** [LSTMForecaster.save] *)
Definition LSTMForecaster_save (path : string) : M LSTMState unit :=
  let* st := get in
  match lstm_model (fst st) with
  | Some _ =>
      run* lift (keras_save path) in
      lift (joblib_dump (path ++ "_scaler.pkl"))
  | None => ret tt
  end.

(** [LSTMForecaster.load] *)
Definition LSTMForecaster_load (path : string) : M LSTMState unit :=
  let* model := lift (keras_load_model path) in
  run* lstm_set_model (Some model) in
  let* sc := lift (joblib_load_scaler (path ++ "_scaler.pkl")) in
  lstm_set_scaler sc.

(** *** The forecast endpoint *)

Definition in_window (start_date end_date d : Timestamp) : bool :=
  (ts_value start_date <=? ts_value d) && (ts_value d <=? ts_value end_date).

Definition point_of_row (r : ForecastRow) : ForecastPoint :=
  {| date := ds r;
     predictedValue := yhat r;
     lowerBound := Some (yhat_lower r);
     upperBound := Some (yhat_upper r);
     confidence := float_value (decimal 8 1) |}.

(** The [for i in range(len(forecast_df))] loop of [generate_forecast]. *)
Fixpoint extract_points (start_date end_date : Timestamp)
    (forecast_df : list ForecastRow) (forecast_points : list ForecastPoint)
    : list ForecastPoint :=
  match forecast_df with
  | [] => forecast_points
  | row :: rows =>
      if in_window start_date end_date (ds row)
      then extract_points start_date end_date rows (forecast_points ++ [point_of_row row])
      else extract_points start_date end_date rows forecast_points
  end.

(** The frame built from the request's points:
    one [(ds, y)] row per point. *)
Definition build_frame (points : list HistoricalDataPoint)
    : result (list (Timestamp * Q)) :=
  rmapM (fun point =>
           let! d := pd_to_datetime (hdp_date point) in
           Ok (d, hdp_value point)) points.

(** Fuel that lets the fallback loop run to its end. *)
Definition fallback_fuel (start_date end_date : Timestamp) : nat :=
  Z.to_nat (td_days (ts_sub end_date start_date) + 1).

Definition call_fallback (start_date end_date : Timestamp)
    : result (list ForecastPoint) :=
  match generate_fallback_forecast (fallback_fuel start_date end_date)
          start_date end_date with
  | Some r => r
  | None => Raise (LibraryError "RuntimeError" "fallback loop did not finish")
  end.

(** The [try] block of [generate_forecast]. *)
Definition generate_forecast_try (now : Clock) (request : ForecastRequest)
    : result ForecastResponse :=
  let! start_date := pd_to_datetime (freq_startDate request) in
  let! end_date := pd_to_datetime (freq_endDate request) in
  let periods := td_days (ts_sub end_date start_date) + 1 in
  let forecaster := ProphetForecaster_init in
  let! '(forecast_points, accuracy, mape) :=
    match freq_historicalData request with
    | Some ((_ :: _) as historicalData) =>
        let! df := build_frame historicalData in
        match ProphetForecaster_train df None forecaster with
        | (Raise e, _) => Raise e
        | (Ok metrics, forecaster) =>
            match ProphetForecaster_forecast periods forecaster with
            | (Raise e, _) => Raise e
            | (Ok forecast_df, _) =>
                Ok (extract_points start_date end_date forecast_df [],
                    Some (m_accuracy metrics), Some (m_mape metrics))
            end
        end
    | _ =>
        let! forecast_points := call_fallback start_date end_date in
        Ok (forecast_points, Some (float_value (decimal 8 1)),
            Some (float_value (decimal 2 1)))
    end in
  Ok {| fresp_propertyId := freq_propertyId request;
        fresp_modelType := freq_modelType request;
        fresp_forecast := forecast_points;
        fresp_accuracy := accuracy;
        fresp_mape := mape;
        fresp_generatedAt := now_iso now |}.

(** [generate_forecast]: any exception becomes an HTTP 500. *)
Definition generate_forecast (now : Clock) (request : ForecastRequest)
    : result ForecastResponse :=
  match generate_forecast_try now request with
  | Ok r => Ok r
  | Raise e => Raise (HTTPException 500 (exc_str e))
  end.

(** *** The training-job registry *)

(** One entry of [training_jobs]: a dictionary whose keys other than
    the first three appear when the background task finishes. *)
Record Job : Type := mkJob {
  job_status : JobStatus;
  job_modelType : string;
  job_startedAt : string;
  job_accuracy : option Q;
  job_mape : option Q;
  job_completedAt : option string;
  job_modelPath : option string;
  job_errorMessage : option string;
  job_failedAt : option string
}.

(** The module-level dictionary, with the list of the values it has
    taken: every write appends the dictionary it leaves behind. *)
Record Store : Type := mkStore {
  training_jobs : gmap string Job;
  snapshots : list (gmap string Job)
}.

Definition store_write (jobs : gmap string Job) : M Store unit :=
  modify (fun st => {| training_jobs := jobs; snapshots := snapshots st ++ [jobs] |}).

(** [training_jobs[job_id] = job] *)
Definition jobs_setitem (job_id : string) (job : Job) : M Store unit :=
  let* st := get in
  store_write (<[job_id := job]> (training_jobs st)).

(** [training_jobs[job_id]] *)
Definition jobs_getitem (job_id : string) : M Store Job :=
  let* st := get in
  match training_jobs st !! job_id with
  | Some job => ret job
  | None => raise (KeyError job_id)
  end.

(** A mutation of the dictionary [training_jobs[job_id]]: an item
    assignment or an [update]. *)
Definition job_mutate (job_id : string) (f : Job -> Job) : M Store unit :=
  let* job := jobs_getitem job_id in
  jobs_setitem job_id (f job).

Definition set_in_progress (job : Job) : Job :=
  {| job_status := IN_PROGRESS;
     job_modelType := job_modelType job;
     job_startedAt := job_startedAt job;
     job_accuracy := job_accuracy job;
     job_mape := job_mape job;
     job_completedAt := job_completedAt job;
     job_modelPath := job_modelPath job;
     job_errorMessage := job_errorMessage job;
     job_failedAt := job_failedAt job |}.

Definition set_completed (metrics : Metrics) (now : Clock) (model_path : string)
    (job : Job) : Job :=
  {| job_status := COMPLETED;
     job_modelType := job_modelType job;
     job_startedAt := job_startedAt job;
     job_accuracy := Some (m_accuracy metrics);
     job_mape := Some (m_mape metrics);
     job_completedAt := Some (now_iso now);
     job_modelPath := Some model_path;
     job_errorMessage := job_errorMessage job;
     job_failedAt := job_failedAt job |}.

Definition set_failed (e : PyExc) (now : Clock) (job : Job) : Job :=
  {| job_status := FAILED;
     job_modelType := job_modelType job;
     job_startedAt := job_startedAt job;
     job_accuracy := job_accuracy job;
     job_mape := job_mape job;
     job_completedAt := job_completedAt job;
     job_modelPath := job_modelPath job;
     job_errorMessage := Some (exc_str e);
     job_failedAt := Some (now_iso now) |}.

(** A task handed to [background_tasks.add_task]. *)
Definition Task : Type := (string * TrainingRequest)%type.

(** [train_model]; [job_id] is the value of [str(uuid.uuid4())].  The
    second component is what the handler added to [background_tasks]. *)
Definition train_model (job_id : string) (now : Clock) (request : TrainingRequest)
    : M Store (TrainingResponse * list Task) :=
  run* jobs_setitem job_id
         {| job_status := PENDING;
            job_modelType := treq_modelType request;
            job_startedAt := now_iso now;
            job_accuracy := None; job_mape := None; job_completedAt := None;
            job_modelPath := None; job_errorMessage := None; job_failedAt := None |} in
  ret ({| tresp_jobId := job_id;
          tresp_modelType := treq_modelType request;
          tresp_status := PENDING;
          tresp_accuracy := None; tresp_mape := None; tresp_errorMessage := None |},
       [(job_id, request)]).

(** [get_training_status] *)
Definition get_training_status (job_id : string) : M Store TrainingResponse :=
  let* st := get in
  match training_jobs st !! job_id with
  | None => raise (HTTPException 404 "Training job not found")
  | Some job =>
      ret {| tresp_jobId := job_id;
             tresp_modelType := job_modelType job;
             tresp_status := job_status job;
             tresp_accuracy := job_accuracy job;
             tresp_mape := job_mape job;
             tresp_errorMessage := job_errorMessage job |}
  end.

(** *** The background task *)

(** [request.propertyId or 'global'] *)
Definition property_or_global (propertyId : option string) : string :=
  match propertyId with
  | Some s => if String.eqb s "" then "global" else s
  | None => "global"
  end.

Fixpoint ends_with_slash (s : string) : bool :=
  match s with
  | EmptyString => false
  | String c EmptyString => Ascii.eqb c "/"
  | String _ s' => ends_with_slash s'
  end.

(** [os.path.join(dir, name)] on a POSIX system: an absolute [name]
    replaces [dir]; otherwise the two are joined by a separator, unless
    [dir] is empty or ends with one. *)
Definition path_join (dir name : string) : string :=
  match name with
  | String "/" _ => name
  | _ =>
      match dir with
      | EmptyString => name
      | _ => if ends_with_slash dir then dir ++ name else dir ++ "/" ++ name
      end
  end.

(** [df['y'].values]: a frame built from no row has no column. *)
Definition frame_y (df : list (Timestamp * Q)) : result (list Q) :=
  match df with
  | [] => Raise (KeyError "y")
  | _ => Ok (map snd df)
  end.

(** The statements of the [try] block of [train_model_background]
    between the two writes to the registry: building the frame,
    training, and saving the model.  It returns [metrics] and
    [model_path]. *)
Definition train_and_save (now : Clock) (request : TrainingRequest)
    : result (Metrics * string) :=
  let! df := build_frame (treq_trainingData request) in
  if String.eqb (treq_modelType request) "prophet" then
    match ProphetForecaster_train df (treq_parameters request) ProphetForecaster_init with
    | (Raise e, _) => Raise e
    | (Ok metrics, forecaster) =>
        let model_path :=
          path_join MODELS_DIR
            ("prophet_" ++ property_or_global (treq_propertyId request) ++ "_"
               ++ now_stamp now ++ ".pkl") in
        match ProphetForecaster_save model_path forecaster with
        | (Raise e, _) => Raise e
        | (Ok _, _) => Ok (metrics, model_path)
        end
    end
  else if String.eqb (treq_modelType request) "lstm" then
    let forecaster := LSTMForecaster_init 30 in
    let! data := frame_y df in
    match LSTMForecaster_train data (treq_parameters request) (forecaster, []) with
    | (Raise e, _) => Raise e
    | (Ok metrics, st) =>
        let model_path :=
          path_join MODELS_DIR
            ("lstm_" ++ property_or_global (treq_propertyId request) ++ "_"
               ++ now_stamp now) in
        match LSTMForecaster_save model_path st with
        | (Raise e, _) => Raise e
        | (Ok _, _) => Ok (metrics, model_path)
        end
    end
  else Raise (ValueError ("Unknown model type: " ++ treq_modelType request)).

(** [train_model_background] *)
Definition train_model_background (job_id : string) (now : Clock)
    (request : TrainingRequest) : M Store unit :=
  try_except
    (run* job_mutate job_id set_in_progress in
     let* '(metrics, model_path) := lift (train_and_save now request) in
     job_mutate job_id (set_completed metrics now model_path))
    (fun e => job_mutate job_id (set_failed e now)).

(** *** The server: handlers and queued background tasks *)

Record Server : Type := mkServer {
  store : Store;
  queue : list Task
}.

Definition server_init : Server :=
  {| store := {| training_jobs := ∅; snapshots := [] |}; queue := [] |}.

(** One step of the event loop: a training request is handled (with a
    job id that [uuid4] has not given out before), a queued task runs
    from start to end, or a status request is answered. *)
Inductive server_step : Server -> Server -> Prop :=
| step_train_model sv job_id now request resp tasks st' :
    training_jobs (store sv) !! job_id = None ->
    train_model job_id now request (store sv) = (Ok (resp, tasks), st') ->
    server_step sv {| store := st'; queue := queue sv ++ tasks |}
| step_background sv before job_id request after now r st' :
    queue sv = before ++ (job_id, request) :: after ->
    train_model_background job_id now request (store sv) = (r, st') ->
    server_step sv {| store := st'; queue := before ++ after |}
| step_status sv job_id r st' :
    get_training_status job_id (store sv) = (r, st') ->
    server_step sv {| store := st'; queue := queue sv |}.

(** The status a job has in a value of the registry. *)
Definition status_at (job_id : string) (jobs : gmap string Job) : option JobStatus :=
  job_status <$> jobs !! job_id.

(** The moves the lifecycle allows between two successive values of
    the registry: a job appears as PENDING, stays as it is, goes from
    PENDING to IN_PROGRESS, or from IN_PROGRESS to a terminal status. *)
Definition legal_transition (a b : option JobStatus) : Prop :=
  match a, b with
  | None, None => True
  | None, Some PENDING => True
  | Some PENDING, Some PENDING => True
  | Some PENDING, Some IN_PROGRESS => True
  | Some IN_PROGRESS, Some IN_PROGRESS => True
  | Some IN_PROGRESS, Some COMPLETED => True
  | Some IN_PROGRESS, Some FAILED => True
  | Some COMPLETED, Some COMPLETED => True
  | Some FAILED, Some FAILED => True
  | _, _ => False
  end.

Definition terminal (s : JobStatus) : Prop := s = COMPLETED \/ s = FAILED.

(** Every two successive registry values of a history are related by a
    legal move of the job. *)
Definition monotone_history (job_id : string) (h : list (gmap string Job)) : Prop :=
  forall (i : nat) (r1 r2 : gmap string Job),
    h !! i = Some r1 -> h !! S i = Some r2 ->
    legal_transition (status_at job_id r1) (status_at job_id r2).

(** *** Notions used to state the properties *)

(** The values [transform] gives for a fitted scaler. *)
Definition normalized (f : ScalerFit) (data : list Q) : list Q :=
  map (fun x => x * scale_ f + min_ f)%Q data.

(** The forecaster with its scaler replaced. *)
Definition with_scaler (self : LSTMForecaster) (sc : MinMaxScaler) : LSTMForecaster :=
  {| lstm_model := lstm_model self; lstm_scaler := sc;
     sequence_length := sequence_length self |}.

(** The row [predict] returns for a date. *)
Definition row_at (pf : ProphetFit) (d : Timestamp) : ForecastRow :=
  let '(y, lo, hi) := prophet_predict pf d in
  {| ds := d; yhat := y; yhat_lower := lo; yhat_upper := hi |}.


(** The Prophet object [train] leaves in the forecaster. *)
Definition trained_prophet (params : gmap string PyVal) (df : list (Timestamp * Q))
    (pf : ProphetFit) : Prophet ProphetFit :=
  {| prophet_params := params;
     history_dates := Some (sorted_unique (map fst df));
     prophet_fitted := Some pf |}.

(** The store after a write that leaves [jobs] in the registry. *)
Definition written (st : Store) (jobs : gmap string Job) : Store :=
  {| training_jobs := jobs; snapshots := snapshots st ++ [jobs] |}.

(** The job the task leaves behind. *)
Definition finished_job (now : Clock) (request : TrainingRequest) (job : Job) : Job :=
  match train_and_save now request with
  | Ok (metrics, model_path) => set_completed metrics now model_path (set_in_progress job)
  | Raise e => set_failed e now (set_in_progress job)
  end.

(** Where an exception of the [try] block can come from: building the
    frame, training, or saving (and the final [else] for a model type
    that is neither of the two). *)
Inductive stage_failure (now : Clock) (request : TrainingRequest) (e : PyExc) : Prop :=
| fail_data_preparation :
    build_frame (treq_trainingData request) = Raise e ->
    stage_failure now request e
| fail_prophet_training df self' :
    treq_modelType request = "prophet" ->
    build_frame (treq_trainingData request) = Ok df ->
    ProphetForecaster_train df (treq_parameters request) ProphetForecaster_init
      = (Raise e, self') ->
    stage_failure now request e
| fail_prophet_persistence df metrics self' self'' :
    treq_modelType request = "prophet" ->
    build_frame (treq_trainingData request) = Ok df ->
    ProphetForecaster_train df (treq_parameters request) ProphetForecaster_init
      = (Ok metrics, self') ->
    ProphetForecaster_save
      (path_join MODELS_DIR
         ("prophet_" ++ property_or_global (treq_propertyId request) ++ "_"
            ++ now_stamp now ++ ".pkl")) self' = (Raise e, self'') ->
    stage_failure now request e
| fail_lstm_column df :
    treq_modelType request = "lstm" ->
    build_frame (treq_trainingData request) = Ok df ->
    frame_y df = Raise e ->
    stage_failure now request e
| fail_lstm_training df data st' :
    treq_modelType request = "lstm" ->
    build_frame (treq_trainingData request) = Ok df ->
    frame_y df = Ok data ->
    LSTMForecaster_train data (treq_parameters request) (LSTMForecaster_init 30, [])
      = (Raise e, st') ->
    stage_failure now request e
| fail_lstm_persistence df data metrics st' st'' :
    treq_modelType request = "lstm" ->
    build_frame (treq_trainingData request) = Ok df ->
    frame_y df = Ok data ->
    LSTMForecaster_train data (treq_parameters request) (LSTMForecaster_init 30, [])
      = (Ok metrics, st') ->
    LSTMForecaster_save
      (path_join MODELS_DIR
         ("lstm_" ++ property_or_global (treq_propertyId request) ++ "_"
            ++ now_stamp now)) st' = (Raise e, st'') ->
    stage_failure now request e
| fail_unknown_model_type df :
    treq_modelType request <> "prophet" ->
    treq_modelType request <> "lstm" ->
    build_frame (treq_trainingData request) = Ok df ->
    e = ValueError ("Unknown model type: " ++ treq_modelType request) ->
    stage_failure now request e.

(** What holds of every state the server reaches. *)
Record server_invariant (sv : Server) : Prop := mkServerInvariant {
  inv_monotone : forall j, monotone_history j (∅ :: snapshots (store sv));
  inv_last : last (∅ :: snapshots (store sv)) = Some (training_jobs (store sv));
  inv_queued : forall j request, In (j, request) (queue sv) ->
                 status_at j (training_jobs (store sv)) = Some PENDING;
  inv_nodup : NoDup (map fst (queue sv))
}.

(* ===================================================================== *)
(** ** Properties of the sequence-window forecaster *)
(* ===================================================================== *)

Lemma bind_ok {S A B} (c : M S A) (k : A -> M S B) (s s' : S) (a : A) :
  c s = (Ok a, s') -> bind c k s = k a s'.
Proof. intros H. unfold bind. rewrite H. reflexivity. Qed.

Lemma bind_raise {S A B} (c : M S A) (k : A -> M S B) (s s' : S) (e : PyExc) :
  c s = (Raise e, s') -> bind c k s = (Raise e, s').
Proof. intros H. unfold bind. rewrite H. reflexivity. Qed.

Lemma scaler_fit_nonempty (data : list Q) :
  data <> [] -> exists f, scaler_fit data = Ok f.
Proof. destruct data as [|x rest]; [congruence|]. intros _. eexists. reflexivity. Qed.

Lemma scaler_transform_nonempty (f : ScalerFit) (data : list Q) :
  data <> [] -> scaler_transform (Some f) data = Ok (normalized f data).
Proof. destruct data; [congruence|]. reflexivity. Qed.

Lemma scaler_inverse_nonempty (f : ScalerFit) (X : list Q) :
  X <> [] ->
  scaler_inverse_transform (Some f) X = Ok (map (fun x => (x - min_ f) / scale_ f)%Q X).
Proof. destruct X; [congruence|]. reflexivity. Qed.

Lemma fit_transform_nonempty (self : LSTMForecaster) (log : list KerasEvent)
    (data : list Q) (f : ScalerFit) :
  data <> [] -> scaler_fit data = Ok f ->
  fit_transform data (self, log)
    = (Ok (normalized f data), (with_scaler self (Some f), log)).
Proof.
  intros Hne Hf. unfold fit_transform, bind, lift, lstm_set_scaler, modify.
  rewrite Hf. rewrite (scaler_transform_nonempty f data Hne). reflexivity.
Qed.

Lemma fit_transform_empty (self : LSTMForecaster) (log : list KerasEvent) :
  fit_transform [] (self, log) = (Raise (no_samples "MinMaxScaler"), (self, log)).
Proof. reflexivity. Qed.

(** The loop of [prepare_data] over a range whose indices leave room for
    the target: one window and one target per index, in order. *)
Lemma prepare_loop_run (scaled : list Q) (L : nat) :
  forall (range : list nat) (X : list (list Q)) (y : list Q),
    (forall i : nat, In i range -> (i + L < length scaled)%nat) ->
    exists ys : list Q,
      prepare_loop scaled L range X y
        = Ok (X ++ map (fun i => py_slice scaled i (i + L)) range, y ++ ys) /\
      length ys = length range /\
      forall (k i : nat), range !! k = Some i ->
        exists t, ys !! k = Some t /\ scaled !! (i + L)%nat = Some t.
Proof.
  induction range as [|i range IH]; intros X y Hrange.
  - exists []. rewrite !app_nil_r. split; [reflexivity|]. split; [reflexivity|].
    intros k i Hk. rewrite lookup_nil in Hk. discriminate.
  - cbn [prepare_loop]. unfold py_index.
    destruct (lookup_lt_is_Some_2 scaled (i + L)
                (Hrange i (or_introl eq_refl))) as [t Ht].
    rewrite Ht. cbn [rbind].
    destruct (IH (X ++ [py_slice scaled i (i + L)]) (y ++ [t])) as (ys & Hrun & Hlen & Hnth).
    { intros j Hj. apply Hrange. right. exact Hj. }
    exists (t :: ys). rewrite Hrun, <- !app_assoc. split; [reflexivity|].
    split; [cbn; lia|].
    intros [|k] j Hk; cbn in Hk.
    + injection Hk as <-. exists t. split; [reflexivity | exact Ht].
    + exact (Hnth k j Hk).
Qed.

Lemma py_slice_lookup {A} (l : list A) (i L j : nat) :
  (j < L)%nat -> py_slice l i (i + L) !! j = l !! (i + j)%nat.
Proof.
  intros Hj. unfold py_slice.
  replace (i + L - i)%nat with L by lia.
  rewrite lookup_take_lt by exact Hj. apply lookup_drop.
Qed.

Lemma py_slice_length {A} (l : list A) (i L : nat) :
  (i + L <= length l)%nat -> length (py_slice l i (i + L)) = L.
Proof.
  intros H. unfold py_slice. rewrite length_take, length_drop. lia.
Qed.

(** What [prepare_data] does on a non-empty series. *)
Lemma prepare_data_run (self : LSTMForecaster) (log : list KerasEvent)
    (data : list Q) (f : ScalerFit) :
  data <> [] -> scaler_fit data = Ok f ->
  exists (y : list Q),
    prepare_data data (self, log)
      = (Ok (map (fun i => py_slice (normalized f data) i (i + sequence_length self))
                 (seq 0 (length data - sequence_length self)), y),
         (with_scaler self (Some f), log)) /\
    length y = (length data - sequence_length self)%nat /\
    forall i : nat, (i < length data - sequence_length self)%nat ->
      exists t, y !! i = Some t /\
                normalized f data !! (i + sequence_length self)%nat = Some t.
Proof.
  intros Hne Hf. unfold prepare_data.
  rewrite (bind_ok _ _ _ _ _ (fit_transform_nonempty self log data f Hne Hf)).
  unfold bind, get, lift. cbn [fst with_scaler sequence_length].
  assert (Hlen : length (normalized f data) = length data)
    by (unfold normalized; apply length_map).
  rewrite Hlen.
  destruct (prepare_loop_run (normalized f data) (sequence_length self)
              (seq 0 (length data - sequence_length self)) [] [])
    as (ys & Hrun & Hlenys & Hnth).
  { intros i Hi. apply in_seq in Hi. lia. }
  rewrite Hrun. cbn [app]. exists ys. split; [reflexivity|].
  rewrite length_seq in Hlenys. split; [exact Hlenys|].
  intros i Hi. apply (Hnth i i). apply lookup_seq. lia.
Qed.

(** C2. For a non-empty series of length N and a window length L the
    sliding-window preparation returns exactly max(0, N - L) pairs; for
    each i below N - L the i-th input is the L normalised values at
    positions i, ..., i + L - 1 and the i-th target is the normalised
    value at position i + L.  The normalised values are those of the
    scaler fitted on the series, which the forecaster keeps. *)
Theorem C2_sliding_window_pairs (self : LSTMForecaster) (log : list KerasEvent)
    (data : list Q) :
  data <> [] ->
  let L := sequence_length self in
  let N := length data in
  exists (f : ScalerFit) (X : list (list Q)) (y : list Q) (self' : LSTMForecaster),
    scaler_fit data = Ok f /\
    prepare_data data (self, log) = (Ok (X, y), (self', log)) /\
    lstm_scaler self' = Some f /\
    length X = (N - L)%nat /\ length y = (N - L)%nat /\
    Z.of_nat (length X) = Z.max 0 (Z.of_nat N - Z.of_nat L) /\
    forall i : nat, (i < N - L)%nat ->
      exists (window : list Q) (target : Q),
        X !! i = Some window /\ y !! i = Some target /\
        length window = L /\
        (forall j : nat, (j < L)%nat ->
           window !! j = normalized f data !! (i + j)%nat) /\
        normalized f data !! (i + L)%nat = Some target.
Proof.
  intros Hne L N.
  destruct (scaler_fit_nonempty data Hne) as [f Hf].
  destruct (prepare_data_run self log data f Hne Hf) as (y & Hrun & Hleny & Hy).
  fold L in Hrun, Hleny, Hy. fold N in Hrun, Hleny, Hy.
  exists f, (map (fun i => py_slice (normalized f data) i (i + L)) (seq 0 (N - L))),
         y, (with_scaler self (Some f)).
  split; [exact Hf|]. split; [exact Hrun|]. split; [reflexivity|].
  assert (HlenX : length (map (fun i => py_slice (normalized f data) i (i + L))
                            (seq 0 (N - L))) = (N - L)%nat)
    by (rewrite length_map, length_seq; reflexivity).
  split; [exact HlenX|]. split; [exact Hleny|]. split; [rewrite HlenX; lia|].
  intros i Hi. destruct (Hy i Hi) as (t & Hyt & Hnt).
  exists (py_slice (normalized f data) i (i + L)), t.
  split.
  { rewrite list_lookup_fmap, lookup_seq_lt by exact Hi. reflexivity. }
  split; [exact Hyt|]. split.
  { apply py_slice_length. unfold normalized. rewrite length_map. fold N. lia. }
  split; [|exact Hnt].
  intros j Hj. apply py_slice_lookup. exact Hj.
Qed.

(** On a non-empty series no longer than the window, [train] stops at
    [X.shape[1]]: the scaler is fitted, nothing else has changed. *)
Lemma lstm_train_short_series (self : LSTMForecaster) (log : list KerasEvent)
    (data : list Q) (parameters : option (gmap string PyVal)) :
  (length data <= sequence_length self)%nat -> data <> [] ->
  exists self' : LSTMForecaster,
    LSTMForecaster_train data parameters (self, log)
      = (Raise (IndexError "tuple index out of range"), (self', log)) /\
    lstm_model self' = lstm_model self.
Proof.
  intros Hshort Hne.
  destruct (scaler_fit_nonempty data Hne) as [f Hf].
  destruct (prepare_data_run self log data f Hne Hf) as (y & Hrun & _ & _).
  replace (length data - sequence_length self)%nat with 0%nat in Hrun by lia.
  cbn [seq map] in Hrun.
  exists (with_scaler self (Some f)). split; [|reflexivity].
  unfold LSTMForecaster_train.
  rewrite (bind_ok _ _ _ _ _ Hrun). reflexivity.
Qed.

(** C1. When the series has no more observations than the window
    length, [train] raises before Keras is reached: the call log gains no
    build and no fit event and the forecaster's model is left as it was.
    The exception is numpy's IndexError on [X.shape[1]] (scikit-learn's
    ValueError for an empty series); it is the failure the spec names
    InsufficientDataError.  Five observations with the default window
    length 30 fail this way. *)
Theorem C1_short_series_fails_before_build (self : LSTMForecaster)
    (log : list KerasEvent) (data : list Q) (parameters : option (gmap string PyVal)) :
  (length data <= sequence_length self)%nat ->
  (exists (e : PyExc) (self' : LSTMForecaster),
     LSTMForecaster_train data parameters (self, log) = (Raise e, (self', log)) /\
     lstm_model self' = lstm_model self /\
     e = match data with
         | [] => no_samples "MinMaxScaler"
         | _ => IndexError "tuple index out of range"
         end)
  /\ (forall a b c d e : Q,
        exists self' : LSTMForecaster,
          LSTMForecaster_train [a; b; c; d; e] None (LSTMForecaster_init 30, [])
            = (Raise (IndexError "tuple index out of range"), (self', [])) /\
          lstm_model self' = None).
Proof.
  intros Hshort. split.
  - destruct data as [|x rest] eqn:Hd.
    + exists (no_samples "MinMaxScaler"), self. split; [reflexivity|]. split; reflexivity.
    + destruct (lstm_train_short_series self log (x :: rest) parameters Hshort
                  ltac:(discriminate)) as (self' & Hrun & Hm).
      exists (IndexError "tuple index out of range"), self'.
      split; [exact Hrun|]. split; [exact Hm | reflexivity].
  - intros a b c d e.
    destruct (lstm_train_short_series (LSTMForecaster_init 30) [] [a; b; c; d; e] None)
      as (self' & Hrun & Hm).
    + cbn. lia.
    + discriminate.
    + exists self'. split; [exact Hrun | exact Hm].
Qed.

Lemma forecast_loop_app (m : KerasModel) :
  forall (periods : nat) (cur preds : list Q),
    forecast_loop m periods cur preds = preds ++ forecast_loop m periods cur [].
Proof.
  induction periods as [|n IH]; intros cur preds; cbn [forecast_loop].
  - rewrite app_nil_r. reflexivity.
  - rewrite (IH _ (preds ++ _)), (IH _ ([] ++ _)), <- app_assoc. reflexivity.
Qed.

Lemma forecast_loop_length (m : KerasModel) :
  forall (periods : nat) (cur : list Q),
    length (forecast_loop m periods cur []) = periods.
Proof.
  induction periods as [|n IH]; intros cur; cbn [forecast_loop]; [reflexivity|].
  rewrite forecast_loop_app, length_app, IH. cbn. lia.
Qed.

(** The k-th prediction is the network's answer on the window obtained
    from the initial window and the k earlier predictions by keeping the
    last entries: nothing else enters it. *)
Lemma forecast_loop_window (m : KerasModel) :
  forall (periods : nat) (cur : list Q) (k : nat),
    (1 <= length cur)%nat -> (k < periods)%nat ->
    forecast_loop m periods cur [] !! k
      = Some (keras_predict m
                (drop k (cur ++ take k (forecast_loop m periods cur [])))).
Proof.
  induction periods as [|n IH]; intros cur k Hcur Hk; [lia|].
  cbn [forecast_loop]. rewrite forecast_loop_app. cbn [app].
  set (p := keras_predict m cur).
  set (R := forecast_loop m n (drop 1 cur ++ [p]) []).
  destruct k as [|k].
  - cbn. rewrite app_nil_r. reflexivity.
  - cbn [lookup list_lookup take]. change ((p :: R) !! S k) with (R !! k).
    unfold R at 1. rewrite IH.
    + fold R. f_equal. f_equal.
      destruct cur as [|c cur']; [cbn in Hcur; lia|].
      cbn [drop app]. rewrite <- app_assoc. reflexivity.
    + rewrite length_app, length_drop. cbn. lia.
    + lia.
Qed.

Lemma py_slice_last_length {A} (l : list A) (L : nat) :
  (1 <= L <= length l)%nat -> length (py_slice_last l L) = L.
Proof.
  intros H. unfold py_slice_last. destruct L as [|L']; [lia|].
  rewrite length_drop. lia.
Qed.

(** C3 (as amended). For a forecaster whose model and scaler are set, a
    window length L >= 1, an input of at least L raw values and
    periods >= 1, [forecast] returns exactly [periods] values and leaves
    the forecaster unchanged.  The values are the inverse transforms of
    the normalised predictions; the k-th normalised prediction is the
    network's answer on the last L entries of the initial window (the
    last L normalised inputs) followed by the k earlier predictions. *)
Theorem C3_autoregressive_forecast (self : LSTMForecaster) (log : list KerasEvent)
    (m : KerasModel) (f : ScalerFit) (last_sequence : list Q) (periods : Z) :
  lstm_model self = Some m ->
  lstm_scaler self = Some f ->
  (1 <= sequence_length self <= length last_sequence)%nat ->
  1 <= periods ->
  let L := sequence_length self in
  let window0 := drop (length last_sequence - L) (normalized f last_sequence) in
  exists predictions : list Q,
    LSTMForecaster_forecast last_sequence periods (self, log)
      = (Ok (map (fun x => (x - min_ f) / scale_ f)%Q predictions), (self, log)) /\
    Z.of_nat (length (map (fun x => (x - min_ f) / scale_ f)%Q predictions)) = periods /\
    length window0 = L /\
    forall k : nat, (k < Z.to_nat periods)%nat ->
      predictions !! k
        = Some (keras_predict m (drop k (window0 ++ take k predictions))).
Proof.
  intros Hm Hf HL Hp L window0.
  assert (Hne : last_sequence <> []) by (destruct last_sequence; [cbn in HL; lia | discriminate]).
  assert (Hlenn : length (normalized f last_sequence) = length last_sequence)
    by (unfold normalized; apply length_map).
  assert (Hw0 : py_slice_last (normalized f last_sequence) L = window0).
  { unfold py_slice_last, window0. fold L in HL.
    destruct L as [|L'] eqn:EL; [lia|]. rewrite Hlenn. reflexivity. }
  assert (Hlenw : length window0 = L).
  { rewrite <- Hw0. apply py_slice_last_length. rewrite Hlenn. exact HL. }
  set (preds := forecast_loop m (Z.to_nat periods) window0 []).
  assert (Hlenp : length preds = Z.to_nat periods) by apply forecast_loop_length.
  exists preds. split; [|split; [|split]].
  - unfold LSTMForecaster_forecast, bind, get, lift, ret. cbn [fst].
    rewrite Hm, Hf. rewrite (scaler_transform_nonempty f last_sequence Hne).
    fold L. rewrite Hw0. unfold np_reshape_window.
    rewrite Hlenw, Nat.eqb_refl. fold preds.
    rewrite scaler_inverse_nonempty; [reflexivity|].
    intros Hnil. rewrite Hnil in Hlenp. cbn in Hlenp. lia.
  - rewrite length_map, Hlenp. lia.
  - exact Hlenw.
  - intros k Hk. unfold preds. apply forecast_loop_window; [lia | exact Hk].
Qed.

(** *** The guard of [forecast] *)

Lemma lstm_forecast_guard (self : LSTMForecaster) (log : list KerasEvent)
    (last_sequence : list Q) (periods : Z) :
  lstm_model self = None ->
  LSTMForecaster_forecast last_sequence periods (self, log)
    = (Raise not_trained, (self, log)).
Proof.
  intros Hm. unfold LSTMForecaster_forecast, bind, get. cbn [fst]. rewrite Hm. reflexivity.
Qed.

Lemma lstm_forecast_past_guard (self : LSTMForecaster) (log : list KerasEvent)
    (m : KerasModel) (last_sequence : list Q) (periods : Z) :
  lstm_model self = Some m ->
  fst (LSTMForecaster_forecast last_sequence periods (self, log)) <> Raise not_trained.
Proof.
  intros Hm. unfold LSTMForecaster_forecast, bind, get, lift, ret. cbn [fst]. rewrite Hm.
  destruct (lstm_scaler self) as [f|]; [|cbn; discriminate].
  cbn [scaler_transform]. destruct last_sequence as [|x xs]; [cbn; discriminate|].
  cbn [check_array rbind]. unfold np_reshape_window.
  destruct (Nat.eqb _ _); [|cbn; discriminate].
  cbn [scaler_inverse_transform].
  destruct (forecast_loop _ _ _ _); cbn; discriminate.
Qed.

(** A [train] that returns leaves the model set. *)
Lemma lstm_train_ok_model (st st' : LSTMState) (data : list Q)
    (parameters : option (gmap string PyVal)) (metrics : Metrics) :
  LSTMForecaster_train data parameters st = (Ok metrics, st') ->
  exists m, lstm_model (fst st') = Some m.
Proof.
  destruct st as [self log]. unfold LSTMForecaster_train.
  unfold bind at 1. destruct (prepare_data data (self, log)) as [[[X y]|e] [s1 l1]];
    [|discriminate].
  unfold bind at 1. unfold lift at 1.
  destruct (shape_index (np_shape X) 1) as [ts|e]; [|discriminate].
  unfold build_model, keras_log_event, lstm_set_model, modify, bind, ret, lift, get.
  cbn [fst].
  destruct (keras_fit _ _ _ _ _ _ _) as [m'|e]; [|discriminate].
  destruct (mean_squared_error _ _) as [mse|e]; [|discriminate].
  cbn [lstm_scaler].
  destruct (scaler_inverse_transform _ _) as [yv|e]; [|discriminate].
  destruct (scaler_inverse_transform _ _) as [pv|e]; [|discriminate].
  destruct (mean_absolute_percentage_error _ _) as [mape|e]; [|discriminate].
  intros [= _ <-]. cbn. eauto.
Qed.

(** A [load] that returns leaves the model set. *)
Lemma lstm_load_ok_model (st st' : LSTMState) (path : string) :
  LSTMForecaster_load path st = (Ok tt, st') ->
  exists m, lstm_model (fst st') = Some m.
Proof.
  destruct st as [self log].
  unfold LSTMForecaster_load, bind, lift, lstm_set_model, lstm_set_scaler, modify.
  destruct (keras_load_model path) as [m|e]; [|discriminate].
  destruct (joblib_load_scaler _) as [sc|e]; [|discriminate].
  intros [= <-]. cbn. eauto.
Qed.

(* ===================================================================== *)
(** ** Properties of the seasonal-trend forecaster and the forecast endpoint *)
(* ===================================================================== *)









(** *** [train] and [forecast] of the Prophet forecaster *)

Lemma prophet_train_run (self : ProphetForecaster) (df : list (Timestamp * Q))
    (parameters : option (gmap string PyVal)) :
  let params := match parameters with
                | Some p => p ∪ prophet_default_params
                | None => prophet_default_params
                end in
  forall (pf : ProphetFit) (mape mse : Q),
    prophet_validate params = None ->
    prophet_fit params df = Ok pf ->
    mean_absolute_percentage_error (map snd df) (map yhat (map (row_at pf) (map fst df)))
      = Ok mape ->
    mean_squared_error (map snd df) (map yhat (map (row_at pf) (map fst df))) = Ok mse ->
    ProphetForecaster_train df parameters self
      = (Ok {| m_mape := mape; m_rmse := np_sqrt mse; m_accuracy := (1 - mape)%Q |},
         {| pf_model := Some (trained_prophet params df pf);
            pf_scaler := pf_scaler self |}).
Proof.
  intros params pf mape mse Hv Hfit Hmape Hmse.
  unfold ProphetForecaster_train. fold params.
  unfold bind, lift, ret, pf_set_model, modify, Prophet_new, Prophet_fit.
  rewrite Hv. cbn [prophet_params rbind]. rewrite Hfit. cbn [rbind].
  unfold Prophet_predict. cbn [prophet_fitted pf_scaler].
  change (map (fun d : Timestamp =>
                 let '(y, lo, hi) := prophet_predict pf d in
                 {| ds := d; yhat := y; yhat_lower := lo; yhat_upper := hi |})
              (map fst df))
    with (map (row_at pf) (map fst df)).
  rewrite Hmape, Hmse. reflexivity.
Qed.

(** A [train] that returns has gone through every library call. *)
Lemma prophet_train_inv (self self' : ProphetForecaster) (df : list (Timestamp * Q))
    (parameters : option (gmap string PyVal)) (metrics : Metrics) :
  ProphetForecaster_train df parameters self = (Ok metrics, self') ->
  let params := match parameters with
                | Some p => p ∪ prophet_default_params
                | None => prophet_default_params
                end in
  exists (pf : ProphetFit) (mape mse : Q),
    prophet_validate params = None /\
    prophet_fit params df = Ok pf /\
    mean_absolute_percentage_error (map snd df) (map yhat (map (row_at pf) (map fst df)))
      = Ok mape /\
    mean_squared_error (map snd df) (map yhat (map (row_at pf) (map fst df))) = Ok mse.
Proof.
  intros Hrun params. revert Hrun.
  unfold ProphetForecaster_train. fold params.
  unfold bind, lift, ret, pf_set_model, modify, Prophet_new, Prophet_fit.
  destruct (prophet_validate params) as [e|] eqn:Hv; [discriminate|].
  cbn [prophet_params rbind].
  destruct (prophet_fit params df) as [pf|e] eqn:Hfit; [|discriminate].
  cbn [rbind]. unfold Prophet_predict. cbn [prophet_fitted pf_scaler].
  change (map (fun d : Timestamp =>
                 let '(y, lo, hi) := prophet_predict pf d in
                 {| ds := d; yhat := y; yhat_lower := lo; yhat_upper := hi |})
              (map fst df))
    with (map (row_at pf) (map fst df)).
  destruct (mean_absolute_percentage_error _ _) as [mape|e] eqn:Hmape; [|discriminate].
  destruct (mean_squared_error _ _) as [mse|e] eqn:Hmse; [|discriminate].
  intros _. exists pf, mape, mse. repeat split; assumption.
Qed.


Lemma prophet_forecast_guard (self : ProphetForecaster) (periods : Z) :
  pf_model self = None ->
  ProphetForecaster_forecast periods self = (Raise not_trained, self).
Proof.
  intros Hm. unfold ProphetForecaster_forecast, bind, get. rewrite Hm. reflexivity.
Qed.

Lemma prophet_forecast_past_guard (self : ProphetForecaster) (model : Prophet ProphetFit)
    (periods : Z) :
  pf_model self = Some model ->
  pd_date_range_negative <> Raise not_trained ->
  fst (ProphetForecaster_forecast periods self) <> Raise not_trained.
Proof.
  intros Hm Hneg. unfold ProphetForecaster_forecast, bind, get, lift, ret. rewrite Hm.
  unfold make_future_dataframe, pd_date_range.
  destruct (history_dates model) as [h|]; [|cbn; discriminate].
  destruct (periods + 1 <? 0).
  - destruct pd_date_range_negative as [dates|e] eqn:E; cbn [rbind].
    + unfold Prophet_predict. destruct (prophet_fitted model); cbn; discriminate.
    + cbn. congruence.
  - cbn [rbind]. unfold Prophet_predict.
    destruct (prophet_fitted model); cbn; discriminate.
Qed.

Lemma prophet_train_ok_model (self self' : ProphetForecaster)
    (df : list (Timestamp * Q)) (parameters : option (gmap string PyVal))
    (metrics : Metrics) :
  ProphetForecaster_train df parameters self = (Ok metrics, self') ->
  exists model, pf_model self' = Some model.
Proof.
  intros Hrun.
  destruct (prophet_train_inv _ _ _ _ _ Hrun) as (pf & mape & mse & Hv & Hfit & Hmape & Hmse).
  rewrite (prophet_train_run self df parameters pf mape mse Hv Hfit Hmape Hmse) in Hrun.
  injection Hrun as _ <-. cbn. eauto.
Qed.

Lemma prophet_load_ok_model (self self' : ProphetForecaster) (path : string) :
  ProphetForecaster_load path self = (Ok tt, self') ->
  exists model, pf_model self' = Some model.
Proof.
  unfold ProphetForecaster_load, bind, lift, pf_set_model, modify.
  destruct (joblib_load_prophet path) as [model|e]; [|discriminate].
  intros [= <-]. cbn. eauto.
Qed.

Lemma rmapM_length {A B} (f : A -> result B) :
  forall (l : list A) (l' : list B), rmapM f l = Ok l' -> length l' = length l.
Proof.
  induction l as [|a l IH]; intros l'; cbn [rmapM].
  - intros [= <-]. reflexivity.
  - destruct (f a) as [b|e]; cbn [rbind]; [|discriminate].
    destruct (rmapM f l) as [bs|e]; cbn [rbind]; [|discriminate].
    intros [= <-]. cbn. f_equal. apply IH. reflexivity.
Qed.




(** C8 (as amended). For both forecasters, [forecast] on an instance
    whose model attribute is unset -- as on a freshly constructed one --
    raises the ValueError "Model not trained. Call train() first." and
    leaves the instance as it was; after a [train] or a [load] that
    returned, [forecast] does not raise that error (for Prophet, provided
    pandas does not raise it itself when asked for a negative number of
    periods). *)
Theorem C8_forecast_requires_model :
  (forall (self : ProphetForecaster) (periods : Z),
     pf_model self = None ->
     ProphetForecaster_forecast periods self = (Raise not_trained, self)) /\
  pf_model ProphetForecaster_init = None /\
  (forall (self : LSTMForecaster) (log : list KerasEvent) (last_sequence : list Q)
          (periods : Z),
     lstm_model self = None ->
     LSTMForecaster_forecast last_sequence periods (self, log)
       = (Raise not_trained, (self, log))) /\
  (forall L : nat, lstm_model (LSTMForecaster_init L) = None) /\
  (forall (self self' : ProphetForecaster) (df : list (Timestamp * Q))
          (parameters : option (gmap string PyVal)) (metrics : Metrics) (periods : Z),
     ProphetForecaster_train df parameters self = (Ok metrics, self') ->
     pd_date_range_negative <> Raise not_trained ->
     fst (ProphetForecaster_forecast periods self') <> Raise not_trained) /\
  (forall (self self' : ProphetForecaster) (path : string) (periods : Z),
     ProphetForecaster_load path self = (Ok tt, self') ->
     pd_date_range_negative <> Raise not_trained ->
     fst (ProphetForecaster_forecast periods self') <> Raise not_trained) /\
  (forall (st st' : LSTMState) (data : list Q)
          (parameters : option (gmap string PyVal)) (metrics : Metrics)
          (last_sequence : list Q) (periods : Z),
     LSTMForecaster_train data parameters st = (Ok metrics, st') ->
     fst (LSTMForecaster_forecast last_sequence periods st') <> Raise not_trained) /\
  (forall (st st' : LSTMState) (path : string) (last_sequence : list Q) (periods : Z),
     LSTMForecaster_load path st = (Ok tt, st') ->
     fst (LSTMForecaster_forecast last_sequence periods st') <> Raise not_trained).
Proof.
  split; [exact prophet_forecast_guard|].
  split; [reflexivity|].
  split; [exact lstm_forecast_guard|].
  split; [reflexivity|].
  split.
  { intros self self' df parameters metrics periods Htrain Hneg.
    destruct (prophet_train_ok_model _ _ _ _ _ Htrain) as [model Hm].
    exact (prophet_forecast_past_guard self' model periods Hm Hneg). }
  split.
  { intros self self' path periods Hload Hneg.
    destruct (prophet_load_ok_model _ _ _ Hload) as [model Hm].
    exact (prophet_forecast_past_guard self' model periods Hm Hneg). }
  split.
  { intros st [self' log'] data parameters metrics last_sequence periods Htrain.
    destruct (lstm_train_ok_model _ _ _ _ _ Htrain) as [m Hm].
    exact (lstm_forecast_past_guard self' log' m last_sequence periods Hm). }
  intros st [self' log'] path last_sequence periods Hload.
  destruct (lstm_load_ok_model _ _ _ Hload) as [m Hm].
  exact (lstm_forecast_past_guard self' log' m last_sequence periods Hm).
Qed.

(* ===================================================================== *)
(** ** Properties of the registry and the background task *)
(* ===================================================================== *)

Lemma job_mutate_run (st : Store) (job_id : string) (f : Job -> Job) (job : Job) :
  training_jobs st !! job_id = Some job ->
  job_mutate job_id f st = (Ok tt, written st (<[job_id := f job]> (training_jobs st))).
Proof.
  intros Hj. unfold job_mutate, jobs_getitem, jobs_setitem, store_write, bind, get, modify, ret.
  rewrite Hj. reflexivity.
Qed.

Lemma train_model_run (st : Store) (job_id : string) (now : Clock)
    (request : TrainingRequest) :
  exists job : Job,
    job_status job = PENDING /\
    train_model job_id now request st
      = (Ok ({| tresp_jobId := job_id;
                tresp_modelType := treq_modelType request;
                tresp_status := PENDING;
                tresp_accuracy := None; tresp_mape := None;
                tresp_errorMessage := None |},
             [(job_id, request)]),
         written st (<[job_id := job]> (training_jobs st))).
Proof. eexists. split; [|reflexivity]. reflexivity. Qed.

(** The task on a job that is in the registry: two writes, and no
    exception leaves it. *)
Lemma train_model_background_run (st : Store) (job_id : string) (now : Clock)
    (request : TrainingRequest) (job : Job) :
  training_jobs st !! job_id = Some job ->
  let r1 := <[job_id := set_in_progress job]> (training_jobs st) in
  let r2 := <[job_id := finished_job now request job]> r1 in
  train_model_background job_id now request st
    = (Ok tt, {| training_jobs := r2; snapshots := snapshots st ++ [r1; r2] |}).
Proof.
  intros Hj r1 r2. unfold train_model_background, try_except.
  rewrite (bind_ok _ _ _ _ _ (job_mutate_run st job_id set_in_progress job Hj)).
  fold r1.
  assert (Hj1 : training_jobs (written st r1) !! job_id = Some (set_in_progress job))
    by (cbn [written training_jobs]; unfold r1; apply lookup_insert_eq).
  unfold r2, finished_job.
  destruct (train_and_save now request) as [[metrics model_path]|e].
  - unfold bind at 1. unfold lift at 1.
    rewrite (job_mutate_run _ job_id _ _ Hj1).
    unfold written. cbn [training_jobs snapshots]. rewrite <- app_assoc. reflexivity.
  - unfold bind at 1. unfold lift at 1.
    rewrite (job_mutate_run _ job_id _ _ Hj1).
    unfold written. cbn [training_jobs snapshots]. rewrite <- app_assoc. reflexivity.
Qed.

Lemma finished_job_terminal (now : Clock) (request : TrainingRequest) (job : Job) :
  terminal (job_status (finished_job now request job)).
Proof.
  unfold finished_job, terminal.
  destruct (train_and_save now request) as [[metrics model_path]|e]; cbn; auto.
Qed.

Lemma stage_failure_raises (now : Clock) (request : TrainingRequest) (e : PyExc) :
  stage_failure now request e -> train_and_save now request = Raise e.
Proof.
  intros H. unfold train_and_save.
  destruct H as [Hf | df self' Hty Hf Ht | df metrics self' self'' Hty Hf Ht Hs
                | df Hty Hf Hy | df data st' Hty Hf Hy Ht
                | df data metrics st' st'' Hty Hf Hy Ht Hs | df Hn1 Hn2 Hf He];
    rewrite Hf; cbn [rbind]; try reflexivity.
  - rewrite Hty. cbn [String.eqb Ascii.eqb Bool.eqb]. rewrite Ht. reflexivity.
  - rewrite Hty. cbn [String.eqb Ascii.eqb Bool.eqb]. rewrite Ht, Hs. reflexivity.
  - rewrite Hty. cbn [String.eqb Ascii.eqb Bool.eqb]. rewrite Hy. reflexivity.
  - rewrite Hty. cbn [String.eqb Ascii.eqb Bool.eqb]. rewrite Hy. cbn [rbind].
    rewrite Ht. reflexivity.
  - rewrite Hty. cbn [String.eqb Ascii.eqb Bool.eqb]. rewrite Hy. cbn [rbind].
    rewrite Ht, Hs. reflexivity.
  - apply String.eqb_neq in Hn1, Hn2. rewrite Hn1, Hn2, He. reflexivity.
Qed.

(** C7. For a job that is in the registry, an exception raised while
    the background task prepares the data, trains or saves the model is
    caught: the task returns normally, the job's status is FAILED and its
    errorMessage is the exception's text; the status endpoint then
    reports exactly that. *)
Theorem C7_background_failure_is_recorded (st : Store) (job_id : string)
    (now : Clock) (request : TrainingRequest) (job : Job) (e : PyExc) :
  training_jobs st !! job_id = Some job ->
  stage_failure now request e ->
  exists (st' : Store) (job' : Job),
    train_model_background job_id now request st = (Ok tt, st') /\
    training_jobs st' !! job_id = Some job' /\
    job_status job' = FAILED /\
    job_errorMessage job' = Some (exc_str e) /\
    get_training_status job_id st'
      = (Ok {| tresp_jobId := job_id;
               tresp_modelType := job_modelType job;
               tresp_status := FAILED;
               tresp_accuracy := job_accuracy job;
               tresp_mape := job_mape job;
               tresp_errorMessage := Some (exc_str e) |}, st').
Proof.
  intros Hj Hfail. apply stage_failure_raises in Hfail.
  rewrite (train_model_background_run st job_id now request job Hj).
  unfold finished_job. rewrite Hfail.
  eexists _, (set_failed e now (set_in_progress job)).
  split; [reflexivity|]. cbn [training_jobs].
  split; [apply lookup_insert_eq|]. split; [reflexivity|]. split; [reflexivity|].
  unfold get_training_status, bind, get. cbn [training_jobs].
  rewrite lookup_insert_eq. reflexivity.
Qed.

Lemma legal_transition_refl (a : option JobStatus) : legal_transition a a.
Proof. destruct a as [[]|]; exact I. Qed.

Lemma status_at_insert_ne (j j' : string) (job : Job) (r : gmap string Job) :
  j <> j' -> status_at j' (<[j := job]> r) = status_at j' r.
Proof. intros Hne. unfold status_at. rewrite lookup_insert_ne by exact Hne. reflexivity. Qed.

Lemma status_at_insert_eq (j : string) (job : Job) (r : gmap string Job) :
  status_at j (<[j := job]> r) = Some (job_status job).
Proof. unfold status_at. rewrite lookup_insert_eq. reflexivity. Qed.

(** Extending a history by one registry value. *)
Lemma monotone_history_snoc (j : string) (h : list (gmap string Job))
    (r r' : gmap string Job) :
  monotone_history j h -> last h = Some r ->
  legal_transition (status_at j r) (status_at j r') ->
  monotone_history j (h ++ [r']).
Proof.
  intros Hmono Hlast Hlegal i r1 r2 H1 H2.
  rewrite last_lookup in Hlast.
  destruct (Nat.lt_ge_cases (S i) (length h)) as [Hlt | Hge].
  - rewrite lookup_app_l in H1 by lia. rewrite lookup_app_l in H2 by lia.
    exact (Hmono i r1 r2 H1 H2).
  - assert (Hi : S i = length h).
    { apply lookup_lt_Some in H2. rewrite length_app in H2. cbn in H2. lia. }
    rewrite lookup_app_l in H1 by lia.
    rewrite lookup_app_r in H2 by lia.
    replace (S i - length h)%nat with 0%nat in H2 by lia. cbn in H2.
    injection H2 as <-.
    replace (pred (length h)) with i in Hlast by lia.
    rewrite Hlast in H1. injection H1 as <-. exact Hlegal.
Qed.

Lemma last_snoc_some {A} (l : list A) (x : A) : last (l ++ [x]) = Some x.
Proof. apply last_snoc. Qed.

(** Along a monotone history a terminal status never changes. *)
Lemma monotone_history_terminal (j : string) (h : list (gmap string Job)) :
  monotone_history j h ->
  forall (d i : nat) (r1 r2 : gmap string Job) (s : JobStatus),
    h !! i = Some r1 -> h !! (i + d)%nat = Some r2 ->
    status_at j r1 = Some s -> terminal s ->
    status_at j r2 = Some s.
Proof.
  intros Hmono. induction d as [|d IH]; intros i r1 r2 s H1 H2 Hs Hterm.
  - rewrite Nat.add_0_r in H2. congruence.
  - destruct (lookup_lt_is_Some_2 h (i + d)) as [rm Hm].
    { apply lookup_lt_Some in H2. lia. }
    pose proof (IH i r1 rm s H1 Hm Hs Hterm) as Hsm.
    replace (i + S d)%nat with (S (i + d)) in H2 by lia.
    pose proof (Hmono (i + d)%nat rm r2 Hm H2) as Hlegal.
    rewrite Hsm in Hlegal.
    destruct Hterm as [-> | ->]; destruct (status_at j r2) as [[]|];
      cbn in Hlegal; try contradiction; reflexivity.
Qed.

Lemma server_invariant_init : server_invariant server_init.
Proof.
  split.
  - intros j i r1 r2 H1 H2. apply lookup_lt_Some in H2. cbn in H2. lia.
  - reflexivity.
  - intros j request [].
  - constructor.
Qed.

Lemma server_invariant_step (sv sv' : Server) :
  server_invariant sv -> server_step sv sv' -> server_invariant sv'.
Proof.
  intros [Hmono Hlast Hqueued Hnodup] Hstep.
  destruct Hstep as [sv job_id now request resp tasks st' Hfresh Hrun
                    | sv before job_id request after now r st' Hq Hrun
                    | sv job_id r st' Hrun].
  - destruct (train_model_run (store sv) job_id now request) as (job & Hpending & Hrun').
    rewrite Hrun' in Hrun. injection Hrun as <- <- <-.
    split; cbn [store queue written snapshots training_jobs].
    + intros j. change (∅ :: snapshots (store sv) ++ [<[job_id:=job]> (training_jobs (store sv))])
        with ((∅ :: snapshots (store sv)) ++ [<[job_id:=job]> (training_jobs (store sv))]).
      eapply monotone_history_snoc; [apply Hmono | exact Hlast |].
      destruct (decide (job_id = j)) as [<- | Hne].
      * rewrite status_at_insert_eq, Hpending. unfold status_at. rewrite Hfresh. exact I.
      * rewrite status_at_insert_ne by exact Hne. apply legal_transition_refl.
    + change (∅ :: snapshots (store sv) ++ [<[job_id:=job]> (training_jobs (store sv))])
        with ((∅ :: snapshots (store sv)) ++ [<[job_id:=job]> (training_jobs (store sv))]).
      apply last_snoc.
    + intros j req Hin. apply in_app_or in Hin. destruct Hin as [Hin | [Heq | []]].
      * assert (Hne : job_id <> j).
        { intros <-. specialize (Hqueued _ _ Hin). unfold status_at in Hqueued.
          rewrite Hfresh in Hqueued. discriminate. }
        rewrite status_at_insert_ne by exact Hne. exact (Hqueued _ _ Hin).
      * injection Heq as <- <-. rewrite status_at_insert_eq, Hpending. reflexivity.
    + rewrite map_app. cbn [map fst]. apply NoDup_app. split; [exact Hnodup|].
      split; [|apply NoDup_singleton].
      intros j Hj Hj'. apply list_elem_of_singleton in Hj'. subst j.
      apply list_elem_of_In, in_map_iff in Hj. destruct Hj as ([j req] & Heq & Hin).
      cbn in Heq. subst j. specialize (Hqueued _ _ Hin). unfold status_at in Hqueued.
      rewrite Hfresh in Hqueued. discriminate.
  - assert (Hin : In (job_id, request) (queue sv))
      by (rewrite Hq; apply in_or_app; right; left; reflexivity).
    pose proof (Hqueued _ _ Hin) as Hpend. unfold status_at in Hpend.
    destruct (training_jobs (store sv) !! job_id) as [job|] eqn:Hjob; [|discriminate].
    cbn in Hpend. injection Hpend as Hpend.
    rewrite (train_model_background_run (store sv) job_id now request job Hjob) in Hrun.
    injection Hrun as _ <-.
    set (r1 := <[job_id := set_in_progress job]> (training_jobs (store sv))).
    set (r2 := <[job_id := finished_job now request job]> r1).
    assert (Hmono1 : forall j, monotone_history j ((∅ :: snapshots (store sv)) ++ [r1])).
    { intros j. eapply monotone_history_snoc; [apply Hmono | exact Hlast |].
      destruct (decide (job_id = j)) as [<- | Hne].
      - unfold r1. rewrite status_at_insert_eq. unfold status_at. rewrite Hjob. cbn.
        rewrite Hpend. exact I.
      - unfold r1. rewrite status_at_insert_ne by exact Hne. apply legal_transition_refl. }
    rewrite Hq in Hnodup. rewrite map_app in Hnodup. cbn [map fst] in Hnodup.
    split; cbn [store queue snapshots training_jobs].
    + intros j.
      change (∅ :: snapshots (store sv) ++ [r1; r2])
        with ((∅ :: snapshots (store sv)) ++ ([r1] ++ [r2])).
      rewrite app_assoc.
      eapply monotone_history_snoc; [apply Hmono1 | apply last_snoc |].
      destruct (decide (job_id = j)) as [<- | Hne].
      * unfold r2, r1. rewrite !status_at_insert_eq.
        destruct (finished_job_terminal now request job) as [-> | ->]; exact I.
      * unfold r2. rewrite status_at_insert_ne by exact Hne. apply legal_transition_refl.
    + change (∅ :: snapshots (store sv) ++ [r1; r2])
        with ((∅ :: snapshots (store sv)) ++ ([r1] ++ [r2])).
      rewrite app_assoc. apply last_snoc.
    + intros j req Hin'.
      assert (Hne : job_id <> j).
      { intros <-. apply NoDup_app in Hnodup. destruct Hnodup as (_ & Hdisj & Hnd).
        apply in_app_or in Hin'. destruct Hin' as [Hb | Ha].
        - apply (Hdisj job_id).
          + apply list_elem_of_In, in_map_iff. exists (job_id, req). split; [reflexivity | exact Hb].
          + left.
        - apply NoDup_cons in Hnd. destruct Hnd as [Hnot _]. apply Hnot.
          apply list_elem_of_In, in_map_iff. exists (job_id, req). split; [reflexivity | exact Ha]. }
      unfold r2, r1. rewrite !status_at_insert_ne by exact Hne.
      apply (Hqueued j req). rewrite Hq. apply in_app_or in Hin'.
      apply in_or_app. destruct Hin' as [Hb | Ha]; [left; exact Hb | right; right; exact Ha].
    + rewrite map_app. apply NoDup_app in Hnodup. destruct Hnodup as (Hb & Hdisj & Hnd).
      apply NoDup_cons in Hnd. destruct Hnd as [_ Ha].
      apply NoDup_app. split; [exact Hb|]. split; [|exact Ha].
      intros j Hj Hj'. apply (Hdisj j Hj). right. exact Hj'.
  - assert (Hst : st' = store sv).
    { revert Hrun. unfold get_training_status, bind, get, ret, raise.
      destruct (training_jobs (store sv) !! job_id); intros [= _ <-]; reflexivity. }
    subst st'. split; cbn [store queue]; assumption.
Qed.

Lemma server_invariant_reachable (sv : Server) :
  rtc server_step server_init sv -> server_invariant sv.
Proof.
  intros Hreach.
  refine (rtc_ind_r (fun s => server_invariant s) server_init _ _ sv Hreach).
  - apply server_invariant_init.
  - intros y z _ Hstep IH. exact (server_invariant_step y z IH Hstep).
Qed.

(** C6. (1) A submission with a fresh job id followed by its background
    task writes the registry three times, leaving the job PENDING, then
    IN_PROGRESS, then COMPLETED or FAILED, and no other job's status is
    touched.  (2) In every state the server reaches, the successive
    values of the registry move each job only along PENDING ->
    IN_PROGRESS -> (COMPLETED | FAILED); and a job seen COMPLETED or
    FAILED keeps that status in every later value. *)
Theorem C6_status_is_monotone :
  (forall (st : Store) (job_id : string) (now1 now2 : Clock) (request : TrainingRequest),
     training_jobs st !! job_id = None ->
     exists (resp : TrainingResponse) (st1 st2 : Store) (r1 r2 r3 : gmap string Job),
       train_model job_id now1 request st = (Ok (resp, [(job_id, request)]), st1) /\
       tresp_status resp = PENDING /\
       train_model_background job_id now2 request st1 = (Ok tt, st2) /\
       snapshots st2 = snapshots st ++ [r1; r2; r3] /\
       training_jobs st2 = r3 /\
       status_at job_id r1 = Some PENDING /\
       status_at job_id r2 = Some IN_PROGRESS /\
       (status_at job_id r3 = Some COMPLETED \/ status_at job_id r3 = Some FAILED) /\
       (forall j : string, j <> job_id ->
          status_at j r1 = status_at j (training_jobs st) /\
          status_at j r2 = status_at j (training_jobs st) /\
          status_at j r3 = status_at j (training_jobs st)))
  /\
  (forall sv : Server,
     rtc server_step server_init sv ->
     forall j : string,
       monotone_history j (∅ :: snapshots (store sv)) /\
       (forall (i k : nat) (r1 r2 : gmap string Job) (s : JobStatus),
          (i <= k)%nat ->
          (∅ :: snapshots (store sv)) !! i = Some r1 ->
          (∅ :: snapshots (store sv)) !! k = Some r2 ->
          status_at j r1 = Some s -> terminal s ->
          status_at j r2 = Some s)).
Proof.
  split.
  - intros st job_id now1 now2 request Hfresh.
    destruct (train_model_run st job_id now1 request) as (job & Hpending & Hrun).
    set (r1 := <[job_id := job]> (training_jobs st)).
    assert (Hj1 : training_jobs (written st r1) !! job_id = Some job)
      by (cbn [written training_jobs]; unfold r1; apply lookup_insert_eq).
    pose proof (train_model_background_run (written st r1) job_id now2 request job Hj1)
      as Hbg. cbn beta zeta in Hbg. cbn [written training_jobs snapshots] in Hbg.
    set (r2 := <[job_id := set_in_progress job]> r1) in *.
    set (r3 := <[job_id := finished_job now2 request job]> r2) in *.
    eexists _, (written st r1), _, r1, r2, r3.
    split; [exact Hrun|]. split; [reflexivity|]. split; [exact Hbg|].
    cbn [snapshots training_jobs]. split; [rewrite <- app_assoc; reflexivity|].
    split; [reflexivity|].
    split; [unfold r1; rewrite status_at_insert_eq, Hpending; reflexivity|].
    split; [unfold r2; rewrite status_at_insert_eq; reflexivity|].
    split.
    { unfold r3. rewrite status_at_insert_eq.
      destruct (finished_job_terminal now2 request job) as [-> | ->]; auto. }
    intros j Hne. assert (Hne' : job_id <> j) by congruence.
    unfold r3, r2, r1. rewrite !status_at_insert_ne by exact Hne'. auto.
  - intros sv Hreach j.
    destruct (server_invariant_reachable sv Hreach) as [Hmono _ _ _].
    split; [apply Hmono|].
    intros i k r1 r2 s Hik H1 H2 Hs Hterm.
    replace k with (i + (k - i))%nat in H2 by lia.
    exact (monotone_history_terminal j _ (Hmono j) (k - i) i r1 r2 s H1 H2 Hs Hterm).
Qed.

(* ===================================================================== *)
(** ** Further properties of the registry and the background task *)
(* ===================================================================== *)

Lemma get_training_status_reads (st : Store) (job_id : string) :
  get_training_status job_id st
    = (match training_jobs st !! job_id with
       | None => Raise (HTTPException 404 "Training job not found")
       | Some job =>
           Ok {| tresp_jobId := job_id;
                 tresp_modelType := job_modelType job;
                 tresp_status := job_status job;
                 tresp_accuracy := job_accuracy job;
                 tresp_mape := job_mape job;
                 tresp_errorMessage := job_errorMessage job |}
       end, st).
Proof.
  unfold get_training_status, bind, get, ret, raise.
  destruct (training_jobs st !! job_id); reflexivity.
Qed.

(** X1. Submitting and then polling: whatever the registry held before
    (also an entry under the same id, which the submission overwrites),
    the submission returns PENDING with the job id and the request's
    model type and queues exactly one task, the one of this job; the
    status endpoint then answers PENDING with the request's model type
    and no accuracy, MAPE or error message; for every other id it answers
    as it did before the submission. *)
Theorem X1_poll_after_submit (st : Store) (job_id : string) (now : Clock)
    (request : TrainingRequest) :
  exists st1 : Store,
    train_model job_id now request st
      = (Ok ({| tresp_jobId := job_id;
                tresp_modelType := treq_modelType request;
                tresp_status := PENDING;
                tresp_accuracy := None; tresp_mape := None;
                tresp_errorMessage := None |},
             [(job_id, request)]), st1) /\
    get_training_status job_id st1
      = (Ok {| tresp_jobId := job_id;
               tresp_modelType := treq_modelType request;
               tresp_status := PENDING;
               tresp_accuracy := None; tresp_mape := None;
               tresp_errorMessage := None |}, st1) /\
    (forall other : string, other <> job_id ->
       fst (get_training_status other st1) = fst (get_training_status other st)).
Proof.
  destruct (train_model_run st job_id now request) as (job & Hpending & Hrun).
  eexists. split; [exact Hrun|].
  split.
  - rewrite get_training_status_reads. cbn [written training_jobs].
    rewrite lookup_insert_eq.
    revert Hrun. unfold train_model, jobs_setitem, store_write, bind, get, modify, ret.
    intros [= Hjob]. apply (f_equal (fun m => m !! job_id)) in Hjob.
    rewrite !lookup_insert_eq in Hjob. injection Hjob as <-. reflexivity.
  - intros other Hne. rewrite !get_training_status_reads. cbn [fst written training_jobs].
    rewrite lookup_insert_ne by congruence. reflexivity.
Qed.

Lemma job_mutate_missing (st : Store) (job_id : string) (f : Job -> Job) :
  training_jobs st !! job_id = None ->
  job_mutate job_id f st = (Raise (KeyError job_id), st).
Proof.
  intros Hj. unfold job_mutate. apply bind_raise.
  unfold jobs_getitem, bind, get, raise. rewrite Hj. reflexivity.
Qed.

(** X3. The background task for an id that is not in the registry: the
    KeyError of its first statement is caught, the handler's own update
    raises KeyError again, and that one leaves the task; the registry is
    not written. *)
Theorem X3_background_unknown_job (st : Store) (job_id : string) (now : Clock)
    (request : TrainingRequest) :
  training_jobs st !! job_id = None ->
  train_model_background job_id now request st = (Raise (KeyError job_id), st).
Proof.
  intros Hj. unfold train_model_background, try_except.
  rewrite (bind_raise _ _ _ _ _ (job_mutate_missing st job_id set_in_progress Hj)).
  apply job_mutate_missing, Hj.
Qed.

(** The text between [MODELS_DIR] and the extension in a model path. *)
Lemma property_or_global_cases (propertyId : option string) :
  property_or_global propertyId
    = match propertyId with
      | Some ""%string | None => "global"%string
      | Some s => s
      end.
Proof.
  destruct propertyId as [s|]; [|reflexivity]. unfold property_or_global.
  destruct s; reflexivity.
Qed.

(** X4. A seasonal-trend training job whose library calls all succeed
    ends COMPLETED: the job records accuracy = 1 - MAPE, the MAPE, and
    the model path, which joins MODELS_DIR and
    prophet_<propertyId or "global">_<stamp>.pkl; it keeps its model
    type and start time, and carries no error message it did not have;
    the status endpoint reports COMPLETED with these numbers. *)
Theorem X4_background_prophet_success (st : Store) (job_id : string) (now : Clock)
    (request : TrainingRequest) (job : Job) (df : list (Timestamp * Q))
    (pf : ProphetFit) (mape mse : Q) :
  let params := match treq_parameters request with
                | Some p => p ∪ prophet_default_params
                | None => prophet_default_params
                end in
  let model_path :=
    path_join MODELS_DIR
      ("prophet_"
         ++ match treq_propertyId request with
            | Some ""%string | None => "global"%string
            | Some s => s
            end
         ++ "_" ++ now_stamp now ++ ".pkl")%string in
  training_jobs st !! job_id = Some job ->
  treq_modelType request = "prophet" ->
  build_frame (treq_trainingData request) = Ok df ->
  prophet_validate params = None ->
  prophet_fit params df = Ok pf ->
  mean_absolute_percentage_error (map snd df) (map yhat (map (row_at pf) (map fst df)))
    = Ok mape ->
  mean_squared_error (map snd df) (map yhat (map (row_at pf) (map fst df))) = Ok mse ->
  joblib_dump model_path = Ok tt ->
  exists (st' : Store) (job' : Job),
    train_model_background job_id now request st = (Ok tt, st') /\
    training_jobs st' !! job_id = Some job' /\
    job_status job' = COMPLETED /\
    job_accuracy job' = Some (1 - mape)%Q /\
    job_mape job' = Some mape /\
    job_modelPath job' = Some model_path /\
    job_completedAt job' = Some (now_iso now) /\
    job_modelType job' = job_modelType job /\
    job_startedAt job' = job_startedAt job /\
    job_errorMessage job' = job_errorMessage job /\
    fst (get_training_status job_id st')
      = Ok {| tresp_jobId := job_id;
              tresp_modelType := job_modelType job;
              tresp_status := COMPLETED;
              tresp_accuracy := Some (1 - mape)%Q;
              tresp_mape := Some mape;
              tresp_errorMessage := job_errorMessage job |}.
Proof.
  intros params model_path Hj Hty Hdf Hv Hfit Hmape Hmse Hdump.
  assert (Hsave : train_and_save now request
                  = Ok ({| m_mape := mape; m_rmse := np_sqrt mse;
                           m_accuracy := (1 - mape)%Q |}, model_path)).
  { unfold train_and_save. rewrite Hdf. cbn [rbind]. rewrite Hty.
    cbn [String.eqb Ascii.eqb Bool.eqb].
    rewrite (prophet_train_run ProphetForecaster_init df (treq_parameters request)
               pf mape mse Hv Hfit Hmape Hmse).
    unfold ProphetForecaster_save, bind, get, lift. cbn [pf_model].
    rewrite property_or_global_cases. fold model_path. rewrite Hdump. reflexivity. }
  rewrite (train_model_background_run st job_id now request job Hj).
  unfold finished_job. rewrite Hsave.
  eexists _, _. split; [reflexivity|]. cbn [training_jobs].
  split; [apply lookup_insert_eq|].
  cbn [set_completed set_in_progress job_status job_accuracy job_mape job_modelPath
       job_completedAt job_modelType job_startedAt job_errorMessage m_accuracy m_mape].
  repeat (split; [reflexivity|]).
  rewrite get_training_status_reads. cbn [fst training_jobs].
  rewrite lookup_insert_eq. reflexivity.
Qed.

(** X5. A training request whose model type is neither "prophet" nor
    "lstm" (the request schema also admits "optimization") and whose
    dates parse ends FAILED with the message "Unknown model type: <type>". *)
Theorem X5_background_unknown_model_type (st : Store) (job_id : string) (now : Clock)
    (request : TrainingRequest) (job : Job) (df : list (Timestamp * Q)) :
  training_jobs st !! job_id = Some job ->
  treq_modelType request <> "prophet" ->
  treq_modelType request <> "lstm" ->
  build_frame (treq_trainingData request) = Ok df ->
  exists (st' : Store) (job' : Job),
    train_model_background job_id now request st = (Ok tt, st') /\
    training_jobs st' !! job_id = Some job' /\
    job_status job' = FAILED /\
    job_errorMessage job'
      = Some ("Unknown model type: " ++ treq_modelType request)%string /\
    job_accuracy job' = job_accuracy job /\
    job_modelPath job' = job_modelPath job.
Proof.
  intros Hj Hn1 Hn2 Hdf.
  assert (Hsave : train_and_save now request
                  = Raise (ValueError ("Unknown model type: " ++ treq_modelType request))).
  { apply stage_failure_raises. eapply fail_unknown_model_type; eauto. }
  rewrite (train_model_background_run st job_id now request job Hj).
  unfold finished_job. rewrite Hsave.
  eexists _, _. split; [reflexivity|]. cbn [training_jobs].
  split; [apply lookup_insert_eq|]. repeat split.
Qed.

(** X6. Whatever the outcome, the background task of a job that is in
    the registry leaves every other entry of the registry exactly as it
    was, keeps the registry's keys, and changes neither the model type
    nor the start time of its own job. *)
Theorem X6_background_touches_own_job_only (st : Store) (job_id : string)
    (now : Clock) (request : TrainingRequest) (job : Job) :
  training_jobs st !! job_id = Some job ->
  exists (st' : Store) (job' : Job),
    train_model_background job_id now request st = (Ok tt, st') /\
    training_jobs st' !! job_id = Some job' /\
    job_modelType job' = job_modelType job /\
    job_startedAt job' = job_startedAt job /\
    (forall other : string, other <> job_id ->
       training_jobs st' !! other = training_jobs st !! other) /\
    dom (training_jobs st') = dom (training_jobs st).
Proof.
  intros Hj.
  rewrite (train_model_background_run st job_id now request job Hj).
  eexists _, _. split; [reflexivity|]. cbn [training_jobs].
  split; [apply lookup_insert_eq|].
  split; [unfold finished_job; destruct (train_and_save now request) as [[m p]|e];
          reflexivity|].
  split; [unfold finished_job; destruct (train_and_save now request) as [[m p]|e];
          reflexivity|].
  split.
  - intros other Hne. rewrite !lookup_insert_ne by congruence. reflexivity.
  - rewrite dom_insert_lookup_L by (rewrite lookup_insert_eq; eauto).
    apply dom_insert_lookup_L. eauto.
Qed.

(** What the task does to an entry of the registry, whether or not its
    own job is there: the entry stays, with its model type and its start
    time. *)
Lemma train_model_background_keeps (st : Store) (job_id : string) (now : Clock)
    (request : TrainingRequest) (j : string) (job : Job) :
  training_jobs st !! j = Some job ->
  exists job' : Job,
    training_jobs (snd (train_model_background job_id now request st)) !! j = Some job' /\
    job_modelType job' = job_modelType job /\
    job_startedAt job' = job_startedAt job.
Proof.
  intros Hj. destruct (training_jobs st !! job_id) as [own|] eqn:Hown.
  - rewrite (train_model_background_run st job_id now request own Hown).
    cbn [snd training_jobs]. destruct (decide (j = job_id)) as [-> | Hne].
    + rewrite lookup_insert_eq. eexists. split; [reflexivity|].
      assert (own = job) by congruence. subst own.
      unfold finished_job.
      destruct (train_and_save now request) as [[m p]|e]; split; reflexivity.
    + rewrite !lookup_insert_ne by congruence. exists job. auto.
  - unfold train_model_background, try_except.
    rewrite (bind_raise _ _ _ _ _ (job_mutate_missing st job_id set_in_progress Hown)).
    rewrite (job_mutate_missing st job_id _ Hown). cbn [snd]. exists job. auto.
Qed.

Lemma server_step_keeps (sv sv' : Server) (j : string) (job : Job) :
  server_step sv sv' ->
  training_jobs (store sv) !! j = Some job ->
  exists job' : Job,
    training_jobs (store sv') !! j = Some job' /\
    job_modelType job' = job_modelType job /\
    job_startedAt job' = job_startedAt job.
Proof.
  intros Hstep Hj.
  destruct Hstep as [sv job_id now request resp tasks st' Hfresh Hrun
                    | sv before job_id request after now r st' Hq Hrun
                    | sv job_id r st' Hrun]; cbn [store].
  - destruct (train_model_run (store sv) job_id now request) as (job0 & _ & Hrun0).
    rewrite Hrun0 in Hrun. injection Hrun as _ _ <-. cbn [written training_jobs].
    rewrite lookup_insert_ne by congruence. exists job. auto.
  - destruct (train_model_background_keeps (store sv) job_id now request j job Hj)
      as (job' & Hj' & Hkeep).
    rewrite Hrun in Hj'. cbn [snd] in Hj'. exists job'. auto.
  - rewrite get_training_status_reads in Hrun. injection Hrun as _ <-.
    exists job. auto.
Qed.

(** Once reached, a state of the server has every job of the registry
    either PENDING with its task still queued, or COMPLETED or FAILED. *)
Lemma server_settled_reachable (sv : Server) :
  rtc server_step server_init sv ->
  forall (j : string) (job : Job),
    training_jobs (store sv) !! j = Some job ->
    (job_status job = PENDING /\ exists request, In (j, request) (queue sv)) \/
    terminal (job_status job).
Proof.
  intros Hreach.
  refine (rtc_ind_r (fun s => forall j job, training_jobs (store s) !! j = Some job ->
                       (job_status job = PENDING /\
                        exists request, In (j, request) (queue s)) \/
                       terminal (job_status job))
            server_init _ _ sv Hreach).
  - intros j job Hj. cbn in Hj. rewrite lookup_empty in Hj. discriminate.
  - intros y z Hy Hstep IH j job.
    destruct Hstep as [sv0 job_id now request resp tasks st' Hfresh Hrun
                      | sv0 before job_id request after now r st' Hq Hrun
                      | sv0 job_id r st' Hrun]; cbn [store queue].
    + destruct (train_model_run (store sv0) job_id now request) as (job0 & Hp & Hrun0).
      rewrite Hrun0 in Hrun. injection Hrun as _ <- <-. cbn [written training_jobs].
      destruct (decide (j = job_id)) as [-> | Hne].
      * rewrite lookup_insert_eq. intros [= <-]. left. split; [exact Hp|].
        exists request. apply in_or_app. right. left. reflexivity.
      * rewrite lookup_insert_ne by congruence. intros Hj.
        destruct (IH j job Hj) as [[Hs [rq Hin]] | Ht]; [left | right; exact Ht].
        split; [exact Hs|]. exists rq. apply in_or_app. left. exact Hin.
    + destruct (server_invariant_reachable sv0 Hy) as [_ _ Hqueued _].
      assert (Hs : status_at job_id (training_jobs (store sv0)) = Some PENDING).
      { apply (Hqueued job_id request). rewrite Hq. apply in_or_app. right. left.
        reflexivity. }
      unfold status_at in Hs.
      destruct (training_jobs (store sv0) !! job_id) as [own|] eqn:Hown; [|discriminate].
      rewrite (train_model_background_run (store sv0) job_id now request own Hown) in Hrun.
      injection Hrun as _ <-. cbn [training_jobs].
      destruct (decide (j = job_id)) as [-> | Hne].
      * rewrite lookup_insert_eq. intros [= <-]. right. apply finished_job_terminal.
      * rewrite !lookup_insert_ne by congruence. intros Hj.
        destruct (IH j job Hj) as [[Hst [rq Hin]] | Ht]; [left | right; exact Ht].
        split; [exact Hst|]. exists rq. rewrite Hq in Hin.
        apply in_app_or in Hin. apply in_or_app.
        destruct Hin as [Hin | [Heq | Hin]]; [left; exact Hin | | right; exact Hin].
        congruence.
    + rewrite get_training_status_reads in Hrun. injection Hrun as _ <-.
      exact (IH j job).
Qed.

(** X7. The status endpoint never reports IN_PROGRESS.  The background
    task contains no [await]: once started it runs from its first write
    to its last before the event loop serves another request.  So in
    every state the server reaches, a status response says PENDING,
    COMPLETED or FAILED, and it says PENDING exactly when the job's task
    is still in the queue. *)
Theorem X7_status_never_in_progress (sv : Server) (job_id : string)
    (resp : TrainingResponse) (st' : Store) :
  rtc server_step server_init sv ->
  get_training_status job_id (store sv) = (Ok resp, st') ->
  tresp_status resp <> IN_PROGRESS /\
  (tresp_status resp = PENDING <-> exists request, In (job_id, request) (queue sv)).
Proof.
  intros Hreach Hrun. rewrite get_training_status_reads in Hrun.
  destruct (training_jobs (store sv) !! job_id) as [job|] eqn:Hj; [|discriminate].
  injection Hrun as <- _. cbn [tresp_status].
  pose proof (server_settled_reachable sv Hreach job_id job Hj) as Hsettled.
  destruct (server_invariant_reachable sv Hreach) as [_ _ Hqueued _].
  split.
  - destruct Hsettled as [[Hs _] | [Hs | Hs]]; rewrite Hs; discriminate.
  - split.
    + intros Hs. destruct Hsettled as [[_ Hin] | [Ht | Ht]]; [exact Hin | |];
        rewrite Hs in Ht; discriminate.
    + intros [request Hin]. specialize (Hqueued job_id request Hin).
      unfold status_at in Hqueued. rewrite Hj in Hqueued. cbn in Hqueued.
      congruence.
Qed.

(** X8. Nothing is ever removed from the registry, and no step changes
    the model type or the start time of a job: from any state of the
    server, an entry that is there is still there after any number of
    steps, with the same model type and start time. *)
Theorem X8_registry_only_grows (sv sv' : Server) (j : string) (job : Job) :
  rtc server_step sv sv' ->
  training_jobs (store sv) !! j = Some job ->
  exists job' : Job,
    training_jobs (store sv') !! j = Some job' /\
    job_modelType job' = job_modelType job /\
    job_startedAt job' = job_startedAt job.
Proof.
  intros Hreach Hj.
  refine (rtc_ind_r (fun s => exists job' : Job,
                       training_jobs (store s) !! j = Some job' /\
                       job_modelType job' = job_modelType job /\
                       job_startedAt job' = job_startedAt job)
            sv _ _ sv' Hreach).
  - exists job. auto.
  - intros y z _ Hstep (job1 & Hj1 & Hm1 & Hs1).
    destruct (server_step_keeps y z j job1 Hstep Hj1) as (job2 & Hj2 & Hm2 & Hs2).
    exists job2. split; [exact Hj2|]. split; congruence.
Qed.

(** X9. A sequence-window training job needs at least 31 observations:
    the task constructs [LSTMForecaster()] with the default window
    length 30, so with 30 or fewer training points (whose dates parse)
    the job ends FAILED, with numpy's message "tuple index out of range"
    or, for no point at all, with the text of the KeyError that the
    missing column [y] raises. *)
Theorem X9_background_lstm_needs_31_points (st : Store) (job_id : string)
    (now : Clock) (request : TrainingRequest) (job : Job) (df : list (Timestamp * Q)) :
  training_jobs st !! job_id = Some job ->
  treq_modelType request = "lstm" ->
  build_frame (treq_trainingData request) = Ok df ->
  (length (treq_trainingData request) <= 30)%nat ->
  exists (st' : Store) (job' : Job),
    train_model_background job_id now request st = (Ok tt, st') /\
    training_jobs st' !! job_id = Some job' /\
    job_status job' = FAILED /\
    job_errorMessage job'
      = Some (match treq_trainingData request with
              | [] => "'y'"
              | _ => "tuple index out of range"
              end)%string /\
    job_modelPath job' = job_modelPath job.
Proof.
  intros Hj Hty Hdf Hlen.
  pose proof (rmapM_length _ _ _ Hdf) as Hlendf.
  assert (Hsave : train_and_save now request
                  = Raise (match treq_trainingData request with
                           | [] => KeyError "y"
                           | _ => IndexError "tuple index out of range"
                           end)).
  { apply stage_failure_raises.
    destruct (treq_trainingData request) as [|p ps] eqn:Hdata.
    - destruct df; [|discriminate].
      apply (fail_lstm_column _ _ _ [] Hty); [rewrite Hdata; exact Hdf | reflexivity].
    - destruct df as [|row rows]; [discriminate|].
      destruct (lstm_train_short_series (LSTMForecaster_init 30) []
                  (map snd (row :: rows)) (treq_parameters request))
        as (self' & Htrain & _).
      + rewrite length_map, Hlendf. exact Hlen.
      + discriminate.
      + apply (fail_lstm_training _ _ _ (row :: rows) (map snd (row :: rows))
                 (self', []) Hty);
          [rewrite Hdata; exact Hdf | reflexivity | exact Htrain]. }
  rewrite (train_model_background_run st job_id now request job Hj).
  unfold finished_job. rewrite Hsave.
  eexists _, _. split; [reflexivity|]. cbn [training_jobs].
  split; [apply lookup_insert_eq|]. split; [reflexivity|].
  split; [|reflexivity].
  cbn [set_failed job_errorMessage].
  destruct (treq_trainingData request); reflexivity.
Qed.

(* ===================================================================== *)
(** ** Further properties of the sequence-window forecaster *)
(* ===================================================================== *)

Lemma normalized_drop (f : ScalerFit) (n : nat) (l : list Q) :
  drop n (normalized f l) = normalized f (drop n l).
Proof. unfold normalized. symmetry. apply fmap_drop. Qed.

Lemma normalized_length (f : ScalerFit) (l : list Q) :
  length (normalized f l) = length l.
Proof. unfold normalized. apply length_map. Qed.

(** [forecast] on a forecaster with a model and a fitted scaler, given
    at least as many values as the window is long: the loop starts from
    the normalised last [L] inputs. *)
Lemma lstm_forecast_run (self : LSTMForecaster) (log : list KerasEvent)
    (m : KerasModel) (f : ScalerFit) (last_sequence : list Q) (periods : Z) :
  lstm_model self = Some m ->
  lstm_scaler self = Some f ->
  (1 <= sequence_length self <= length last_sequence)%nat ->
  LSTMForecaster_forecast last_sequence periods (self, log)
    = (scaler_inverse_transform (Some f)
         (forecast_loop m (Z.to_nat periods)
            (normalized f (drop (length last_sequence - sequence_length self)
                             last_sequence)) []),
       (self, log)).
Proof.
  intros Hm Hf HL.
  assert (Hne : last_sequence <> [])
    by (destruct last_sequence; [cbn in HL; lia | discriminate]).
  unfold LSTMForecaster_forecast, bind, get, lift, ret. cbn [fst].
  rewrite Hm, Hf, (scaler_transform_nonempty f last_sequence Hne).
  assert (Hw : py_slice_last (normalized f last_sequence) (sequence_length self)
               = normalized f (drop (length last_sequence - sequence_length self)
                                 last_sequence)).
  { unfold py_slice_last. destruct (sequence_length self) as [|L'] eqn:EL; [lia|].
    rewrite normalized_length. apply normalized_drop. }
  rewrite Hw. unfold np_reshape_window.
  rewrite normalized_length, length_drop.
  replace (length last_sequence - (length last_sequence - sequence_length self))%nat
    with (sequence_length self) by lia.
  rewrite Nat.eqb_refl.
  destruct (scaler_inverse_transform _ _); reflexivity.
Qed.

(** A longer horizon extends a shorter one. *)
Lemma forecast_loop_prefix (m : KerasModel) :
  forall (n k : nat) (cur : list Q),
    take n (forecast_loop m (n + k) cur []) = forecast_loop m n cur [].
Proof.
  induction n as [|n IH]; intros k cur; [apply take_0|].
  cbn [Nat.add forecast_loop].
  rewrite (forecast_loop_app m (n + k)), (forecast_loop_app m n). cbn [app take].
  f_equal. apply IH.
Qed.

(** What [train] does on a series longer than the window, up to the
    call of [fit]. *)
Lemma lstm_train_long_series (self : LSTMForecaster) (log : list KerasEvent)
    (data : list Q) (parameters : option (gmap string PyVal)) (f : ScalerFit) :
  (sequence_length self < length data)%nat ->
  scaler_fit data = Ok f ->
  exists (X : list (list Q)) (y : list Q),
    length X = (length data - sequence_length self)%nat /\
    length y = (length data - sequence_length self)%nat /\
    let split_idx := Z.to_nat (Qfloor (inject_Z (Z.of_nat (length X)) * 0.8)) in
    let compiled := keras_compile (sequence_length self) in
    let built :=
      ({| lstm_model := Some compiled; lstm_scaler := Some f;
          sequence_length := sequence_length self |},
       log ++ [EvBuild (sequence_length self); EvFit]) in
    LSTMForecaster_train data parameters (self, log)
      = match keras_fit compiled (take split_idx X) (take split_idx y)
                (drop split_idx X) (drop split_idx y)
                (training_parameter parameters "epochs" 50)
                (training_parameter parameters "batch_size" 32) with
        | Raise e => (Raise e, built)
        | Ok model =>
            let fitted :=
              ({| lstm_model := Some model; lstm_scaler := Some f;
                  sequence_length := sequence_length self |},
               log ++ [EvBuild (sequence_length self); EvFit]) in
            let predictions := map (keras_predict model) (drop split_idx X) in
            (let! mse := mean_squared_error (drop split_idx y) predictions in
             let! y_val_inv := scaler_inverse_transform (Some f) (drop split_idx y) in
             let! pred_inv := scaler_inverse_transform (Some f) predictions in
             let! mape := mean_absolute_percentage_error y_val_inv pred_inv in
             Ok {| m_mape := mape; m_rmse := np_sqrt mse;
                   m_accuracy := (1 - mape)%Q |},
             fitted)
        end.
Proof.
  intros Hlong Hf.
  assert (Hne : data <> []) by (destruct data; [cbn in Hlong; lia | discriminate]).
  destruct (prepare_data_run self log data f Hne Hf) as (y & Hrun & Hleny & _).
  set (X := map (fun i => py_slice (normalized f data) i (i + sequence_length self))
              (seq 0 (length data - sequence_length self))) in *.
  assert (HlenX : length X = (length data - sequence_length self)%nat)
    by (unfold X; rewrite length_map, length_seq; reflexivity).
  exists X, y. split; [exact HlenX|]. split; [exact Hleny|].
  intros split_idx compiled built.
  assert (Hshape : shape_index (np_shape X) 1 = Ok (sequence_length self)).
  { unfold X. destruct (length data - sequence_length self)%nat as [|n] eqn:En; [lia|].
    cbn [seq map np_shape shape_index lookup list_lookup].
    rewrite py_slice_length by (rewrite normalized_length; lia). reflexivity. }
  unfold LSTMForecaster_train.
  rewrite (bind_ok _ _ _ _ _ Hrun). cbv beta iota zeta.
  fold split_idx.
  unfold bind at 1. unfold lift at 1. rewrite Hshape.
  unfold build_model, keras_log_event, lstm_set_model, modify, bind, ret, lift, get.
  cbn [fst with_scaler lstm_scaler lstm_model sequence_length].
  fold compiled.
  rewrite <- app_assoc. cbn [app].
  destruct (keras_fit compiled _ _ _ _ _ _) as [model|e]; [|reflexivity].
  destruct (mean_squared_error _ _) as [mse|e]; [|reflexivity].
  cbn [rbind].
  destruct (scaler_inverse_transform (Some f) (drop split_idx y)) as [yv|e];
    [|reflexivity].
  cbn [rbind].
  destruct (scaler_inverse_transform (Some f) _) as [pv|e]; [|reflexivity].
  cbn [rbind].
  destruct (mean_absolute_percentage_error yv pv) as [mape|e]; reflexivity.
Qed.

(** X10. When the series is longer than the window, [train] reaches
    Keras: whatever the outcome, the call log gains exactly one build,
    for a network whose window is the forecaster's window length, and
    one fit; the scaler is the one fitted on the series; and the model
    attribute is set, also when [fit] or a later step raises. *)
Theorem X10_lstm_train_reaches_keras (self : LSTMForecaster) (log : list KerasEvent)
    (data : list Q) (parameters : option (gmap string PyVal)) :
  (sequence_length self < length data)%nat ->
  exists (f : ScalerFit) (r : result Metrics) (self' : LSTMForecaster)
         (m : KerasModel),
    LSTMForecaster_train data parameters (self, log)
      = (r, (self', log ++ [EvBuild (sequence_length self); EvFit])) /\
    scaler_fit data = Ok f /\
    lstm_scaler self' = Some f /\
    lstm_model self' = Some m /\
    sequence_length self' = sequence_length self.
Proof.
  intros Hlong.
  assert (Hne : data <> []) by (destruct data; [cbn in Hlong; lia | discriminate]).
  destruct (scaler_fit_nonempty data Hne) as [f Hf].
  destruct (lstm_train_long_series self log data parameters f Hlong Hf)
    as (X & y & _ & _ & Hrun).
  cbv zeta in Hrun. rewrite Hrun. exists f.
  destruct (keras_fit _ _ _ _ _ _ _) as [model|e].
  - eexists _, _, model. split; [reflexivity|]. repeat split. exact Hf.
  - eexists _, _, _. split; [reflexivity|]. repeat split. exact Hf.
Qed.

(** X11. With exactly one observation more than the window length
    there is a single pair, and [int(1 * 0.8)] is 0: the training split
    handed to Keras is empty.  If Keras refuses an empty training set,
    [train] raises that error after the build, and leaves the compiled,
    never fitted network in the model attribute, so that the guard of
    [forecast] lets a later call through. *)
Theorem X11_lstm_train_single_pair (self : LSTMForecaster) (log : list KerasEvent)
    (data : list Q) (parameters : option (gmap string PyVal)) (err : PyExc) :
  length data = S (sequence_length self) ->
  (forall (m : KerasModel) (X_val : list (list Q)) (y_val : list Q)
          (epochs batch_size : PyVal),
     keras_fit m [] [] X_val y_val epochs batch_size = Raise err) ->
  exists self' : LSTMForecaster,
    LSTMForecaster_train data parameters (self, log)
      = (Raise err, (self', log ++ [EvBuild (sequence_length self); EvFit])) /\
    lstm_model self' = Some (keras_compile (sequence_length self)) /\
    forall (last_sequence : list Q) (periods : Z) (log' : list KerasEvent),
      fst (LSTMForecaster_forecast last_sequence periods (self', log'))
        <> Raise not_trained.
Proof.
  intros Hlen Hkeras.
  assert (Hlong : (sequence_length self < length data)%nat) by lia.
  assert (Hne : data <> []) by (destruct data; [cbn in Hlen; lia | discriminate]).
  destruct (scaler_fit_nonempty data Hne) as [f Hf].
  destruct (lstm_train_long_series self log data parameters f Hlong Hf)
    as (X & y & HlenX & Hleny & Hrun).
  cbv zeta in Hrun.
  replace (length data - sequence_length self)%nat with 1%nat in HlenX, Hleny by lia.
  rewrite HlenX in Hrun.
  change (Z.to_nat (Qfloor (inject_Z (Z.of_nat 1) * 0.8))) with 0%nat in Hrun.
  rewrite !take_0, Hkeras in Hrun.
  eexists. split; [exact Hrun|]. split; [reflexivity|].
  intros last_sequence periods log'.
  apply (lstm_forecast_past_guard _ log' (keras_compile (sequence_length self))).
  reflexivity.
Qed.

(** X12. [forecast] looks at the last [L] values of its input only: two
    inputs with the same last [L] values give the same result, for every
    horizon. *)
Theorem X12_lstm_forecast_uses_last_window (self : LSTMForecaster)
    (log : list KerasEvent) (m : KerasModel) (f : ScalerFit)
    (seq1 seq2 : list Q) (periods : Z) :
  lstm_model self = Some m ->
  lstm_scaler self = Some f ->
  (1 <= sequence_length self <= length seq1)%nat ->
  (sequence_length self <= length seq2)%nat ->
  drop (length seq1 - sequence_length self) seq1
    = drop (length seq2 - sequence_length self) seq2 ->
  LSTMForecaster_forecast seq1 periods (self, log)
    = LSTMForecaster_forecast seq2 periods (self, log).
Proof.
  intros Hm Hf H1 H2 Hsame.
  rewrite (lstm_forecast_run self log m f seq1 periods Hm Hf H1).
  rewrite (lstm_forecast_run self log m f seq2 periods Hm Hf ltac:(lia)).
  rewrite Hsame. reflexivity.
Qed.

(** X13. A longer horizon extends a shorter one: the forecast for
    [p1] periods is the first [p1] values of the forecast for [p2]
    periods, when 1 <= p1 <= p2. *)
Theorem X13_lstm_forecast_horizon_prefix (self : LSTMForecaster)
    (log : list KerasEvent) (m : KerasModel) (f : ScalerFit)
    (last_sequence : list Q) (p1 p2 : Z) :
  lstm_model self = Some m ->
  lstm_scaler self = Some f ->
  (1 <= sequence_length self <= length last_sequence)%nat ->
  1 <= p1 <= p2 ->
  exists out1 out2 : list Q,
    LSTMForecaster_forecast last_sequence p1 (self, log) = (Ok out1, (self, log)) /\
    LSTMForecaster_forecast last_sequence p2 (self, log) = (Ok out2, (self, log)) /\
    out1 = take (Z.to_nat p1) out2.
Proof.
  intros Hm Hf HL Hp.
  rewrite (lstm_forecast_run self log m f last_sequence p1 Hm Hf HL).
  rewrite (lstm_forecast_run self log m f last_sequence p2 Hm Hf HL).
  set (w := normalized f _).
  assert (Hnil : forall p : Z, 1 <= p -> forecast_loop m (Z.to_nat p) w [] <> []).
  { intros p Hp1 Hnil. apply (f_equal (@length _)) in Hnil.
    rewrite forecast_loop_length in Hnil. cbn in Hnil. lia. }
  rewrite !scaler_inverse_nonempty by (apply Hnil; lia).
  eexists _, _. split; [reflexivity|]. split; [reflexivity|].
  replace (Z.to_nat p2) with (Z.to_nat p1 + (Z.to_nat p2 - Z.to_nat p1))%nat by lia.
  rewrite <- fmap_take, forecast_loop_prefix. reflexivity.
Qed.

(** X14. What [forecast] raises on inputs it cannot use, for a
    forecaster with a model and a fitted scaler; the forecaster is left
    as it was.  An empty input is refused by the scaler; a non-empty
    input shorter than the window cannot be reshaped to the window; and
    with a usable input, a horizon of zero or fewer periods makes the
    final inverse transform fail on an empty array. *)
Theorem X14_lstm_forecast_input_errors (self : LSTMForecaster)
    (log : list KerasEvent) (m : KerasModel) (f : ScalerFit) :
  lstm_model self = Some m ->
  lstm_scaler self = Some f ->
  (forall periods : Z,
     LSTMForecaster_forecast [] periods (self, log)
       = (Raise (no_samples "MinMaxScaler"), (self, log))) /\
  (forall (last_sequence : list Q) (periods : Z),
     (0 < length last_sequence < sequence_length self)%nat ->
     exists msg : string,
       LSTMForecaster_forecast last_sequence periods (self, log)
         = (Raise (ValueError msg), (self, log))) /\
  (forall (last_sequence : list Q) (periods : Z),
     (1 <= sequence_length self <= length last_sequence)%nat ->
     periods <= 0 ->
     LSTMForecaster_forecast last_sequence periods (self, log)
       = (Raise (no_samples EmptyString), (self, log))).
Proof.
  intros Hm Hf. split; [|split].
  - intros periods. unfold LSTMForecaster_forecast, bind, get, lift. cbn [fst].
    rewrite Hm, Hf. reflexivity.
  - intros last_sequence periods Hshort.
    assert (Hne : last_sequence <> [])
      by (destruct last_sequence; [cbn in Hshort; lia | discriminate]).
    unfold LSTMForecaster_forecast, bind, get, lift. cbn [fst].
    rewrite Hm, Hf, (scaler_transform_nonempty f last_sequence Hne).
    unfold np_reshape_window, py_slice_last.
    destruct (sequence_length self) as [|L'] eqn:EL; [lia|].
    rewrite length_drop, normalized_length.
    destruct (Nat.eqb_spec (length last_sequence - (length last_sequence - S L')) (S L'))
      as [Heq | _]; [lia|].
    eexists. reflexivity.
  - intros last_sequence periods HL Hp.
    rewrite (lstm_forecast_run self log m f last_sequence periods Hm Hf HL).
    replace (Z.to_nat periods) with 0%nat by lia. reflexivity.
Qed.

(** *** The scaler *)

(** X17. [load] assigns the model before it reads the scaler.  If the
    network is read and the scaler file cannot, [load] raises and the
    forecaster keeps the new network together with its old scaler; on an
    instance that had no fitted scaler a later [forecast] passes the
    guard and fails in scikit-learn with NotFittedError.  (If the
    network itself cannot be read, the forecaster is left as it was.) *)
Theorem X17_lstm_load_is_not_atomic (self : LSTMForecaster) (log : list KerasEvent)
    (path : string) (m : KerasModel) (e : PyExc) :
  keras_load_model path = Ok m ->
  joblib_load_scaler (path ++ "_scaler.pkl") = Raise e ->
  let self' := {| lstm_model := Some m; lstm_scaler := lstm_scaler self;
                  sequence_length := sequence_length self |} in
  LSTMForecaster_load path (self, log) = (Raise e, (self', log)) /\
  (lstm_scaler self = None ->
   forall (last_sequence : list Q) (periods : Z),
     LSTMForecaster_forecast last_sequence periods (self', log)
       = (Raise not_fitted, (self', log))) /\
  (forall (other : string) (e' : PyExc),
     keras_load_model other = Raise e' ->
     LSTMForecaster_load other (self, log) = (Raise e', (self, log))).
Proof.
  intros Hk Hs self'. split; [|split].
  - unfold LSTMForecaster_load, bind, lift, lstm_set_model, modify.
    rewrite Hk, Hs. reflexivity.
  - intros Hnone last_sequence periods.
    unfold LSTMForecaster_forecast, bind, get, lift.
    cbn [fst self' lstm_model lstm_scaler].
    rewrite Hnone. reflexivity.
  - intros other e' Ho. unfold LSTMForecaster_load, bind, lift. rewrite Ho. reflexivity.
Qed.

(** What a [train] that returns has done. *)
Lemma lstm_train_ok_state (self : LSTMForecaster) (log : list KerasEvent)
    (data : list Q) (parameters : option (gmap string PyVal)) (metrics : Metrics)
    (st' : LSTMState) :
  LSTMForecaster_train data parameters (self, log) = (Ok metrics, st') ->
  (sequence_length self < length data)%nat /\
  m_accuracy metrics = (1 - m_mape metrics)%Q /\
  exists (m : KerasModel) (f : ScalerFit),
    scaler_fit data = Ok f /\
    st' = ({| lstm_model := Some m; lstm_scaler := Some f;
              sequence_length := sequence_length self |},
           log ++ [EvBuild (sequence_length self); EvFit]).
Proof.
  intros Hrun.
  assert (Hlong : (sequence_length self < length data)%nat).
  { destruct (Nat.lt_ge_cases (sequence_length self) (length data)) as [H | H];
      [exact H|].
    destruct data as [|x rest].
    - cbv in Hrun. discriminate.
    - destruct (lstm_train_short_series self log (x :: rest) parameters H
                  ltac:(discriminate)) as (self' & Hshort & _).
      rewrite Hshort in Hrun. discriminate. }
  split; [exact Hlong|].
  assert (Hne : data <> []) by (destruct data; [cbn in Hlong; lia | discriminate]).
  destruct (scaler_fit_nonempty data Hne) as [f Hf].
  destruct (lstm_train_long_series self log data parameters f Hlong Hf)
    as (X & y & _ & _ & Hlongrun).
  cbv zeta in Hlongrun. rewrite Hlongrun in Hrun.
  destruct (keras_fit _ _ _ _ _ _ _) as [model|e]; [|discriminate].
  destruct (mean_squared_error _ _) as [mse|e]; [|discriminate].
  cbn [rbind] in Hrun.
  destruct (scaler_inverse_transform (Some f) (drop _ y)) as [yv|e]; [|discriminate].
  cbn [rbind] in Hrun.
  destruct (scaler_inverse_transform (Some f) _) as [pv|e]; [|discriminate].
  cbn [rbind] in Hrun.
  destruct (mean_absolute_percentage_error yv pv) as [mape|e]; [|discriminate].
  cbn [rbind] in Hrun. injection Hrun as <- <-.
  split; [reflexivity|]. exists model, f. split; [exact Hf | reflexivity].
Qed.

(** X27. Training, then forecasting.  After a [train] that returned,
    [forecast] answers every request for at least one period from an
    input of at least [L] values with exactly that many values, and
    leaves the forecaster as training left it.  The training series
    itself is such an input, since a [train] that returns was given more
    than [L] observations. *)
Theorem X27_lstm_train_then_forecast (self : LSTMForecaster) (log : list KerasEvent)
    (data : list Q) (parameters : option (gmap string PyVal)) (metrics : Metrics)
    (st' : LSTMState) (last_sequence : list Q) (periods : Z) :
  LSTMForecaster_train data parameters (self, log) = (Ok metrics, st') ->
  (1 <= sequence_length self <= length last_sequence)%nat ->
  1 <= periods ->
  (sequence_length self < length data)%nat /\
  exists out : list Q,
    LSTMForecaster_forecast last_sequence periods st' = (Ok out, st') /\
    Z.of_nat (length out) = periods.
Proof.
  intros Htrain HL Hp.
  destruct (lstm_train_ok_state self log data parameters metrics st' Htrain)
    as (Hlong & _ & m & f & _ & ->).
  split; [exact Hlong|].
  set (self1 := {| lstm_model := Some m; lstm_scaler := Some f;
                   sequence_length := sequence_length self |}).
  rewrite (lstm_forecast_run self1 _ m f last_sequence periods eq_refl eq_refl HL).
  set (preds := forecast_loop m (Z.to_nat periods) _ []).
  assert (Hlen : length preds = Z.to_nat periods) by apply forecast_loop_length.
  rewrite scaler_inverse_nonempty.
  - eexists. split; [reflexivity|]. rewrite length_map, Hlen. lia.
  - intros Hnil. rewrite Hnil in Hlen. cbn in Hlen. lia.
Qed.

(* ===================================================================== *)
(** ** Further properties of the seasonal-trend forecaster *)
(* ===================================================================== *)

(** X18. [train] assigns the new Prophet object before it fits it.  If
    the constructor accepts the parameters and [fit] raises, [train]
    raises the same error and the forecaster keeps the object that was
    never fitted: the guard of [forecast] then lets a call through, and
    the call fails inside Prophet with "Model has not been fit.".  (If
    the constructor refuses the parameters, the forecaster is left as it
    was.) *)
Theorem X18_prophet_failed_fit_leaves_model (self : ProphetForecaster)
    (df : list (Timestamp * Q)) (parameters : option (gmap string PyVal)) (e : PyExc) :
  let merged := fun parameters : option (gmap string PyVal) =>
                  match parameters with
                  | Some p => p ∪ prophet_default_params
                  | None => prophet_default_params
                  end in
  prophet_validate (merged parameters) = None ->
  prophet_fit (merged parameters) df = Raise e ->
  let self' :=
    {| pf_model := Some {| prophet_params := merged parameters; history_dates := None;
                           prophet_fitted := None |};
       pf_scaler := pf_scaler self |} in
  ProphetForecaster_train df parameters self = (Raise e, self') /\
  (forall periods : Z,
     ProphetForecaster_forecast periods self' = (Raise not_fit, self')) /\
  (forall (refused : option (gmap string PyVal)) (e' : PyExc),
     prophet_validate (merged refused) = Some e' ->
     ProphetForecaster_train df refused self = (Raise e', self)).
Proof.
  intros merged Hv Hfit self'. split; [|split].
  - unfold ProphetForecaster_train. fold (merged parameters).
    unfold bind, lift, pf_set_model, modify, Prophet_new, Prophet_fit.
    rewrite Hv. cbn [prophet_params]. rewrite Hfit. reflexivity.
  - intros periods. reflexivity.
  - intros refused e' Hr. unfold ProphetForecaster_train. fold (merged refused).
    unfold bind, lift, Prophet_new. rewrite Hr. reflexivity.
Qed.

(** *** The dates Prophet keeps *)







(** X26. A sequence-window training job whose training and saving
    succeed ends COMPLETED.  The job records the accuracy 1 - MAPE, the
    MAPE and the model path, which joins MODELS_DIR and
    lstm_<propertyId or "global">_<stamp>; the network was saved under
    that path and the scaler under the same path followed by
    "_scaler.pkl".  Such a job was given at least 31 training points. *)
Theorem X26_background_lstm_success (st : Store) (job_id : string) (now : Clock)
    (request : TrainingRequest) (job : Job) (df : list (Timestamp * Q))
    (metrics : Metrics) (trained : LSTMState) :
  let model_path :=
    path_join MODELS_DIR
      ("lstm_"
         ++ match treq_propertyId request with
            | Some ""%string | None => "global"%string
            | Some s => s
            end
         ++ "_" ++ now_stamp now)%string in
  training_jobs st !! job_id = Some job ->
  treq_modelType request = "lstm" ->
  build_frame (treq_trainingData request) = Ok df ->
  LSTMForecaster_train (map snd df) (treq_parameters request)
    (LSTMForecaster_init 30, []) = (Ok metrics, trained) ->
  keras_save model_path = Ok tt ->
  joblib_dump (model_path ++ "_scaler.pkl") = Ok tt ->
  exists (st' : Store) (job' : Job),
    train_model_background job_id now request st = (Ok tt, st') /\
    training_jobs st' !! job_id = Some job' /\
    job_status job' = COMPLETED /\
    job_accuracy job' = Some (1 - m_mape metrics)%Q /\
    job_mape job' = Some (m_mape metrics) /\
    job_modelPath job' = Some model_path /\
    job_completedAt job' = Some (now_iso now) /\
    (31 <= length (treq_trainingData request))%nat.
Proof.
  intros model_path Hj Hty Hdf Htrain Hsave Hdump.
  destruct (lstm_train_ok_state _ _ _ _ _ _ Htrain)
    as (Hlong & Hacc & m & f & _ & ->).
  cbn [LSTMForecaster_init sequence_length] in Hlong.
  rewrite length_map, (rmapM_length _ _ _ Hdf) in Hlong.
  assert (Hy : frame_y df = Ok (map snd df)).
  { destruct df; [|reflexivity]. apply rmapM_length in Hdf. cbn in Hdf. lia. }
  assert (Hrun : train_and_save now request = Ok (metrics, model_path)).
  { unfold train_and_save. rewrite Hdf. cbn [rbind]. rewrite Hty.
    cbn [String.eqb Ascii.eqb Bool.eqb]. rewrite Hy. cbn [rbind]. rewrite Htrain.
    unfold LSTMForecaster_save, bind, get, lift. cbn [fst lstm_model].
    rewrite property_or_global_cases. fold model_path. rewrite Hsave, Hdump.
    reflexivity. }
  rewrite (train_model_background_run st job_id now request job Hj).
  unfold finished_job. rewrite Hrun.
  eexists _, _. split; [reflexivity|]. cbn [training_jobs].
  split; [apply lookup_insert_eq|].
  cbn [set_completed set_in_progress job_status job_accuracy job_mape job_modelPath
       job_completedAt].
  rewrite Hacc. repeat (split; [reflexivity|]). lia.
Qed.
End Service.
(* ===================================================================== *)
(** ** Properties of the calendar and the fallback generator *)
(* ===================================================================== *)

Lemma civil_month_range (days : Z) : 1 <= snd (fst (civil_from_days days)) <= 12.
Proof.
  unfold civil_from_days; cbn [fst snd].
  set (z := days + 719468).
  set (doe := z - z / 146097 * 146097).
  assert (Hdoe : 0 <= doe <= 146096).
  { subst doe. pose proof (Z.mod_pos_bound z 146097 ltac:(lia)) as Hm.
    rewrite Z.mod_eq in Hm by lia. lia. }
  clearbody doe; clear z.
  set (yoe := (doe - doe / 1460 + doe / 36524 - doe / 146096) / 365).
  set (doy := doe - (365 * yoe + yoe / 4 - yoe / 100)).
  assert (Hdoy : 0 <= doy <= 365).
  { subst doy yoe. Z.div_mod_to_equations. lia. }
  clearbody doy.
  set (mp := (5 * doy + 2) / 153).
  assert (Hmp : 0 <= mp <= 11) by (subst mp; Z.div_mod_to_equations; lia).
  destruct (mp <? 10) eqn:E; lia.
Qed.

Lemma ts_month_range (t : Timestamp) : 1 <= ts_month t <= 12.
Proof. apply civil_month_range. Qed.

Lemma ts_dayofweek_range (t : Timestamp) : 0 <= ts_dayofweek t <= 6.
Proof. unfold ts_dayofweek. pose proof (Z.mod_pos_bound (ts_ordinal t + 3) 7). lia. Qed.

Lemma Ok_inj {A : Type} (a b : A) : Ok a = Ok b -> a = b.
Proof. intros [= ->]. reflexivity. Qed.

Lemma seasonal_map_total (m : Z) :
  1 <= m <= 12 -> exists s : float, seasonal_map !! m = Some s.
Proof.
  intros Hm.
  assert (Hcases : m = 1 \/ m = 2 \/ m = 3 \/ m = 4 \/ m = 5 \/ m = 6 \/ m = 7 \/
                   m = 8 \/ m = 9 \/ m = 10 \/ m = 11 \/ m = 12) by lia.
  repeat (destruct Hcases as [-> | Hcases]); [ .. | subst m ];
    eexists; vm_compute; reflexivity.
Qed.

(** The factors of the month table. *)
Lemma seasonal_map_values (m : Z) (s : float) :
  1 <= m <= 12 -> seasonal_map !! m = Some s ->
  In s [decimal 85 2; decimal 90 2; decimal 95 2; decimal 105 2; decimal 115 2;
        decimal 130 2; decimal 135 2; decimal 120 2; decimal 110 2; decimal 100 2].
Proof.
  intros Hm.
  assert (Hcases : m = 1 \/ m = 2 \/ m = 3 \/ m = 4 \/ m = 5 \/ m = 6 \/ m = 7 \/
                   m = 8 \/ m = 9 \/ m = 10 \/ m = 11 \/ m = 12) by lia.
  repeat (destruct Hcases as [-> | Hcases]); [ .. | subst m ];
    intros Hs; vm_compute in Hs; injection Hs as <-; vm_compute;
    repeat (first [left; reflexivity | right]).
Qed.

Lemma weekend_factor_cases (day_of_week : Z) :
  weekend_factor day_of_week = decimal 12 1 \/ weekend_factor day_of_week = decimal 10 1.
Proof. unfold weekend_factor. destruct (5 <=? day_of_week); auto. Qed.

(** A fact about the factor of a month and the factor of a day holds for
    every date once it holds for the ten factors of the table, each with
    the two weekend factors. *)
Lemma by_month_and_weekend (P : float -> float -> Prop) :
  Forall (fun s => P s (decimal 12 1) /\ P s (decimal 10 1))
    [decimal 85 2; decimal 90 2; decimal 95 2; decimal 105 2; decimal 115 2;
     decimal 130 2; decimal 135 2; decimal 120 2; decimal 110 2; decimal 100 2] ->
  forall (t : Timestamp) (s : float),
    seasonal_map !! ts_month t = Some s ->
    P s (weekend_factor (ts_dayofweek t)).
Proof.
  intros Hall t s Hs.
  pose proof (seasonal_map_values _ s (ts_month_range t) Hs) as Hin.
  rewrite Forall_forall in Hall. apply list_elem_of_In in Hin.
  destruct (Hall s Hin) as [Hwe Hwd].
  destruct (weekend_factor_cases (ts_dayofweek t)) as [-> | ->]; assumption.
Qed.

(** A closed statement about floats and their values, by computation. *)
Ltac float_facts :=
  lazymatch goal with
  | |- _ /\ _ => split; [float_facts | float_facts]
  | |- _ => vm_compute; first [reflexivity | discriminate]
  end.

(** What the loop body builds. *)
Lemma fallback_point_ok (t : Timestamp) :
  exists s : float,
    seasonal_map !! ts_month t = Some s /\
    let v := clamp (fmul (fmul (decimal 5 1) s) (weekend_factor (ts_dayofweek t)))
               (decimal 0 1) (decimal 10 1) in
    fallback_point t =
      Ok {| date := t;
            predictedValue := float_value v;
            lowerBound := Some (float_value (py_max (fsub v (decimal 1 1)) (decimal 0 1)));
            upperBound := Some (float_value (py_min (fadd v (decimal 1 1)) (decimal 10 1)));
            confidence := float_value (decimal 5 1) |}.
Proof.
  destruct (seasonal_map_total (ts_month t) (ts_month_range t)) as [s Hs].
  exists s. split; [exact Hs|].
  unfold fallback_point. rewrite Hs. reflexivity.
Qed.



(** Inside the bounds, the interpreter's sum is the sum. *)
Lemma ts_add_checked_in_bounds (t : Timestamp) (d : Timedelta) :
  TS_MIN <= ts_value t + td_value d <= TS_MAX ->
  ts_add_checked t d = Ok (ts_add t d).
Proof.
  intros [Hlo Hhi]. unfold ts_add_checked, ts_in_bounds. cbn [ts_add ts_value].
  apply Z.leb_le in Hlo, Hhi. rewrite Hlo, Hhi. reflexivity.
Qed.

Lemma ts_add_checked_past_max (t : Timestamp) (d : Timedelta) :
  TS_MAX < ts_value t + td_value d ->
  ts_add_checked t d = Raise (out_of_bounds_datetime (ts_value t + td_value d)).
Proof.
  intros H. unfold ts_add_checked, ts_in_bounds. cbn [ts_add ts_value].
  apply Z.leb_gt in H. rewrite H, andb_false_r. reflexivity.
Qed.

(** The loop appends to its accumulator exactly [n] points, one for each
    of the [n] days starting at [current_date], when the [n]-th day is the
    first one after [end_date] and is still a timestamp; [n] units of
    fuel are enough. *)
Lemma fallback_loop_run (end_date : Timestamp) :
  forall (n fuel : nat) (current_date : Timestamp) (acc : list ForecastPoint),
    (n <= fuel)%nat ->
    TS_MIN <= ts_value current_date ->
    ts_value current_date + Z.of_nat n * NS_PER_DAY <= TS_MAX ->
    ts_value end_date < ts_value current_date + Z.of_nat n * NS_PER_DAY ->
    (forall k : nat, (k < n)%nat ->
       ts_value current_date + Z.of_nat k * NS_PER_DAY <= ts_value end_date) ->
    exists new : list ForecastPoint,
      fallback_loop fuel current_date end_date acc = Some (Ok (acc ++ new)) /\
      length new = n /\
      forall k : nat, (k < n)%nat ->
        exists p, new !! k = Some p /\
          fallback_point (ts_add current_date (timedelta_days (Z.of_nat k))) = Ok p.
Proof.
  induction n as [|n IH]; intros fuel cur acc Hfuel Hmin Hmax Hpast Hin.
  - exists []. rewrite app_nil_r. split; [|split; [reflexivity | intros k Hk; lia]].
    destruct fuel; cbn [fallback_loop]; unfold ts_leb;
      (destruct (Z.leb_spec (ts_value cur) (ts_value end_date)); [lia | reflexivity]).
  - destruct fuel as [|fuel]; [lia|].
    cbn [fallback_loop]. unfold ts_leb.
    pose proof (Hin 0%nat ltac:(lia)) as H0.
    destruct (Z.leb_spec (ts_value cur) (ts_value end_date)); [|lia].
    destruct (fallback_point_ok cur) as (s & _ & Hp). cbv zeta in Hp. rewrite Hp.
    set (p := {| date := cur |}).
    rewrite ts_add_checked_in_bounds
      by (cbn [td_value timedelta_days]; unfold NS_PER_DAY in *; lia).
    destruct (IH fuel (ts_add cur (timedelta_days 1)) (acc ++ [p])) as (new & Hrun & Hlen & Hnth).
    + lia.
    + cbn [ts_add ts_value td_value timedelta_days]. unfold NS_PER_DAY in *. lia.
    + cbn [ts_add ts_value td_value timedelta_days]. lia.
    + cbn [ts_add ts_value td_value timedelta_days]. lia.
    + intros k Hk. pose proof (Hin (S k) ltac:(lia)).
      cbn [ts_add ts_value td_value timedelta_days]. lia.
    + exists (p :: new). rewrite Hrun, <- app_assoc. split; [reflexivity|].
      split; [cbn; lia|].
      intros [|k] Hk.
      * exists p. split; [reflexivity|].
        replace (ts_add cur (timedelta_days (Z.of_nat 0))) with cur; [exact Hp|].
        destruct cur as [v]. unfold ts_add, timedelta_days; cbn. f_equal. lia.
      * destruct (Hnth k ltac:(lia)) as (q & Hq & Hfp). exists q. split; [exact Hq|].
        replace (ts_add cur (timedelta_days (Z.of_nat (S k))))
          with (ts_add (ts_add cur (timedelta_days 1)) (timedelta_days (Z.of_nat k)));
          [exact Hfp|].
        unfold ts_add, timedelta_days; cbn [ts_value td_value]. f_equal. lia.
Qed.

(** Every point of a finished run was built by the loop body. *)
Lemma fallback_loop_points (end_date : Timestamp) :
  forall (fuel : nat) (current_date : Timestamp) (acc pts : list ForecastPoint),
    fallback_loop fuel current_date end_date acc = Some (Ok pts) ->
    exists new : list ForecastPoint,
      pts = acc ++ new /\
      Forall (fun p => exists t, fallback_point t = Ok p) new.
Proof.
  induction fuel as [|fuel IH]; intros cur acc pts; cbn [fallback_loop];
    destruct (ts_leb cur end_date); try discriminate.
  - intros [= <-]. exists []. rewrite app_nil_r. split; [reflexivity | constructor].
  - destruct (fallback_point cur) as [p|e] eqn:Hp; [|discriminate].
    destruct (ts_add_checked cur (timedelta_days 1)) as [next|e]; [|discriminate].
    intros Hrun. destruct (IH _ _ _ Hrun) as (new & -> & Hall).
    exists (p :: new). rewrite <- app_assoc. split; [reflexivity|].
    constructor; [exists cur; exact Hp | exact Hall].
  - intros [= <-]. exists []. rewrite app_nil_r. split; [reflexivity | constructor].
Qed.

Lemma day_count_generic (D d : Z) :
  0 < D -> 0 <= d ->
  d < (d / D + 1) * D /\ (forall k : Z, 0 <= k <= d / D -> k * D <= d).
Proof.
  intros HD Hd.
  pose proof (Z.mul_div_le d D HD) as Hlo.
  pose proof (Z.mul_succ_div_gt d D HD) as Hhi.
  set (q := d / D) in *. clearbody q.
  split.
  - replace ((q + 1) * D) with (D * Z.succ q) by ring. exact Hhi.
  - intros k Hk.
    assert (k * D <= q * D) by (apply Z.mul_le_mono_nonneg_r; lia).
    replace (q * D) with (D * q) in * by ring. lia.
Qed.

Lemma fallback_day_count (start_date end_date : Timestamp) :
  ts_value start_date <= ts_value end_date ->
  let n := Z.to_nat (td_days (ts_sub end_date start_date) + 1) in
  ts_value end_date < ts_value start_date + Z.of_nat n * NS_PER_DAY /\
  (forall k : nat, (k < n)%nat ->
     ts_value start_date + Z.of_nat k * NS_PER_DAY <= ts_value end_date).
Proof.
  intros Hle n. subst n. unfold td_days, ts_sub; cbn [td_value].
  set (d := ts_value end_date - ts_value start_date).
  assert (Hd : 0 <= d) by (subst d; lia).
  assert (HD : 0 < NS_PER_DAY) by reflexivity.
  assert (Hq : 0 <= d / NS_PER_DAY) by (apply Z.div_pos; assumption).
  destruct (day_count_generic NS_PER_DAY d HD Hd) as [Hhi Hlo].
  rewrite Z2Nat.id by lia.
  set (D := NS_PER_DAY) in *. clearbody D.
  set (q := d / D) in *. clearbody q.
  split; [subst d; lia|].
  intros k Hk.
  pose proof (Hlo (Z.of_nat k) ltac:(lia)). subst d; lia.
Qed.

Lemma ts_ordinal_add_days (t : Timestamp) (k : Z) :
  ts_ordinal (ts_add t (timedelta_days k)) = ts_ordinal t + k.
Proof.
  unfold ts_ordinal, ts_add, timedelta_days; cbn [ts_value td_value].
  apply Z.div_add. discriminate.
Qed.

(** C4 (as amended). For every date range with start <= end such that
    the day after the last generated day, start + n days for
    n = [(end - start).days + 1], is still a timestamp pandas can hold,
    the fallback generator returns (given fuel for that many iterations)
    exactly n points; the k-th point is dated k
    days after the start, hence one per calendar day in strictly
    ascending order; its predicted value is
    [clamp(0.5 * seasonal_map[month] * weekend_factor, 0, 1)] computed in
    binary64, the weekend factor being 1.2 on Saturday and Sunday and 1.0
    on the other days, and its confidence is 0.5.  For 2024-07-06, a
    Saturday in July, the single point has predicted value 0.81, lower
    bound 0.7100000000000001 (what 0.81 - 0.1 is in binary64) and upper
    bound 0.91. *)
Theorem C4_fallback_one_point_per_day (start_date end_date : Timestamp) :
  let n := Z.to_nat (td_days (ts_sub end_date start_date) + 1) in
  ts_value start_date <= ts_value end_date ->
  TS_MIN <= ts_value start_date ->
  ts_value start_date + Z.of_nat n * NS_PER_DAY <= TS_MAX ->
  (exists pts : list ForecastPoint,
      (forall fuel : nat, (n <= fuel)%nat ->
         generate_fallback_forecast fuel start_date end_date = Some (Ok pts)) /\
      length pts = n /\
      (forall k : nat, (k < n)%nat ->
         exists (p : ForecastPoint) (s : float),
           pts !! k = Some p /\
           date p = ts_add start_date (timedelta_days (Z.of_nat k)) /\
           ts_ordinal (date p) = ts_ordinal start_date + Z.of_nat k /\
           seasonal_map !! ts_month (date p) = Some s /\
           predictedValue p
             = float_value
                 (clamp (fmul (fmul (decimal 5 1) s)
                           (weekend_factor (ts_dayofweek (date p))))
                    (decimal 0 1) (decimal 10 1)) /\
           (weekend_factor (ts_dayofweek (date p))
             = if decide (ts_dayofweek (date p) = 5 \/ ts_dayofweek (date p) = 6)
               then decimal 12 1 else decimal 10 1) /\
           confidence p = float_value (decimal 5 1)) /\
      (forall (i j : nat) (p q : ForecastPoint),
         (i < j)%nat -> pts !! i = Some p -> pts !! j = Some q ->
         ts_value (date p) < ts_value (date q)))
  /\ size seasonal_map = 12%nat
  /\ (exists p : ForecastPoint,
        generate_fallback_forecast 1 (ts_of_date 2024 7 6) (ts_of_date 2024 7 6)
          = Some (Ok [p]) /\
        ts_month (date p) = 7 /\ ts_dayofweek (date p) = 5 /\
        predictedValue p = float_value (decimal 81 2) /\
        lowerBound p = Some (float_value (decimal 7100000000000001 16)) /\
        upperBound p = Some (float_value (decimal 91 2)) /\
        (confidence p == 0.5)%Q).
Proof.
  intros n Hle Hmin Hlast.
  destruct (fallback_day_count start_date end_date Hle) as [Hpast Hin].
  fold n in Hpast, Hin.
  destruct (fallback_loop_run end_date n n start_date [] (le_n n) Hmin Hlast Hpast Hin)
    as (pts & _ & Hlen & Hnth).
  assert (Hpt : forall k : nat, (k < n)%nat ->
            exists p, pts !! k = Some p /\
              fallback_point (ts_add start_date (timedelta_days (Z.of_nat k))) = Ok p)
    by exact Hnth.
  assert (Hdate : forall (k : nat) (p : ForecastPoint),
            pts !! k = Some p ->
            date p = ts_add start_date (timedelta_days (Z.of_nat k))).
  { intros k p Hk.
    assert (Hkn : (k < n)%nat) by (rewrite <- Hlen; eapply lookup_lt_Some; exact Hk).
    destruct (Hpt k Hkn) as (p' & Hk' & Hfp).
    rewrite Hk in Hk'. injection Hk' as <-.
    destruct (fallback_point_ok (ts_add start_date (timedelta_days (Z.of_nat k))))
      as (s & _ & Hshape).
    cbv zeta in Hshape. rewrite Hshape in Hfp. apply Ok_inj in Hfp. subst p.
    reflexivity. }
  split; [exists pts; split; [|split; [|split]] | split].
  - intros fuel Hfuel.
    destruct (fallback_loop_run end_date n fuel start_date [] Hfuel Hmin Hlast Hpast Hin)
      as (pts' & Hrun' & Hlen' & Hnth').
    unfold generate_fallback_forecast. rewrite Hrun'. cbn [app].
    do 2 f_equal. apply list_eq. intros k.
    destruct (Nat.lt_ge_cases k n) as [Hk | Hk].
    + destruct (Hnth k Hk) as (p & -> & Hp).
      destruct (Hnth' k Hk) as (p' & -> & Hp'). congruence.
    + rewrite !lookup_ge_None_2 by lia. reflexivity.
  - exact Hlen.
  - intros k Hk. destruct (Hpt k Hk) as (p & Hlk & Hfp).
    set (t := ts_add start_date (timedelta_days (Z.of_nat k))) in *.
    destruct (fallback_point_ok t) as (s & Hs & Hshape).
    cbv zeta in Hshape.
    exists p, s. rewrite Hshape in Hfp. apply Ok_inj in Hfp. subst p.
    cbn [date predictedValue confidence].
    split; [exact Hlk|]. split; [reflexivity|].
    split; [apply ts_ordinal_add_days|]. split; [exact Hs|].
    split; [reflexivity|]. split; [|reflexivity].
    unfold weekend_factor. pose proof (ts_dayofweek_range t) as Hr.
    generalize dependent (ts_dayofweek t). intros w Hw.
    destruct (Z.leb_spec 5 w); case_decide; try reflexivity; lia.
  - intros i j p q Hij Hp Hq.
    rewrite (Hdate i p Hp), (Hdate j q Hq).
    cbn [ts_add ts_value td_value timedelta_days]. unfold NS_PER_DAY. lia.
  - vm_compute. reflexivity.
  - set (r := generate_fallback_forecast 1 (ts_of_date 2024 7 6) (ts_of_date 2024 7 6)).
    vm_compute in r. subst r.
    eexists. split; [reflexivity|].
    cbn [date predictedValue lowerBound upperBound confidence].
    split; [vm_compute; reflexivity|]. split; [vm_compute; reflexivity|].
    split; [vm_compute; reflexivity|]. split; [vm_compute; reflexivity|].
    split; vm_compute; reflexivity.
Qed.

(* ===================================================================== *)
(** ** Properties of the price optimiser *)
(* ===================================================================== *)

Lemma context_number_get (ctx : gmap string PyVal) (key : string) (dflt : PyVal)
    (d x : PyNum) :
  py_number dflt = Some d ->
  context_number ctx key d = Some x ->
  py_number (dict_get ctx key dflt) = Some x.
Proof.
  unfold context_number, dict_get. intros Hd.
  destruct (ctx !! key) as [v|]; cbn [default]; [auto | congruence].
Qed.

Lemma py_ge_number (v : PyVal) (n : PyNum) (c : float) :
  py_number v = Some n -> py_ge v c = Ok (num_ge n c).
Proof. intros H. unfold py_ge. rewrite H. reflexivity. Qed.

Lemma py_mul_number (v : PyVal) (n : PyNum) (x c : float) :
  py_number v = Some n -> num_float n = Ok x -> py_mul v c = Ok (fmul x c).
Proof. intros H Hx. unfold py_mul. rewrite H, Hx. reflexivity. Qed.

(** C5 (as amended). When the context's base price and occupancy are
    numbers (or absent, which means 100 and 0.5) and the base price, if
    it is an integer, is small enough to be converted to a float, the
    optimiser returns a response with recommendedPrice = basePrice *
    multiplier, the product of binary64 (an infinity when a float base
    price is that large), and confidence 0.75; the multiplier is the one of
    the first rung of the ladder >= 0.9 -> 1.5, >= 0.7 -> 1.2,
    >= 0.5 -> 1.0, >= 0.3 -> 0.9, else 0.85 that the occupancy reaches.
    With basePrice 200 and occupancy 0.92 the recommended price is 300.0,
    and with an empty context it is 100.0. *)
Theorem C5_optimize_price_ladder (request : OptimizePriceRequest)
    (base occ : PyNum) (b : float) :
  context_number (oreq_context request) "basePrice" (NInt 100) = Some base ->
  context_number (oreq_context request) "currentOccupancy" (NFloat (decimal 5 1))
    = Some occ ->
  num_float base = Ok b ->
  (exists multiplier : float,
     optimize_price request =
       Ok {| recommendedPrice := fmul b multiplier; opt_confidence := decimal 75 2 |} /\
     (num_ge occ (decimal 9 1) = true -> multiplier = decimal 15 1) /\
     (num_ge occ (decimal 9 1) = false -> num_ge occ (decimal 7 1) = true ->
      multiplier = decimal 12 1) /\
     (num_ge occ (decimal 9 1) = false -> num_ge occ (decimal 7 1) = false ->
      num_ge occ (decimal 5 1) = true -> multiplier = decimal 10 1) /\
     (num_ge occ (decimal 9 1) = false -> num_ge occ (decimal 7 1) = false ->
      num_ge occ (decimal 5 1) = false -> num_ge occ (decimal 3 1) = true ->
      multiplier = decimal 9 1) /\
     (num_ge occ (decimal 9 1) = false -> num_ge occ (decimal 7 1) = false ->
      num_ge occ (decimal 5 1) = false -> num_ge occ (decimal 3 1) = false ->
      multiplier = decimal 85 2))
  /\ (exists r : OptimizePriceResponse,
        optimize_price
          {| oreq_propertyId := "p"; oreq_date := "2024-07-06";
             oreq_context :=
               <["basePrice" := PyInt 200]>
                 (<["currentOccupancy" := PyFloat (decimal 92 2)]> ∅) |} = Ok r /\
        recommendedPrice r = decimal 3000 1 /\
        (float_value (recommendedPrice r) == 300)%Q /\
        opt_confidence r = decimal 75 2 /\
        (float_value (opt_confidence r) == 0.75)%Q)
  /\ optimize_price
       {| oreq_propertyId := "p"; oreq_date := "2024-07-06"; oreq_context := ∅ |}
     = Ok {| recommendedPrice := decimal 1000 1; opt_confidence := decimal 75 2 |}.
Proof.
  intros Hbase Hocc Hb.
  pose proof (context_number_get _ _ (PyInt 100) _ _ eq_refl Hbase) as Hbn.
  pose proof (context_number_get _ _ (PyFloat (decimal 5 1)) _ _ eq_refl Hocc) as Ho.
  split; [|split].
  - unfold optimize_price, optimize_price_try.
    rewrite (py_ge_number _ occ (decimal 9 1) Ho). cbn [rbind].
    destruct (num_ge occ (decimal 9 1)) eqn:E1.
    { exists (decimal 15 1). cbn [rbind].
      rewrite (py_mul_number _ base b _ Hbn Hb). cbn [rbind].
      split; [reflexivity|]. split; [intros; congruence|]. split; [intros; congruence|].
      split; [intros; congruence|]. split; intros; congruence. }
    rewrite (py_ge_number _ occ (decimal 7 1) Ho). cbn [rbind].
    destruct (num_ge occ (decimal 7 1)) eqn:E2.
    { exists (decimal 12 1). cbn [rbind].
      rewrite (py_mul_number _ base b _ Hbn Hb). cbn [rbind].
      split; [reflexivity|]. split; [intros; congruence|]. split; [intros; congruence|].
      split; [intros; congruence|]. split; intros; congruence. }
    rewrite (py_ge_number _ occ (decimal 5 1) Ho). cbn [rbind].
    destruct (num_ge occ (decimal 5 1)) eqn:E3.
    { exists (decimal 10 1). cbn [rbind].
      rewrite (py_mul_number _ base b _ Hbn Hb). cbn [rbind].
      split; [reflexivity|]. split; [intros; congruence|]. split; [intros; congruence|].
      split; [intros; congruence|]. split; intros; congruence. }
    rewrite (py_ge_number _ occ (decimal 3 1) Ho). cbn [rbind].
    destruct (num_ge occ (decimal 3 1)) eqn:E4.
    { exists (decimal 9 1). cbn [rbind].
      rewrite (py_mul_number _ base b _ Hbn Hb). cbn [rbind].
      split; [reflexivity|]. split; [intros; congruence|]. split; [intros; congruence|].
      split; [intros; congruence|]. split; intros; congruence. }
    exists (decimal 85 2). cbn [rbind].
    rewrite (py_mul_number _ base b _ Hbn Hb). cbn [rbind].
    split; [reflexivity|]. split; [intros; congruence|]. split; [intros; congruence|].
    split; [intros; congruence|]. split; intros; congruence.
  - exists {| recommendedPrice := decimal 3000 1; opt_confidence := decimal 75 2 |}.
    split; [vm_compute; reflexivity|].
    cbn [recommendedPrice opt_confidence].
    split; [reflexivity|]. split; [vm_compute; reflexivity|].
    split; [reflexivity|]. vm_compute; reflexivity.
  - vm_compute. reflexivity.
Qed.
(* ===================================================================== *)
(** ** Further properties of the fallback generator *)
(* ===================================================================== *)

(** The accumulator is only ever appended to. *)
Lemma fallback_loop_acc (end_date : Timestamp) :
  forall (fuel : nat) (current_date : Timestamp) (acc : list ForecastPoint),
    fallback_loop fuel current_date end_date acc
      = match fallback_loop fuel current_date end_date [] with
        | Some (Ok new) => Some (Ok (acc ++ new))
        | Some (Raise e) => Some (Raise e)
        | None => None
        end.
Proof.
  induction fuel as [|fuel IH]; intros cur acc; cbn [fallback_loop];
    destruct (ts_leb cur end_date); try (rewrite app_nil_r; reflexivity);
    try reflexivity.
  destruct (fallback_point cur) as [p|e]; [|reflexivity].
  destruct (ts_add_checked cur (timedelta_days 1)) as [next|e]; [|reflexivity].
  rewrite (IH _ (acc ++ [p])), (IH _ ([] ++ [p])).
  destruct (fallback_loop fuel _ end_date []) as [[new|e]|]; try reflexivity.
  rewrite <- app_assoc. reflexivity.
Qed.

Lemma negative_span_days (D d : Z) : 0 < D -> d < 0 -> d / D + 1 <= 0.
Proof.
  intros HD Hd. assert (d / D < 0) by (apply Z.div_lt_upper_bound; lia). lia.
Qed.

(** The fuel the endpoint gives the loop is enough for every range whose
    days, and the day after the last of them, are timestamps; for a
    range that ends before it starts the loop body never runs. *)
Lemma fallback_enough_fuel (start_date end_date : Timestamp) :
  TS_MIN <= ts_value start_date ->
  ts_value start_date + Z.of_nat (fallback_fuel start_date end_date) * NS_PER_DAY
    <= TS_MAX ->
  exists pts : list ForecastPoint,
    generate_fallback_forecast (fallback_fuel start_date end_date) start_date end_date
      = Some (Ok pts) /\
    length pts = fallback_fuel start_date end_date /\
    (ts_value end_date < ts_value start_date -> pts = []).
Proof.
  unfold generate_fallback_forecast, fallback_fuel. intros Hmin Hmax.
  destruct (Z.le_gt_cases (ts_value start_date) (ts_value end_date)) as [Hle | Hgt].
  - destruct (fallback_day_count start_date end_date Hle) as [Hpast Hin].
    destruct (fallback_loop_run end_date _ _ start_date [] (le_n _) Hmin Hmax Hpast Hin)
      as (pts & Hrun & Hlen & _).
    exists pts. split; [exact Hrun|]. split; [exact Hlen|]. lia.
  - exists [].
    assert (Hfuel : Z.to_nat (td_days (ts_sub end_date start_date) + 1) = 0%nat).
    { unfold td_days, ts_sub. cbn [td_value].
      pose proof (negative_span_days NS_PER_DAY
                    (ts_value end_date - ts_value start_date) eq_refl ltac:(lia)).
      lia. }
    rewrite Hfuel. cbn [fallback_loop]. unfold ts_leb.
    destruct (Z.leb_spec (ts_value start_date) (ts_value end_date)); [lia|].
    split; [reflexivity|]. split; reflexivity.
Qed.

(** For every month and either kind of day the product lies between
    0.425 and 0.81 and none of the three clamps changes its argument. *)
Lemma fallback_unclamped_numbers (t : Timestamp) (s : float) :
  seasonal_map !! ts_month t = Some s ->
  let v := fmul (fmul (decimal 5 1) s) (weekend_factor (ts_dayofweek t)) in
  clamp v (decimal 0 1) (decimal 10 1) = v /\
  (float_value (decimal 425 3) <= float_value v)%Q /\
  (float_value v <= float_value (decimal 81 2))%Q /\
  py_max (fsub v (decimal 1 1)) (decimal 0 1) = fsub v (decimal 1 1) /\
  py_min (fadd v (decimal 1 1)) (decimal 10 1) = fadd v (decimal 1 1).
Proof.
  revert t s.
  apply (by_month_and_weekend
           (fun s w =>
              let v := fmul (fmul (decimal 5 1) s) w in
              clamp v (decimal 0 1) (decimal 10 1) = v /\
              (float_value (decimal 425 3) <= float_value v)%Q /\
              (float_value v <= float_value (decimal 81 2))%Q /\
              py_max (fsub v (decimal 1 1)) (decimal 0 1) = fsub v (decimal 1 1) /\
              py_min (fadd v (decimal 1 1)) (decimal 10 1) = fadd v (decimal 1 1))).
  repeat (constructor; [cbv beta zeta; float_facts|]). constructor.
Qed.

(** The point of a day: the clamp of the predicted value never fires,
    and neither do the clamps of the bounds. *)
Lemma fallback_point_unclamped (t : Timestamp) (p : ForecastPoint) :
  fallback_point t = Ok p ->
  exists s : float,
    seasonal_map !! ts_month (date p) = Some s /\
    let v := fmul (fmul (decimal 5 1) s) (weekend_factor (ts_dayofweek (date p))) in
    predictedValue p = float_value v /\
    (float_value (decimal 425 3) <= predictedValue p)%Q /\
    (predictedValue p <= float_value (decimal 81 2))%Q /\
    lowerBound p = Some (float_value (fsub v (decimal 1 1))) /\
    upperBound p = Some (float_value (fadd v (decimal 1 1))).
Proof.
  destruct (fallback_point_ok t) as (s & Hs & Hp). cbv zeta in Hp.
  pose proof (fallback_unclamped_numbers t s Hs) as Hnum. cbv zeta in Hnum.
  destruct Hnum as (Hclamp & Hlow & Hhigh & Hlo & Hhi).
  rewrite !Hclamp, Hlo, Hhi in Hp. rewrite Hp.
  intros Heq. apply Ok_inj in Heq. subst p.
  exists s. cbn [date predictedValue lowerBound upperBound].
  split; [exact Hs|]. cbv zeta.
  split; [reflexivity|]. split; [exact Hlow|]. split; [exact Hhigh|].
  split; reflexivity.
Qed.

(** X24. The clamps of the fallback generator never fire.  Every point
    it returns has predictedValue = 0.5 * seasonal_map[month] *
    weekend_factor, the products being those of binary64; it lies between
    0.425 (a January weekday) and 0.81 (a July or August weekend), and
    its bounds are predictedValue - 0.1 and predictedValue + 0.1 as
    binary64 computes them, neither cut off at 0 or at 1. *)
Theorem X24_fallback_never_clamps (fuel : nat) (start_date end_date : Timestamp)
    (pts : list ForecastPoint) (p : ForecastPoint) :
  generate_fallback_forecast fuel start_date end_date = Some (Ok pts) ->
  In p pts ->
  exists s : float,
    seasonal_map !! ts_month (date p) = Some s /\
    let v := fmul (fmul (decimal 5 1) s) (weekend_factor (ts_dayofweek (date p))) in
    predictedValue p = float_value v /\
    (float_value (decimal 425 3) <= predictedValue p)%Q /\
    (predictedValue p <= float_value (decimal 81 2))%Q /\
    lowerBound p = Some (float_value (fsub v (decimal 1 1))) /\
    upperBound p = Some (float_value (fadd v (decimal 1 1))).
Proof.
  intros Hrun Hin. unfold generate_fallback_forecast in Hrun.
  destruct (fallback_loop_points _ _ _ _ _ Hrun) as (new & -> & Hall).
  cbn [app] in Hin. rewrite Forall_forall in Hall.
  apply list_elem_of_In in Hin.
  destruct (Hall p Hin) as (t & Ht).
  exact (fallback_point_unclamped t p Ht).
Qed.

Lemma fallback_loop_S (fuel : nat) (cur end_date : Timestamp)
    (acc : list ForecastPoint) :
  fallback_loop (S fuel) cur end_date acc
    = if ts_leb cur end_date then
        match fallback_point cur with
        | Raise e => Some (Raise e)
        | Ok p =>
            match ts_add_checked cur (timedelta_days 1) with
            | Raise e => Some (Raise e)
            | Ok next_date => fallback_loop fuel next_date end_date (acc ++ [p])
            end
        end
      else Some (Ok acc).
Proof. reflexivity. Qed.

(** A run over a range, cut after the day [k] days from its start. *)
Lemma fallback_loop_split (mid end_date : Timestamp) :
  ts_value mid <= ts_value end_date ->
  ts_value mid + NS_PER_DAY <= TS_MAX ->
  forall (k : nat) (cur : Timestamp) (acc : list ForecastPoint),
    TS_MIN <= ts_value cur ->
    ts_value mid = ts_value cur + Z.of_nat k * NS_PER_DAY ->
    exists pts1 : list ForecastPoint,
      (forall fuel : nat, (S k <= fuel)%nat ->
         fallback_loop fuel cur mid acc = Some (Ok (acc ++ pts1))) /\
      (forall fuel : nat,
         fallback_loop (S k + fuel) cur end_date acc
           = fallback_loop fuel (ts_add mid (timedelta_days 1)) end_date (acc ++ pts1)).
Proof.
  intros Hend Hmax. induction k as [|k IH]; intros cur acc Hmin Hmid.
  - destruct (fallback_point_ok cur) as (s & _ & Hp). cbv zeta in Hp.
    set (p := {| date := cur |}) in Hp. exists [p].
    assert (Hnext : ts_add_checked cur (timedelta_days 1)
                    = Ok (ts_add cur (timedelta_days 1))).
    { apply ts_add_checked_in_bounds. cbn [td_value timedelta_days].
      unfold NS_PER_DAY in *. lia. }
    split.
    + intros fuel Hfuel. destruct fuel as [|fuel]; [lia|].
      rewrite fallback_loop_S. unfold ts_leb.
      destruct (Z.leb_spec (ts_value cur) (ts_value mid)); [|lia].
      rewrite Hp, Hnext.
      assert (Hpast : ts_value mid < ts_value (ts_add cur (timedelta_days 1))).
      { cbn [ts_add ts_value td_value timedelta_days]. unfold NS_PER_DAY in *. lia. }
      destruct fuel; cbn [fallback_loop]; unfold ts_leb;
        (destruct (Z.leb_spec (ts_value (ts_add cur (timedelta_days 1))) (ts_value mid));
         [lia | reflexivity]).
    + intros fuel. change (1 + fuel)%nat with (S fuel).
      rewrite fallback_loop_S. unfold ts_leb.
      destruct (Z.leb_spec (ts_value cur) (ts_value end_date)); [|lia].
      rewrite Hp, Hnext. f_equal. destruct cur as [c], mid as [m]. cbn in Hmid.
      unfold ts_add. cbn [ts_value]. f_equal. lia.
  - destruct (fallback_point_ok cur) as (s & _ & Hp). cbv zeta in Hp.
    set (p := {| date := cur |}) in Hp.
    assert (Hstep : ts_value mid
                    = ts_value (ts_add cur (timedelta_days 1)) + Z.of_nat k * NS_PER_DAY).
    { cbn [ts_add ts_value td_value timedelta_days]. unfold NS_PER_DAY in *. lia. }
    assert (Hnext : ts_add_checked cur (timedelta_days 1)
                    = Ok (ts_add cur (timedelta_days 1))).
    { apply ts_add_checked_in_bounds. cbn [td_value timedelta_days].
      unfold NS_PER_DAY in *. lia. }
    assert (Hmin' : TS_MIN <= ts_value (ts_add cur (timedelta_days 1))).
    { cbn [ts_add ts_value td_value timedelta_days]. unfold NS_PER_DAY in *. lia. }
    destruct (IH (ts_add cur (timedelta_days 1)) (acc ++ [p]) Hmin' Hstep)
      as (pts1 & H1 & H2).
    assert (Hle : ts_value cur <= ts_value mid) by (unfold NS_PER_DAY in *; lia).
    exists (p :: pts1). split.
    + intros fuel Hfuel. destruct fuel as [|fuel]; [lia|].
      rewrite fallback_loop_S. unfold ts_leb.
      destruct (Z.leb_spec (ts_value cur) (ts_value mid)); [|lia].
      rewrite Hp, Hnext, (H1 fuel) by lia. rewrite <- app_assoc. reflexivity.
    + intros fuel. change (S (S k) + fuel)%nat with (S (S k + fuel)).
      rewrite fallback_loop_S. unfold ts_leb.
      destruct (Z.leb_spec (ts_value cur) (ts_value end_date)); [|lia].
      rewrite Hp, Hnext, (H2 fuel), <- app_assoc. reflexivity.
Qed.

Lemma fuel_of_split (D a : Z) (k : nat) :
  0 < D -> - D <= a ->
  Z.to_nat ((a + (Z.of_nat k + 1) * D) / D + 1) = (S k + Z.to_nat (a / D + 1))%nat.
Proof.
  intros HD Ha. rewrite Z.div_add by lia.
  assert (-1 <= a / D) by (apply Z.div_le_lower_bound; lia). lia.
Qed.

(** X25. Asking for a range in two pieces gives the same points as
    asking for it at once: the points for [start, end] are the points
    for [start, start + k days] followed by those for
    [start + (k + 1) days, end], whenever start + k days does not pass
    the end and the days of the range, with the day after the last of
    them, are timestamps pandas can hold. *)
Theorem X25_fallback_splits (start_date end_date : Timestamp) (k : nat) :
  let mid := ts_add start_date (timedelta_days (Z.of_nat k)) in
  let next := ts_add mid (timedelta_days 1) in
  ts_value mid <= ts_value end_date ->
  TS_MIN <= ts_value start_date ->
  ts_value start_date + Z.of_nat (fallback_fuel start_date end_date) * NS_PER_DAY
    <= TS_MAX ->
  exists pts1 pts2 : list ForecastPoint,
    generate_fallback_forecast (fallback_fuel start_date mid) start_date mid
      = Some (Ok pts1) /\
    generate_fallback_forecast (fallback_fuel next end_date) next end_date
      = Some (Ok pts2) /\
    generate_fallback_forecast (fallback_fuel start_date end_date) start_date end_date
      = Some (Ok (pts1 ++ pts2)).
Proof.
  intros mid next Hend Hmin Hmax.
  assert (Hmid : ts_value mid = ts_value start_date + Z.of_nat k * NS_PER_DAY)
    by reflexivity.
  assert (Hnextv : ts_value next = ts_value start_date + (Z.of_nat k + 1) * NS_PER_DAY).
  { unfold next, mid. cbn [ts_add ts_value td_value timedelta_days]. ring. }
  assert (Hfuel : fallback_fuel start_date end_date
                  = (S k + fallback_fuel next end_date)%nat).
  { unfold fallback_fuel, td_days, ts_sub. cbn [td_value].
    replace (ts_value end_date - ts_value start_date)
      with ((ts_value end_date - ts_value next) + (Z.of_nat k + 1) * NS_PER_DAY)
      by (rewrite Hnextv; ring).
    apply fuel_of_split; [reflexivity|].
    rewrite Hnextv. rewrite Hmid in Hend. clear - Hend. unfold NS_PER_DAY in *. lia. }
  assert (Hmax1 : ts_value mid + NS_PER_DAY <= TS_MAX).
  { rewrite Hfuel in Hmax. rewrite Hmid. clear - Hmax.
    unfold NS_PER_DAY in *. lia. }
  destruct (fallback_loop_split mid end_date Hend Hmax1 k start_date [] Hmin Hmid)
    as (pts1 & H1 & H2).
  destruct (fallback_enough_fuel next end_date) as (pts2 & Hrun2 & _ & _).
  { rewrite Hnextv. clear - Hmin. unfold NS_PER_DAY. lia. }
  { rewrite Hnextv. rewrite Hfuel in Hmax. clear - Hmax.
    unfold NS_PER_DAY in *. lia. }
  exists pts1, pts2. unfold generate_fallback_forecast in *.
  split; [|split].
  - apply H1. unfold fallback_fuel, td_days, ts_sub. cbn [td_value].
    rewrite Hmid.
    replace (ts_value start_date + Z.of_nat k * NS_PER_DAY - ts_value start_date)
      with (Z.of_nat k * NS_PER_DAY) by ring.
    rewrite Z.div_mul by discriminate. lia.
  - exact Hrun2.
  - rewrite Hfuel, H2, fallback_loop_acc. fold next. rewrite Hrun2. reflexivity.
Qed.
(* ===================================================================== *)
(** ** Further properties of the price optimiser *)
(* ===================================================================== *)

Lemma dict_get_present {V} (d : gmap string V) (key : string) (dflt v : V) :
  d !! key = Some v -> dict_get d key dflt = v.
Proof. unfold dict_get. intros ->. reflexivity. Qed.

(** X22. A context value that is not a number makes the optimiser
    answer HTTP 500 with the interpreter's TypeError text.  The
    occupancy is compared first, so a bad occupancy is reported whatever
    the base price is; a bad base price is reported by the
    multiplication, once the occupancy has passed the comparisons. *)
Theorem X22_optimize_price_rejects_non_numbers (request : OptimizePriceRequest)
    (v : PyVal) :
  py_number v = None ->
  (oreq_context request !! "currentOccupancy" = Some v ->
   optimize_price request
     = Raise (HTTPException 500
                ("'>=' not supported between instances of '"
                   ++ py_type_name v ++ "' and 'float'"))) /\
  (forall occ : PyNum,
     context_number (oreq_context request) "currentOccupancy" (NFloat (decimal 5 1))
       = Some occ ->
     oreq_context request !! "basePrice" = Some v ->
     optimize_price request
       = Raise (HTTPException 500
                  match v with
                  | PyStr _ | PyList _ =>
                      "can't multiply sequence by non-int of type 'float'"
                  | _ => "unsupported operand type(s) for *: '"
                           ++ py_type_name v ++ "' and 'float'"
                  end)).
Proof.
  intros Hv. split.
  - intros Hocc. unfold optimize_price, optimize_price_try.
    rewrite (dict_get_present _ "currentOccupancy" _ v Hocc).
    unfold py_ge. rewrite Hv. reflexivity.
  - intros occ Hocc Hbase.
    pose proof (context_number_get _ _ (PyFloat (decimal 5 1)) _ _ eq_refl Hocc) as Ho.
    assert (Hmul : forall c : float,
              py_mul (dict_get (oreq_context request) "basePrice" (PyInt 100)) c
              = Raise (TypeError
                         match v with
                         | PyStr _ | PyList _ =>
                             "can't multiply sequence by non-int of type 'float'"
                         | _ => "unsupported operand type(s) for *: '"
                                  ++ py_type_name v ++ "' and 'float'"
                         end)).
    { intros c. rewrite (dict_get_present _ "basePrice" _ v Hbase). unfold py_mul.
      rewrite Hv. destruct v; try reflexivity; discriminate. }
    unfold optimize_price, optimize_price_try.
    rewrite (py_ge_number _ occ (decimal 9 1) Ho). cbn [rbind].
    destruct (num_ge occ (decimal 9 1)); cbn [rbind]; [rewrite Hmul; reflexivity|].
    rewrite (py_ge_number _ occ (decimal 7 1) Ho). cbn [rbind].
    destruct (num_ge occ (decimal 7 1)); cbn [rbind]; [rewrite Hmul; reflexivity|].
    rewrite (py_ge_number _ occ (decimal 5 1) Ho). cbn [rbind].
    destruct (num_ge occ (decimal 5 1)); cbn [rbind]; [rewrite Hmul; reflexivity|].
    rewrite (py_ge_number _ occ (decimal 3 1) Ho). cbn [rbind].
    destruct (num_ge occ (decimal 3 1)); cbn [rbind]; rewrite Hmul; reflexivity.
Qed.

(* ===================================================================== *)
(** ** Further properties of the forecast endpoint *)
(* ===================================================================== *)

Section ForecastEndpoint.

Set Default Proof Using "Type".

Variable pd_to_datetime : string -> result Timestamp.
Variable pd_date_range_negative : result (list Timestamp).
Variable mean_absolute_percentage_error : list Q -> list Q -> result Q.
Variable mean_squared_error : list Q -> list Q -> result Q.
Variable np_sqrt : Q -> Q.
Variable ProphetFit : Type.
Variable prophet_validate : gmap string PyVal -> option PyExc.
Variable prophet_fit : gmap string PyVal -> list (Timestamp * Q) -> result ProphetFit.
Variable prophet_predict : ProphetFit -> Timestamp -> Q * Q * Q.

Local Abbreviation forecast_endpoint :=
  (generate_forecast pd_to_datetime pd_date_range_negative
     mean_absolute_percentage_error mean_squared_error np_sqrt
     ProphetFit prophet_validate prophet_fit prophet_predict).
Local Abbreviation predicted_row := (row_at ProphetFit prophet_predict).


(** X20. A forecast without history.  When the request carries no
    history, or an empty list, its dates parse to timestamps that are
    less than 2^63 nanoseconds apart (so that their difference is a
    Timedelta) and the day after the last day of the range is still a
    timestamp, the endpoint answers with the points of the fallback
    generator (the loop is given enough fuel), accuracy 0.8 and MAPE
    0.2, whatever Prophet would do.  For startDate <= endDate there are
    [(endDate - startDate).days + 1] points; for endDate before
    startDate the list is empty and no error is raised. *)
Theorem X20_forecast_without_history (now : Clock) (request : ForecastRequest)
    (start_date end_date : Timestamp) :
  freq_historicalData request = None \/ freq_historicalData request = Some [] ->
  pd_to_datetime (freq_startDate request) = Ok start_date ->
  pd_to_datetime (freq_endDate request) = Ok end_date ->
  TS_MIN <= ts_value start_date <= TS_MAX ->
  TS_MIN <= ts_value end_date <= TS_MAX ->
  TS_MIN <= ts_value end_date - ts_value start_date <= TS_MAX ->
  ts_value start_date + Z.of_nat (fallback_fuel start_date end_date) * NS_PER_DAY
    <= TS_MAX ->
  exists pts : list ForecastPoint,
    forecast_endpoint now request
      = Ok {| fresp_propertyId := freq_propertyId request;
              fresp_modelType := freq_modelType request;
              fresp_forecast := pts;
              fresp_accuracy := Some (float_value (decimal 8 1));
              fresp_mape := Some (float_value (decimal 2 1));
              fresp_generatedAt := now_iso now |} /\
    generate_fallback_forecast (fallback_fuel start_date end_date) start_date end_date
      = Some (Ok pts) /\
    (ts_value start_date <= ts_value end_date ->
     Z.of_nat (length pts) = td_days (ts_sub end_date start_date) + 1) /\
    (ts_value end_date < ts_value start_date -> pts = []).
Proof.
  intros Hhist Hs He [Hmin _] _ _ Hmax.
  destruct (fallback_enough_fuel start_date end_date Hmin Hmax)
    as (pts & Hrun & Hlen & Hempty).
  exists pts. split; [|split; [exact Hrun|split; [|exact Hempty]]].
  - unfold generate_forecast, generate_forecast_try. rewrite Hs, He. cbn [rbind].
    unfold call_fallback.
    destruct Hhist as [-> | ->]; rewrite Hrun; reflexivity.
  - intros Hle. rewrite Hlen. unfold fallback_fuel.
    assert (0 <= td_days (ts_sub end_date start_date)).
    { unfold td_days, ts_sub. cbn [td_value]. apply Z.div_pos; [lia | reflexivity]. }
    lia.
Qed.

End ForecastEndpoint.

(* ===================================================================== *)
(** ** Runs of the model on concrete inputs *)
(* ===================================================================== *)

(** The service with the stand-ins of [Stub] in place of the libraries. *)
Local Abbreviation stub_lstm_train :=
  (LSTMForecaster_train Stub.mean_absolute_percentage_error Stub.mean_squared_error
     Stub.np_sqrt Stub.KerasModel Stub.keras_compile Stub.keras_fit Stub.keras_predict).
Local Abbreviation stub_lstm_forecast :=
  (LSTMForecaster_forecast Stub.KerasModel Stub.keras_predict).
Local Abbreviation stub_lstm_init := (LSTMForecaster_init Stub.KerasModel).
Local Abbreviation stub_prophet_forecast :=
  (ProphetForecaster_forecast Stub.pd_date_range_negative Stub.ProphetFit
     Stub.prophet_predict).
Local Abbreviation stub_generate_forecast :=
  (generate_forecast Stub.pd_to_datetime Stub.pd_date_range_negative
     Stub.mean_absolute_percentage_error Stub.mean_squared_error Stub.np_sqrt
     Stub.ProphetFit Stub.prophet_validate Stub.prophet_fit Stub.prophet_predict).
Local Abbreviation stub_train_model_background :=
  (train_model_background Stub.MODELS_DIR Stub.pd_to_datetime
     Stub.mean_absolute_percentage_error Stub.mean_squared_error Stub.np_sqrt
     Stub.ProphetFit Stub.prophet_validate Stub.prophet_fit Stub.prophet_predict
     Stub.KerasModel Stub.keras_compile Stub.keras_fit Stub.keras_predict
     Stub.joblib_dump Stub.keras_save).

(** The calendar on a few dates: a leap day, the turn of a year, the day
    before the epoch. *)
Example calendar_examples :
  civil_from_days (days_from_civil 2024 2 29) = (2024, 2, 29) /\
  civil_from_days (days_from_civil 2023 12 31 + 1) = (2024, 1, 1) /\
  civil_from_days (-1) = (1969, 12, 31) /\
  ts_dayofweek (ts_of_date 1970 1 1) = 3 /\
  ts_dayofweek (ts_of_date 2024 7 6) = 5 /\
  ts_dayofweek (mkTimestamp (ts_value (ts_of_date 2024 7 7) + 43200000000000)) = 6 /\
  ts_month (ts_of_date 2024 7 6) = 7.
Proof. repeat split; vm_compute; reflexivity. Qed.

(** Binary64 on the numbers of the fallback generator and the
    optimiser: 1.35 is 6079859496950170 * 2^-52; 0.5 * 1.35 * 1.2 is the
    float 0.81; 0.81 - 0.1 is the float 0.7100000000000001, the one after
    the float 0.71; 0.81 + 0.1 is the float 0.91; 200 * 1.5 is 300.0;
    the integer 10^400 has no float. *)
Example float_examples :
  decimal 135 2 = S754_finite false 6079859496950170 (-52) /\
  fmul (fmul (decimal 5 1) (decimal 135 2)) (decimal 12 1) = decimal 81 2 /\
  fsub (decimal 81 2) (decimal 1 1) = decimal 7100000000000001 16 /\
  decimal 7100000000000001 16 = S754_finite false 6395111470866105 (-53) /\
  decimal 71 2 = S754_finite false 6395111470866104 (-53) /\
  fadd (decimal 81 2) (decimal 1 1) = decimal 91 2 /\
  fmul (float_of_Z 200) (decimal 15 1) = decimal 3000 1 /\
  (float_value (decimal 3000 1) == 300)%Q /\
  float_of_int (10 ^ 400) = Raise (OverflowError "int too large to convert to float").
Proof.
  split; [vm_compute; reflexivity|]. split; [vm_compute; reflexivity|].
  split; [vm_compute; reflexivity|]. split; [vm_compute; reflexivity|].
  split; [vm_compute; reflexivity|]. split; [vm_compute; reflexivity|].
  split; [vm_compute; reflexivity|]. split; vm_compute; reflexivity.
Qed.

(** Five observations, window length 30. *)
Lemma C1_witness_five_observations :
  exists (e : PyExc) (self' : LSTMForecaster Stub.KerasModel),
    stub_lstm_train [1%Q; 2%Q; 3%Q; 4%Q; 5%Q] None (stub_lstm_init 30%nat, [])
      = (Raise e, (self', [])) /\
    lstm_model _ self' = None /\
    e = IndexError "tuple index out of range".
Proof.
  exact (proj1 (C1_short_series_fails_before_build
                  Stub.mean_absolute_percentage_error Stub.mean_squared_error
                  Stub.np_sqrt Stub.KerasModel Stub.keras_compile Stub.keras_fit
                  Stub.keras_predict (stub_lstm_init 30%nat) []
                  [1%Q; 2%Q; 3%Q; 4%Q; 5%Q] None
                  ltac:(cbn; lia))).
Defined.

(** Five observations, window length 2: three pairs. *)
Lemma C2_witness_three_pairs :
  exists (X : list (list Q)) (y : list Q) (self' : LSTMForecaster Stub.KerasModel),
    prepare_data Stub.KerasModel [1%Q; 2%Q; 3%Q; 4%Q; 5%Q] (stub_lstm_init 2%nat, [])
      = (Ok (X, y), (self', [])) /\
    length X = 3%nat /\ length y = 3%nat.
Proof.
  destruct (C2_sliding_window_pairs Stub.KerasModel (stub_lstm_init 2%nat) []
              [1%Q; 2%Q; 3%Q; 4%Q; 5%Q] ltac:(discriminate))
    as (f & X & y & self' & _ & Hrun & _ & HX & Hy & _).
  exists X, y, self'. split; [exact Hrun|]. split; [exact HX | exact Hy].
Defined.

(** A forecaster with window length 2, an input of three values, two
    periods. *)
Lemma C3_witness_two_periods :
  exists predictions : list Q,
    stub_lstm_forecast [1%Q; 2%Q; 3%Q] 2
      ({| lstm_model := Some 2%nat;
          lstm_scaler := Some {| scale_ := 1%Q; min_ := 0%Q |};
          sequence_length := 2%nat |}, [])
    = (Ok (map (fun x => (x - 0) / 1)%Q predictions),
       ({| lstm_model := Some 2%nat;
           lstm_scaler := Some {| scale_ := 1%Q; min_ := 0%Q |};
           sequence_length := 2%nat |}, [])) /\
    Z.of_nat (length (map (fun x => (x - 0) / 1)%Q predictions)) = 2.
Proof.
  destruct (C3_autoregressive_forecast Stub.KerasModel Stub.keras_predict
              {| lstm_model := Some 2%nat;
                 lstm_scaler := Some {| scale_ := 1%Q; min_ := 0%Q |};
                 sequence_length := 2%nat |} []
              2%nat {| scale_ := 1%Q; min_ := 0%Q |} [1%Q; 2%Q; 3%Q] 2
              eq_refl eq_refl ltac:(cbn; lia) ltac:(lia))
    as (predictions & Hrun & Hlen & _).
  exists predictions. split; [exact Hrun | exact Hlen].
Defined.

(** With zero periods the inverse transform is handed an empty array:
    a forecaster that has been trained (five observations, window length
    2) raises instead of returning no value. *)
Lemma C3_counterexample_zero_periods :
  exists (metrics : Metrics) (st : LSTMState Stub.KerasModel),
    stub_lstm_train [1%Q; 2%Q; 3%Q; 4%Q; 5%Q] None (stub_lstm_init 2%nat, [])
      = (Ok metrics, st) /\
    stub_lstm_forecast [4%Q; 5%Q] 0 st = (Raise (no_samples EmptyString), st) /\
    ~ (exists out : list Q, fst (stub_lstm_forecast [4%Q; 5%Q] 0 st) = Ok out).
Proof.
  set (r := stub_lstm_train [1%Q; 2%Q; 3%Q; 4%Q; 5%Q] None (stub_lstm_init 2%nat, [])).
  vm_compute in r. subst r.
  eexists _, _. split; [reflexivity|].
  split; [vm_compute; reflexivity|].
  intros [out Hout]. vm_compute in Hout. discriminate.
Qed.

(** Three days in July 2024. *)
Lemma C4_witness_three_days :
  exists pts : list ForecastPoint,
    generate_fallback_forecast 3 (ts_of_date 2024 7 6) (ts_of_date 2024 7 8)
      = Some (Ok pts) /\
    length pts = 3%nat.
Proof.
  destruct (proj1 (C4_fallback_one_point_per_day (ts_of_date 2024 7 6)
                     (ts_of_date 2024 7 8) ltac:(vm_compute; discriminate)
                     ltac:(vm_compute; discriminate) ltac:(vm_compute; discriminate)))
    as (pts & Hrun & Hlen & _).
  exists pts. split.
  - apply Hrun. vm_compute. lia.
  - rewrite Hlen. vm_compute. reflexivity.
Defined.

(** Two failures of the claim as it was stated.  The lower bound of
    2024-07-06 is the float 0.81 - 0.1 = 0.7100000000000001, which is
    neither the rational 0.71 nor the float 0.71.  And for the one-day
    range 2262-04-11 .. 2262-04-11, where start <= end, the generator
    returns no point: after building the point of that day it adds a day
    to the date, which pandas refuses, so the call raises. *)
Lemma C4_counterexample_rounding_and_last_day :
  (exists (p : ForecastPoint) (lo : Q),
     generate_fallback_forecast 1 (ts_of_date 2024 7 6) (ts_of_date 2024 7 6)
       = Some (Ok [p]) /\
     lowerBound p = Some lo /\
     ~ (lo == 0.71)%Q /\
     lo <> float_value (decimal 71 2) /\
     (0.71 < lo)%Q)
  /\ ts_value (ts_of_date 2262 4 11) <= ts_value (ts_of_date 2262 4 11) <= TS_MAX
  /\ (forall fuel : nat, (1 <= fuel)%nat ->
        generate_fallback_forecast fuel (ts_of_date 2262 4 11) (ts_of_date 2262 4 11)
          = Some (Raise (LibraryError "OutOfBoundsDatetime"
                           "Out of bounds nanosecond timestamp: 9223372800000000000")))
  /\ (forall fuel : nat,
        ~ (exists pts : list ForecastPoint,
             generate_fallback_forecast fuel (ts_of_date 2262 4 11)
               (ts_of_date 2262 4 11) = Some (Ok pts))).
Proof.
  assert (Hraise : forall fuel : nat, (1 <= fuel)%nat ->
            generate_fallback_forecast fuel (ts_of_date 2262 4 11) (ts_of_date 2262 4 11)
            = Some (Raise (LibraryError "OutOfBoundsDatetime"
                             "Out of bounds nanosecond timestamp: 9223372800000000000"))).
  { intros fuel Hfuel. destruct fuel as [|fuel]; [lia|].
    unfold generate_fallback_forecast. rewrite fallback_loop_S.
    assert (Hle : ts_leb (ts_of_date 2262 4 11) (ts_of_date 2262 4 11) = true)
      by (vm_compute; reflexivity).
    rewrite Hle.
    destruct (fallback_point_ok (ts_of_date 2262 4 11)) as (s & _ & Hp).
    cbv zeta in Hp. rewrite Hp.
    rewrite ts_add_checked_past_max by (vm_compute; reflexivity).
    vm_compute. reflexivity. }
  split; [|split; [|split]].
  - set (r := generate_fallback_forecast 1 (ts_of_date 2024 7 6) (ts_of_date 2024 7 6)).
    vm_compute in r. subst r.
    eexists _, _. split; [reflexivity|]. cbn [lowerBound]. split; [reflexivity|].
    split; [vm_compute; discriminate|]. split; [vm_compute; discriminate|].
    vm_compute. reflexivity.
  - split; vm_compute; discriminate.
  - exact Hraise.
  - intros fuel [pts Hpts]. destruct fuel as [|fuel].
    + vm_compute in Hpts. discriminate.
    + rewrite Hraise in Hpts by lia. discriminate.
Qed.

(** Base price 200 at occupancy 0.92. *)
Lemma C5_witness_high_occupancy :
  exists multiplier : float,
    optimize_price
      {| oreq_propertyId := "p"; oreq_date := "2024-07-06";
         oreq_context :=
           <["basePrice" := PyInt 200]>
             (<["currentOccupancy" := PyFloat (decimal 92 2)]> ∅) |}
    = Ok {| recommendedPrice := fmul (float_of_Z 200) multiplier;
            opt_confidence := decimal 75 2 |} /\
    multiplier = decimal 15 1.
Proof.
  set (request :=
         {| oreq_propertyId := "p"; oreq_date := "2024-07-06";
            oreq_context :=
              <["basePrice" := PyInt 200]>
                (<["currentOccupancy" := PyFloat (decimal 92 2)]> ∅) |}).
  assert (Hbase : context_number (oreq_context request) "basePrice" (NInt 100)
                  = Some (NInt 200)) by (vm_compute; reflexivity).
  assert (Hocc : context_number (oreq_context request) "currentOccupancy"
                   (NFloat (decimal 5 1))
                 = Some (NFloat (decimal 92 2))) by (vm_compute; reflexivity).
  assert (Hb : num_float (NInt 200) = Ok (float_of_Z 200)) by (vm_compute; reflexivity).
  destruct (proj1 (C5_optimize_price_ladder request (NInt 200) (NFloat (decimal 92 2))
                     (float_of_Z 200) Hbase Hocc Hb))
    as (multiplier & Hrun & H9 & _).
  exists multiplier. split; [exact Hrun|].
  apply H9. vm_compute. reflexivity.
Defined.

(** A request the claim as it was stated does not cover: the base price
    10^400 is a number, an integer JSON carries and Python reads, but it
    has no float, so the multiplication by the multiplier raises
    OverflowError and the endpoint answers HTTP 500 with no recommended
    price. *)
Lemma C5_counterexample_huge_base_price :
  let request :=
    {| oreq_propertyId := "p"; oreq_date := "2024-07-06";
       oreq_context := <["basePrice" := PyInt (10 ^ 400)]> ∅ |} in
  context_number (oreq_context request) "basePrice" (NInt 100) = Some (NInt (10 ^ 400)) /\
  context_number (oreq_context request) "currentOccupancy" (NFloat (decimal 5 1))
    = Some (NFloat (decimal 5 1)) /\
  optimize_price request
    = Raise (HTTPException 500 "int too large to convert to float") /\
  ~ (exists r : OptimizePriceResponse, optimize_price request = Ok r).
Proof.
  cbv zeta.
  split; [vm_compute; reflexivity|]. split; [vm_compute; reflexivity|].
  split; [vm_compute; reflexivity|].
  intros [r Hr]. vm_compute in Hr. discriminate.
Qed.

(** A job submitted to an empty registry, then run. *)
Lemma C6_witness_one_job :
  exists (st2 : Store) (r1 r2 r3 : gmap string Job),
    snapshots st2 = [r1; r2; r3] /\
    status_at "job-1" r1 = Some PENDING /\
    status_at "job-1" r2 = Some IN_PROGRESS /\
    (status_at "job-1" r3 = Some COMPLETED \/ status_at "job-1" r3 = Some FAILED).
Proof.
  assert (Hfresh : training_jobs {| training_jobs := ∅; snapshots := [] |} !! "job-1"
                   = None) by apply lookup_empty.
  destruct (proj1 (C6_status_is_monotone Stub.MODELS_DIR Stub.pd_to_datetime
                     Stub.mean_absolute_percentage_error Stub.mean_squared_error
                     Stub.np_sqrt Stub.ProphetFit Stub.prophet_validate Stub.prophet_fit
                     Stub.prophet_predict Stub.KerasModel Stub.keras_compile
                     Stub.keras_fit Stub.keras_predict Stub.joblib_dump Stub.keras_save)
             {| training_jobs := ∅; snapshots := [] |} "job-1" Stub.now Stub.now
             {| treq_modelType := "optimization"; treq_propertyId := None;
                treq_trainingData := []; treq_parameters := None |}
             Hfresh)
    as (resp & st1 & st2 & r1 & r2 & r3 & _ & _ & _ & Hsnap & _ & H1 & H2 & H3 & _).
  exists st2, r1, r2, r3. cbn [snapshots app] in Hsnap.
  split; [exact Hsnap|]. split; [exact H1|]. split; [exact H2 | exact H3].
Defined.

(** A training request with five observations, and its pending job. *)
Local Abbreviation five_points :=
  [ {| hdp_date := "2024-01-01"; hdp_value := 0.61%Q; hdp_metadata := None |};
    {| hdp_date := "2024-01-02"; hdp_value := 0.64%Q; hdp_metadata := None |};
    {| hdp_date := "2024-01-03"; hdp_value := 0.58%Q; hdp_metadata := None |};
    {| hdp_date := "2024-01-04"; hdp_value := 0.70%Q; hdp_metadata := None |};
    {| hdp_date := "2024-01-05"; hdp_value := 0.66%Q; hdp_metadata := None |} ].

Local Abbreviation lstm_request :=
  {| treq_modelType := "lstm"; treq_propertyId := Some "villa-7"%string;
     treq_trainingData := five_points; treq_parameters := None |}.

Local Abbreviation pending_job :=
  {| job_status := PENDING; job_modelType := "lstm";
     job_startedAt := "2024-07-01T12:00:00";
     job_accuracy := None; job_mape := None; job_completedAt := None;
     job_modelPath := None; job_errorMessage := None; job_failedAt := None |}.

(** A sequence-window training request with five observations ends
    FAILED with numpy's message. *)
Lemma C7_witness_five_observations :
  exists st' : Store,
    stub_train_model_background "job-1" Stub.now lstm_request
      {| training_jobs := {["job-1" := pending_job]}; snapshots := [] |}
      = (Ok tt, st') /\
    (job_status <$> training_jobs st' !! "job-1") = Some FAILED /\
    (job_errorMessage <$> training_jobs st' !! "job-1")
      = Some (Some "tuple index out of range").
Proof.
  destruct (lstm_train_short_series
              Stub.mean_absolute_percentage_error Stub.mean_squared_error
              Stub.np_sqrt Stub.KerasModel Stub.keras_compile Stub.keras_fit
              Stub.keras_predict (stub_lstm_init 30%nat) []
              [0.61%Q; 0.64%Q; 0.58%Q; 0.70%Q; 0.66%Q] None
              ltac:(cbn; lia) ltac:(discriminate))
    as (self' & Htrain & _).
  assert (Hjob0 : training_jobs
                    {| training_jobs := {["job-1" := pending_job]}; snapshots := [] |}
                    !! "job-1" = Some pending_job) by apply lookup_singleton_eq.
  destruct (C7_background_failure_is_recorded Stub.MODELS_DIR Stub.pd_to_datetime
              Stub.mean_absolute_percentage_error Stub.mean_squared_error
              Stub.np_sqrt Stub.ProphetFit Stub.prophet_validate Stub.prophet_fit
              Stub.prophet_predict Stub.KerasModel Stub.keras_compile
              Stub.keras_fit Stub.keras_predict Stub.joblib_dump Stub.keras_save
              {| training_jobs := {["job-1" := pending_job]}; snapshots := [] |}
              "job-1" Stub.now lstm_request pending_job
              (IndexError "tuple index out of range")
              Hjob0)
    as (st' & job' & Hrun & Hjob & Hstatus & Hmsg & _).
  - eapply fail_lstm_training with
      (df := [(ts_of_date 2024 1 1, 0.61%Q); (ts_of_date 2024 1 2, 0.64%Q);
              (ts_of_date 2024 1 3, 0.58%Q); (ts_of_date 2024 1 4, 0.70%Q);
              (ts_of_date 2024 1 5, 0.66%Q)])
      (data := [0.61%Q; 0.64%Q; 0.58%Q; 0.70%Q; 0.66%Q]).
    + reflexivity.
    + vm_compute. reflexivity.
    + reflexivity.
    + exact Htrain.
  - exists st'. split; [exact Hrun|]. rewrite Hjob. cbn [fmap option_fmap option_map].
    rewrite Hstatus, Hmsg. split; reflexivity.
Defined.

(** A forecaster that was never trained. *)
Lemma C8_witness_fresh_instances :
  stub_prophet_forecast 3 (ProphetForecaster_init Stub.ProphetFit)
    = (Raise not_trained, ProphetForecaster_init Stub.ProphetFit) /\
  stub_lstm_forecast [1%Q; 2%Q; 3%Q] 3 (stub_lstm_init 30%nat, [])
    = (Raise not_trained, (stub_lstm_init 30%nat, [])).
Proof.
  pose proof (C8_forecast_requires_model Stub.pd_date_range_negative
                Stub.mean_absolute_percentage_error Stub.mean_squared_error
                Stub.np_sqrt Stub.ProphetFit Stub.prophet_validate Stub.prophet_fit
                Stub.prophet_predict Stub.KerasModel Stub.keras_compile
                Stub.keras_fit Stub.keras_predict Stub.keras_load_model
                Stub.joblib_load_scaler Stub.joblib_load_prophet)
    as (Hprophet & _ & Hlstm & _).
  split.
  - apply Hprophet. reflexivity.
  - apply Hlstm. reflexivity.
Defined.

(** A [train] that fails in Keras (three observations and window length
    2 leave the training split empty) has already assigned the model:
    [forecast] on that instance, on which no [train] or [load] has
    succeeded, returns a value instead of raising. *)
Lemma C8_counterexample_failed_train :
  exists (e : PyExc) (st : LSTMState Stub.KerasModel) (out : list Q),
    stub_lstm_train [1%Q; 2%Q; 3%Q] None (stub_lstm_init 2%nat, []) = (Raise e, st) /\
    stub_lstm_forecast [1%Q; 2%Q; 3%Q] 1 st = (Ok out, st) /\
    fst (stub_lstm_forecast [1%Q; 2%Q; 3%Q] 1 st) <> Raise not_trained.
Proof.
  set (r := stub_lstm_train [1%Q; 2%Q; 3%Q] None (stub_lstm_init 2%nat, [])).
  vm_compute in r. subst r.
  eexists _, _, _. split; [reflexivity|].
  set (r := stub_lstm_forecast _ _ _). vm_compute in r. subst r.
  split; [reflexivity|]. cbn [fst]. discriminate.
Qed.


(** History from January 2020, a three-day window in July 2024. *)
Local Abbreviation old_history :=
  [ {| hdp_date := "2020-01-01"; hdp_value := 0.5%Q; hdp_metadata := None |};
    {| hdp_date := "2020-01-02"; hdp_value := 0.6%Q; hdp_metadata := None |} ].

Local Abbreviation july_request :=
  {| freq_propertyId := "villa-7"; freq_startDate := "2024-07-01";
     freq_endDate := "2024-07-03"; freq_modelType := "occupancy";
     freq_historicalData := Some old_history |}.


(* ===================================================================== *)
(** ** Runs of the model for the further properties *)
(* ===================================================================== *)

Local Abbreviation stub_server_step :=
  (server_step Stub.MODELS_DIR Stub.pd_to_datetime
     Stub.mean_absolute_percentage_error Stub.mean_squared_error Stub.np_sqrt
     Stub.ProphetFit Stub.prophet_validate Stub.prophet_fit Stub.prophet_predict
     Stub.KerasModel Stub.keras_compile Stub.keras_fit Stub.keras_predict
     Stub.joblib_dump Stub.keras_save).

Local Abbreviation empty_store := {| training_jobs := ∅; snapshots := [] |}.

Local Abbreviation one_job_store :=
  {| training_jobs := {["job-1" := pending_job]}; snapshots := [] |}.

Local Abbreviation five_rows :=
  [(ts_of_date 2024 1 1, 0.61%Q); (ts_of_date 2024 1 2, 0.64%Q);
   (ts_of_date 2024 1 3, 0.58%Q); (ts_of_date 2024 1 4, 0.70%Q);
   (ts_of_date 2024 1 5, 0.66%Q)].

Local Abbreviation prophet_request :=
  {| treq_modelType := "prophet"; treq_propertyId := Some "villa-7"%string;
     treq_trainingData := five_points; treq_parameters := None |}.

Local Abbreviation optimization_request :=
  {| treq_modelType := "optimization"; treq_propertyId := None;
     treq_trainingData := five_points; treq_parameters := None |}.

(** A task whose job was never registered. *)
Lemma X3_witness_empty_registry :
  stub_train_model_background "job-9" Stub.now lstm_request empty_store
    = (Raise (KeyError "job-9"), empty_store).
Proof.
  assert (Hnone : training_jobs empty_store !! "job-9" = None) by apply lookup_empty.
  exact (X3_background_unknown_job Stub.MODELS_DIR Stub.pd_to_datetime
              Stub.mean_absolute_percentage_error Stub.mean_squared_error
              Stub.np_sqrt Stub.ProphetFit Stub.prophet_validate Stub.prophet_fit
              Stub.prophet_predict Stub.KerasModel Stub.keras_compile
              Stub.keras_fit Stub.keras_predict Stub.joblib_dump Stub.keras_save
           empty_store "job-9" Stub.now lstm_request Hnone).
Defined.

(** A seasonal-trend job on five observations. *)
Lemma X4_witness_five_observations :
  exists (st' : Store) (job' : Job),
    stub_train_model_background "job-1" Stub.now prophet_request one_job_store
      = (Ok tt, st') /\
    training_jobs st' !! "job-1" = Some job' /\
    job_status job' = COMPLETED /\
    job_modelPath job' = Some "/app/models/prophet_villa-7_20240701_120000.pkl"%string.
Proof.
  assert (Hjob : training_jobs one_job_store !! "job-1" = Some pending_job)
    by apply lookup_singleton_eq.
  assert (Hdf : build_frame Stub.pd_to_datetime (treq_trainingData prophet_request)
                = Ok five_rows) by (vm_compute; reflexivity).
  destruct (X4_background_prophet_success Stub.MODELS_DIR Stub.pd_to_datetime
              Stub.mean_absolute_percentage_error Stub.mean_squared_error
              Stub.np_sqrt Stub.ProphetFit Stub.prophet_validate Stub.prophet_fit
              Stub.prophet_predict Stub.KerasModel Stub.keras_compile
              Stub.keras_fit Stub.keras_predict Stub.joblib_dump Stub.keras_save
              one_job_store "job-1" Stub.now prophet_request pending_job five_rows
              tt 0.1%Q 0.04%Q Hjob eq_refl Hdf eq_refl eq_refl eq_refl eq_refl eq_refl)
    as (st' & job' & Hrun & Hlookup & Hstatus & _ & _ & Hpath & _).
  exists st', job'. split; [exact Hrun|]. split; [exact Hlookup|].
  split; [exact Hstatus | exact Hpath].
Defined.

(** A job of the model type "optimization", which the schema admits. *)
Lemma X5_witness_optimization :
  exists (st' : Store) (job' : Job),
    stub_train_model_background "job-1" Stub.now optimization_request one_job_store
      = (Ok tt, st') /\
    training_jobs st' !! "job-1" = Some job' /\
    job_status job' = FAILED /\
    job_errorMessage job' = Some "Unknown model type: optimization"%string.
Proof.
  assert (Hjob : training_jobs one_job_store !! "job-1" = Some pending_job)
    by apply lookup_singleton_eq.
  assert (Hdf : build_frame Stub.pd_to_datetime (treq_trainingData optimization_request)
                = Ok five_rows) by (vm_compute; reflexivity).
  destruct (X5_background_unknown_model_type Stub.MODELS_DIR Stub.pd_to_datetime
              Stub.mean_absolute_percentage_error Stub.mean_squared_error
              Stub.np_sqrt Stub.ProphetFit Stub.prophet_validate Stub.prophet_fit
              Stub.prophet_predict Stub.KerasModel Stub.keras_compile
              Stub.keras_fit Stub.keras_predict Stub.joblib_dump Stub.keras_save
              one_job_store "job-1" Stub.now optimization_request pending_job five_rows
              Hjob ltac:(discriminate) ltac:(discriminate) Hdf)
    as (st' & job' & Hrun & Hlookup & Hstatus & Hmsg & _).
  exists st', job'. split; [exact Hrun|]. split; [exact Hlookup|].
  split; [exact Hstatus | exact Hmsg].
Defined.

(** The task of job-1 next to a finished job-0. *)
Lemma X6_witness_two_jobs :
  exists st' : Store,
    stub_train_model_background "job-1" Stub.now lstm_request
      {| training_jobs :=
           <["job-1" := pending_job]>
             {["job-0" := set_failed (ValueError "no data") Stub.now pending_job]};
         snapshots := [] |}
      = (Ok tt, st') /\
    training_jobs st' !! "job-0"
      = Some (set_failed (ValueError "no data") Stub.now pending_job).
Proof.
  set (st := {| training_jobs :=
                  <["job-1" := pending_job]>
                    {["job-0" := set_failed (ValueError "no data") Stub.now pending_job]};
                snapshots := [] |}).
  assert (Hjob : training_jobs st !! "job-1" = Some pending_job)
    by apply lookup_insert_eq.
  destruct (X6_background_touches_own_job_only Stub.MODELS_DIR Stub.pd_to_datetime
              Stub.mean_absolute_percentage_error Stub.mean_squared_error
              Stub.np_sqrt Stub.ProphetFit Stub.prophet_validate Stub.prophet_fit
              Stub.prophet_predict Stub.KerasModel Stub.keras_compile
              Stub.keras_fit Stub.keras_predict Stub.joblib_dump Stub.keras_save
              st "job-1" Stub.now lstm_request pending_job Hjob)
    as (st' & job' & Hrun & _ & _ & _ & Hothers & _).
  exists st'. split; [exact Hrun|].
  rewrite (Hothers "job-0") by discriminate.
  vm_compute. reflexivity.
Defined.

(** The server after one submission. *)
Local Abbreviation submitted_job :=
  {| job_status := PENDING; job_modelType := "lstm";
     job_startedAt := now_iso Stub.now;
     job_accuracy := None; job_mape := None; job_completedAt := None;
     job_modelPath := None; job_errorMessage := None; job_failedAt := None |}.

Local Abbreviation submitted_store :=
  {| training_jobs := <["job-1" := submitted_job]> ∅;
     snapshots := [] ++ [<["job-1" := submitted_job]> ∅] |}.

Local Abbreviation submitted_server :=
  {| store := submitted_store; queue := [] ++ [("job-1"%string, lstm_request)] |}.

Lemma X7_witness_after_submission :
  rtc stub_server_step server_init submitted_server /\
  forall (resp : TrainingResponse) (st' : Store),
    get_training_status "job-1" (store submitted_server) = (Ok resp, st') ->
    tresp_status resp <> IN_PROGRESS /\
    (tresp_status resp = PENDING <->
     exists request, In ("job-1"%string, request) (queue submitted_server)).
Proof.
  assert (Hreach : rtc stub_server_step server_init submitted_server).
  { apply rtc_once.
    apply (step_train_model Stub.MODELS_DIR Stub.pd_to_datetime
              Stub.mean_absolute_percentage_error Stub.mean_squared_error
              Stub.np_sqrt Stub.ProphetFit Stub.prophet_validate Stub.prophet_fit
              Stub.prophet_predict Stub.KerasModel Stub.keras_compile
              Stub.keras_fit Stub.keras_predict Stub.joblib_dump Stub.keras_save
             server_init "job-1" Stub.now lstm_request
             {| tresp_jobId := "job-1"; tresp_modelType := "lstm";
                tresp_status := PENDING; tresp_accuracy := None; tresp_mape := None;
                tresp_errorMessage := None |}
             [("job-1"%string, lstm_request)] submitted_store).
    - apply lookup_empty.
    - reflexivity. }
  split; [exact Hreach|].
  intros resp st' Hstatus.
  exact (X7_status_never_in_progress Stub.MODELS_DIR Stub.pd_to_datetime
              Stub.mean_absolute_percentage_error Stub.mean_squared_error
              Stub.np_sqrt Stub.ProphetFit Stub.prophet_validate Stub.prophet_fit
              Stub.prophet_predict Stub.KerasModel Stub.keras_compile
              Stub.keras_fit Stub.keras_predict Stub.joblib_dump Stub.keras_save
           submitted_server "job-1" resp st' Hreach Hstatus).
Defined.

(** A submitted job, across the run of its task. *)
Lemma X8_witness_across_the_task :
  exists job' : Job,
    training_jobs
      (snd (stub_train_model_background "job-1" Stub.now lstm_request submitted_store))
      !! "job-1" = Some job' /\
    job_modelType job' = "lstm"%string /\
    job_startedAt job' = now_iso Stub.now.
Proof.
  set (after := stub_train_model_background "job-1" Stub.now lstm_request submitted_store).
  assert (Hstep : rtc stub_server_step submitted_server
                    {| store := snd after; queue := [] ++ [] |}).
  { apply rtc_once.
    apply (step_background Stub.MODELS_DIR Stub.pd_to_datetime
              Stub.mean_absolute_percentage_error Stub.mean_squared_error
              Stub.np_sqrt Stub.ProphetFit Stub.prophet_validate Stub.prophet_fit
              Stub.prophet_predict Stub.KerasModel Stub.keras_compile
              Stub.keras_fit Stub.keras_predict Stub.joblib_dump Stub.keras_save
             submitted_server [] "job-1" lstm_request [] Stub.now (fst after) (snd after)).
    - reflexivity.
    - unfold after. apply surjective_pairing. }
  assert (Hjob : training_jobs (store submitted_server) !! "job-1" = Some submitted_job)
    by apply lookup_insert_eq.
  exact (X8_registry_only_grows Stub.MODELS_DIR Stub.pd_to_datetime
              Stub.mean_absolute_percentage_error Stub.mean_squared_error
              Stub.np_sqrt Stub.ProphetFit Stub.prophet_validate Stub.prophet_fit
              Stub.prophet_predict Stub.KerasModel Stub.keras_compile
              Stub.keras_fit Stub.keras_predict Stub.joblib_dump Stub.keras_save
           submitted_server {| store := snd after; queue := [] ++ [] |}
           "job-1" submitted_job Hstep Hjob).
Defined.

(** Five observations for a window of 30. *)
Lemma X9_witness_five_observations :
  exists (st' : Store) (job' : Job),
    stub_train_model_background "job-1" Stub.now lstm_request one_job_store
      = (Ok tt, st') /\
    training_jobs st' !! "job-1" = Some job' /\
    job_status job' = FAILED /\
    job_errorMessage job' = Some "tuple index out of range"%string.
Proof.
  assert (Hjob : training_jobs one_job_store !! "job-1" = Some pending_job)
    by apply lookup_singleton_eq.
  assert (Hdf : build_frame Stub.pd_to_datetime (treq_trainingData lstm_request)
                = Ok five_rows) by (vm_compute; reflexivity).
  destruct (X9_background_lstm_needs_31_points Stub.MODELS_DIR Stub.pd_to_datetime
              Stub.mean_absolute_percentage_error Stub.mean_squared_error
              Stub.np_sqrt Stub.ProphetFit Stub.prophet_validate Stub.prophet_fit
              Stub.prophet_predict Stub.KerasModel Stub.keras_compile
              Stub.keras_fit Stub.keras_predict Stub.joblib_dump Stub.keras_save
              one_job_store "job-1" Stub.now lstm_request pending_job five_rows
              Hjob eq_refl Hdf ltac:(cbn; lia))
    as (st' & job' & Hrun & Hlookup & Hstatus & Hmsg & _).
  exists st', job'. split; [exact Hrun|]. split; [exact Hlookup|].
  split; [exact Hstatus | exact Hmsg].
Defined.

(** A forecaster with a network and a scaler, window length 2. *)
Local Abbreviation trained_forecaster :=
  {| lstm_model := Some 2%nat;
     lstm_scaler := Some {| scale_ := 1%Q; min_ := 0%Q |};
     sequence_length := 2%nat |}.

(** Five observations, window length 2: Keras is reached. *)
Lemma X10_witness_five_observations :
  exists (r : result Metrics) (self' : LSTMForecaster Stub.KerasModel),
    stub_lstm_train [1%Q; 2%Q; 3%Q; 4%Q; 5%Q] None (stub_lstm_init 2%nat, [])
      = (r, (self', [EvBuild 2; EvFit])) /\
    lstm_model _ self' <> None.
Proof.
  destruct (X10_lstm_train_reaches_keras Stub.mean_absolute_percentage_error Stub.mean_squared_error
              Stub.np_sqrt Stub.KerasModel Stub.keras_compile Stub.keras_fit
              Stub.keras_predict
              (stub_lstm_init 2%nat) [] [1%Q; 2%Q; 3%Q; 4%Q; 5%Q] None
              ltac:(cbn; lia))
    as (f & r & self' & m & Hrun & _ & _ & Hm & _).
  exists r, self'. split; [exact Hrun|]. rewrite Hm. discriminate.
Defined.

(** Three observations, window length 2: one pair, an empty training
    split. *)
Lemma X11_witness_three_observations :
  exists self' : LSTMForecaster Stub.KerasModel,
    stub_lstm_train [1%Q; 2%Q; 3%Q] None (stub_lstm_init 2%nat, [])
      = (Raise (ValueError "Expect x to be a non-empty array or dataset."),
         (self', [EvBuild 2; EvFit])) /\
    lstm_model _ self' = Some (Stub.keras_compile 2).
Proof.
  destruct (X11_lstm_train_single_pair Stub.mean_absolute_percentage_error Stub.mean_squared_error
              Stub.np_sqrt Stub.KerasModel Stub.keras_compile Stub.keras_fit
              Stub.keras_predict
              (stub_lstm_init 2%nat) [] [1%Q; 2%Q; 3%Q] None
              (ValueError "Expect x to be a non-empty array or dataset.")
              eq_refl ltac:(intros; reflexivity))
    as (self' & Hrun & Hm & _).
  exists self'. split; [exact Hrun | exact Hm].
Defined.

(** Two inputs that end with 20, 40. *)
Lemma X12_witness_same_tail :
  stub_lstm_forecast [10%Q; 20%Q; 40%Q] 3 (trained_forecaster, [])
    = stub_lstm_forecast [0%Q; 20%Q; 40%Q] 3 (trained_forecaster, []).
Proof.
  exact (X12_lstm_forecast_uses_last_window Stub.KerasModel Stub.keras_predict
           trained_forecaster [] 2%nat {| scale_ := 1%Q; min_ := 0%Q |}
           [10%Q; 20%Q; 40%Q] [0%Q; 20%Q; 40%Q] 3
           eq_refl eq_refl ltac:(cbn; lia) ltac:(cbn; lia) eq_refl).
Defined.

(** One period and three periods from the same input. *)
Lemma X13_witness_one_and_three_periods :
  exists out1 out2 : list Q,
    stub_lstm_forecast [1%Q; 2%Q; 3%Q] 1 (trained_forecaster, [])
      = (Ok out1, (trained_forecaster, [])) /\
    stub_lstm_forecast [1%Q; 2%Q; 3%Q] 3 (trained_forecaster, [])
      = (Ok out2, (trained_forecaster, [])) /\
    out1 = take 1 out2.
Proof.
  exact (X13_lstm_forecast_horizon_prefix Stub.KerasModel Stub.keras_predict
           trained_forecaster [] 2%nat {| scale_ := 1%Q; min_ := 0%Q |}
           [1%Q; 2%Q; 3%Q] 1 3
           eq_refl eq_refl ltac:(cbn; lia) ltac:(lia)).
Defined.

(** No input, one value for a window of two, and zero periods. *)
Lemma X14_witness_unusable_inputs :
  stub_lstm_forecast [] 3 (trained_forecaster, [])
    = (Raise (no_samples "MinMaxScaler"), (trained_forecaster, [])) /\
  (exists msg : string,
     stub_lstm_forecast [1%Q] 3 (trained_forecaster, [])
       = (Raise (ValueError msg), (trained_forecaster, []))) /\
  stub_lstm_forecast [1%Q; 2%Q; 3%Q] 0 (trained_forecaster, [])
    = (Raise (no_samples EmptyString), (trained_forecaster, [])).
Proof.
  destruct (X14_lstm_forecast_input_errors Stub.KerasModel Stub.keras_predict
              trained_forecaster [] 2%nat {| scale_ := 1%Q; min_ := 0%Q |}
              eq_refl eq_refl)
    as (Hempty & Hshort & Hzero).
  split; [apply Hempty|]. split.
  - apply Hshort. cbn. lia.
  - apply Hzero; [cbn; lia | lia].
Defined.

(** A model directory in which the network is there and the scaler file
    is missing. *)
Lemma X17_witness_missing_scaler_file :
  LSTMForecaster_load Stub.KerasModel (fun _ : string => Ok 30%nat)
    Stub.joblib_load_scaler "/app/models/lstm_global" (stub_lstm_init 30%nat, [])
  = (Raise (LibraryError "FileNotFoundError" "No such file or directory"),
     ({| lstm_model := Some 30%nat; lstm_scaler := None; sequence_length := 30%nat |},
      [])) /\
  stub_lstm_forecast [1%Q; 2%Q; 3%Q] 3
    ({| lstm_model := Some 30%nat; lstm_scaler := None; sequence_length := 30%nat |}, [])
  = (Raise not_fitted,
     ({| lstm_model := Some 30%nat; lstm_scaler := None; sequence_length := 30%nat |},
      [])).
Proof.
  destruct (X17_lstm_load_is_not_atomic Stub.KerasModel Stub.keras_predict
              (fun _ : string => Ok 30%nat) Stub.joblib_load_scaler
              (stub_lstm_init 30%nat) [] "/app/models/lstm_global" 30%nat
              (LibraryError "FileNotFoundError" "No such file or directory")
              eq_refl eq_refl)
    as (Hload & Hforecast & _).
  split; [exact Hload|]. apply Hforecast. reflexivity.
Defined.

(** A single observation, which Prophet refuses to fit. *)
Lemma X18_witness_single_observation :
  exists self' : ProphetForecaster Stub.ProphetFit,
    ProphetForecaster_train Stub.mean_absolute_percentage_error Stub.mean_squared_error
      Stub.np_sqrt Stub.ProphetFit Stub.prophet_validate Stub.prophet_fit
      Stub.prophet_predict [(ts_of_date 2024 1 1, 0.61%Q)] None
      (ProphetForecaster_init Stub.ProphetFit)
    = (Raise (ValueError "Dataframe has less than 2 non-NaN rows."), self') /\
    pf_model _ self' <> None /\
    stub_prophet_forecast 3 self' = (Raise not_fit, self').
Proof.
  destruct (X18_prophet_failed_fit_leaves_model Stub.pd_date_range_negative
              Stub.mean_absolute_percentage_error Stub.mean_squared_error
              Stub.np_sqrt Stub.ProphetFit Stub.prophet_validate Stub.prophet_fit
              Stub.prophet_predict
              (ProphetForecaster_init Stub.ProphetFit)
              [(ts_of_date 2024 1 1, 0.61%Q)] None
              (ValueError "Dataframe has less than 2 non-NaN rows.")
              eq_refl eq_refl)
    as (Htrain & Hforecast & _).
  eexists. split; [exact Htrain|]. split; [discriminate | apply Hforecast].
Defined.

(** History for the first five days of January 2024, a forecast for the
    three days that follow. *)
Local Abbreviation january_request :=
  {| freq_propertyId := "villa-7"; freq_startDate := "2024-01-06";
     freq_endDate := "2024-01-08"; freq_modelType := "occupancy";
     freq_historicalData := Some five_points |}.


(** Three days of July 2024, no history. *)
Local Abbreviation no_history_request :=
  {| freq_propertyId := "villa-7"; freq_startDate := "2024-07-06";
     freq_endDate := "2024-07-08"; freq_modelType := "occupancy";
     freq_historicalData := None |}.

Lemma X20_witness_three_days :
  exists pts : list ForecastPoint,
    stub_generate_forecast Stub.now no_history_request
      = Ok {| fresp_propertyId := "villa-7"; fresp_modelType := "occupancy";
              fresp_forecast := pts;
              fresp_accuracy := Some (float_value (decimal 8 1));
              fresp_mape := Some (float_value (decimal 2 1));
              fresp_generatedAt := now_iso Stub.now |} /\
    Z.of_nat (length pts) = 3.
Proof.
  assert (Hs : Stub.pd_to_datetime (freq_startDate no_history_request)
               = Ok (ts_of_date 2024 7 6)) by (vm_compute; reflexivity).
  assert (He : Stub.pd_to_datetime (freq_endDate no_history_request)
               = Ok (ts_of_date 2024 7 8)) by (vm_compute; reflexivity).
  destruct (X20_forecast_without_history Stub.pd_to_datetime Stub.pd_date_range_negative
              Stub.mean_absolute_percentage_error Stub.mean_squared_error
              Stub.np_sqrt Stub.ProphetFit Stub.prophet_validate Stub.prophet_fit
              Stub.prophet_predict
              Stub.now no_history_request (ts_of_date 2024 7 6) (ts_of_date 2024 7 8)
              (or_introl eq_refl) Hs He
              ltac:(split; vm_compute; discriminate)
              ltac:(split; vm_compute; discriminate)
              ltac:(split; vm_compute; discriminate)
              ltac:(vm_compute; discriminate))
    as (pts & Hrun & _ & Hlen & _).
  exists pts. split; [exact Hrun|].
  rewrite Hlen by (vm_compute; discriminate). vm_compute. reflexivity.
Defined.

(** An occupancy given as text. *)
Lemma X22_witness_occupancy_as_text :
  optimize_price
    {| oreq_propertyId := "p"; oreq_date := "2024-07-06";
       oreq_context := <["currentOccupancy" := PyStr "high"]> ∅ |}
  = Raise (HTTPException 500
             "'>=' not supported between instances of 'str' and 'float'").
Proof.
  apply (proj1 (X22_optimize_price_rejects_non_numbers
                  {| oreq_propertyId := "p"; oreq_date := "2024-07-06";
                     oreq_context := <["currentOccupancy" := PyStr "high"]> ∅ |}
                  (PyStr "high") eq_refl)).
  vm_compute. reflexivity.
Defined.

(** The point of 2024-01-03, a Wednesday in January. *)
Lemma X24_witness_january_weekday :
  exists p : ForecastPoint,
    generate_fallback_forecast 1 (ts_of_date 2024 1 3) (ts_of_date 2024 1 3)
      = Some (Ok [p]) /\
    exists s : float,
      seasonal_map !! ts_month (date p) = Some s /\
      (float_value (decimal 425 3) <= predictedValue p)%Q /\
      (predictedValue p <= float_value (decimal 81 2))%Q /\
      lowerBound p
        = Some (float_value
                  (fsub (fmul (fmul (decimal 5 1) s)
                           (weekend_factor (ts_dayofweek (date p))))
                     (decimal 1 1))).
Proof.
  set (r := generate_fallback_forecast 1 (ts_of_date 2024 1 3) (ts_of_date 2024 1 3)).
  assert (Hrun : generate_fallback_forecast 1 (ts_of_date 2024 1 3) (ts_of_date 2024 1 3)
                 = r) by reflexivity.
  vm_compute in r. subst r.
  eexists. split; [exact Hrun|].
  destruct (X24_fallback_never_clamps 1 (ts_of_date 2024 1 3) (ts_of_date 2024 1 3) _ _
              Hrun (or_introl eq_refl))
    as (s & Hs & _ & Hlow & Hhigh & Hlo & _).
  exists s.
  split; [exact Hs|]. split; [exact Hlow|]. split; [exact Hhigh | exact Hlo].
Defined.

(** The first five days of July 2024, cut after the second. *)
Lemma X25_witness_two_and_three_days :
  exists pts1 pts2 : list ForecastPoint,
    generate_fallback_forecast 2 (ts_of_date 2024 7 1) (ts_of_date 2024 7 2)
      = Some (Ok pts1) /\
    generate_fallback_forecast 3 (ts_of_date 2024 7 3) (ts_of_date 2024 7 5)
      = Some (Ok pts2) /\
    generate_fallback_forecast 5 (ts_of_date 2024 7 1) (ts_of_date 2024 7 5)
      = Some (Ok (pts1 ++ pts2)).
Proof.
  exact (X25_fallback_splits (ts_of_date 2024 7 1) (ts_of_date 2024 7 5) 1
           ltac:(vm_compute; discriminate) ltac:(vm_compute; discriminate)
           ltac:(vm_compute; discriminate)).
Defined.

(** Six observations, window length 2, then a forecast of three periods
    from the last two observations. *)
Lemma X27_witness_six_observations :
  exists (metrics : Metrics) (st' : LSTMState Stub.KerasModel) (out : list Q),
    stub_lstm_train [1%Q; 2%Q; 3%Q; 4%Q; 5%Q; 6%Q] None (stub_lstm_init 2%nat, [])
      = (Ok metrics, st') /\
    stub_lstm_forecast [5%Q; 6%Q] 3 st' = (Ok out, st') /\
    Z.of_nat (length out) = 3.
Proof.
  destruct (stub_lstm_train [1%Q; 2%Q; 3%Q; 4%Q; 5%Q; 6%Q] None (stub_lstm_init 2%nat, []))
    as [[metrics|e] st'] eqn:Htrain; [|vm_compute in Htrain; discriminate].
  destruct (X27_lstm_train_then_forecast Stub.mean_absolute_percentage_error Stub.mean_squared_error
              Stub.np_sqrt Stub.KerasModel Stub.keras_compile Stub.keras_fit
              Stub.keras_predict
              (stub_lstm_init 2%nat) [] [1%Q; 2%Q; 3%Q; 4%Q; 5%Q; 6%Q] None
              metrics st' [5%Q; 6%Q] 3 Htrain ltac:(cbn; lia) ltac:(lia))
    as (_ & out & Hrun & Hlen).
  exists metrics, st', out. split; [reflexivity|]. split; [exact Hrun | exact Hlen].
Defined.

(** Thirty-two daily observations from 2024-01-01. *)
Local Abbreviation thirty_two_points :=
  [
    {| hdp_date := "2024-01-01"; hdp_value := 0.50%Q; hdp_metadata := None |};
    {| hdp_date := "2024-01-02"; hdp_value := 0.57%Q; hdp_metadata := None |};
    {| hdp_date := "2024-01-03"; hdp_value := 0.64%Q; hdp_metadata := None |};
    {| hdp_date := "2024-01-04"; hdp_value := 0.71%Q; hdp_metadata := None |};
    {| hdp_date := "2024-01-05"; hdp_value := 0.55%Q; hdp_metadata := None |};
    {| hdp_date := "2024-01-06"; hdp_value := 0.62%Q; hdp_metadata := None |};
    {| hdp_date := "2024-01-07"; hdp_value := 0.69%Q; hdp_metadata := None |};
    {| hdp_date := "2024-01-08"; hdp_value := 0.53%Q; hdp_metadata := None |};
    {| hdp_date := "2024-01-09"; hdp_value := 0.60%Q; hdp_metadata := None |};
    {| hdp_date := "2024-01-10"; hdp_value := 0.67%Q; hdp_metadata := None |};
    {| hdp_date := "2024-01-11"; hdp_value := 0.51%Q; hdp_metadata := None |};
    {| hdp_date := "2024-01-12"; hdp_value := 0.58%Q; hdp_metadata := None |};
    {| hdp_date := "2024-01-13"; hdp_value := 0.65%Q; hdp_metadata := None |};
    {| hdp_date := "2024-01-14"; hdp_value := 0.72%Q; hdp_metadata := None |};
    {| hdp_date := "2024-01-15"; hdp_value := 0.56%Q; hdp_metadata := None |};
    {| hdp_date := "2024-01-16"; hdp_value := 0.63%Q; hdp_metadata := None |};
    {| hdp_date := "2024-01-17"; hdp_value := 0.70%Q; hdp_metadata := None |};
    {| hdp_date := "2024-01-18"; hdp_value := 0.54%Q; hdp_metadata := None |};
    {| hdp_date := "2024-01-19"; hdp_value := 0.61%Q; hdp_metadata := None |};
    {| hdp_date := "2024-01-20"; hdp_value := 0.68%Q; hdp_metadata := None |};
    {| hdp_date := "2024-01-21"; hdp_value := 0.52%Q; hdp_metadata := None |};
    {| hdp_date := "2024-01-22"; hdp_value := 0.59%Q; hdp_metadata := None |};
    {| hdp_date := "2024-01-23"; hdp_value := 0.66%Q; hdp_metadata := None |};
    {| hdp_date := "2024-01-24"; hdp_value := 0.50%Q; hdp_metadata := None |};
    {| hdp_date := "2024-01-25"; hdp_value := 0.57%Q; hdp_metadata := None |};
    {| hdp_date := "2024-01-26"; hdp_value := 0.64%Q; hdp_metadata := None |};
    {| hdp_date := "2024-01-27"; hdp_value := 0.71%Q; hdp_metadata := None |};
    {| hdp_date := "2024-01-28"; hdp_value := 0.55%Q; hdp_metadata := None |};
    {| hdp_date := "2024-01-29"; hdp_value := 0.62%Q; hdp_metadata := None |};
    {| hdp_date := "2024-01-30"; hdp_value := 0.69%Q; hdp_metadata := None |};
    {| hdp_date := "2024-01-31"; hdp_value := 0.53%Q; hdp_metadata := None |};
    {| hdp_date := "2024-02-01"; hdp_value := 0.60%Q; hdp_metadata := None |} ].

Local Abbreviation thirty_two_rows :=
  [ (ts_of_date 2024 1 1, 0.50%Q);
    (ts_of_date 2024 1 2, 0.57%Q);
    (ts_of_date 2024 1 3, 0.64%Q);
    (ts_of_date 2024 1 4, 0.71%Q);
    (ts_of_date 2024 1 5, 0.55%Q);
    (ts_of_date 2024 1 6, 0.62%Q);
    (ts_of_date 2024 1 7, 0.69%Q);
    (ts_of_date 2024 1 8, 0.53%Q);
    (ts_of_date 2024 1 9, 0.60%Q);
    (ts_of_date 2024 1 10, 0.67%Q);
    (ts_of_date 2024 1 11, 0.51%Q);
    (ts_of_date 2024 1 12, 0.58%Q);
    (ts_of_date 2024 1 13, 0.65%Q);
    (ts_of_date 2024 1 14, 0.72%Q);
    (ts_of_date 2024 1 15, 0.56%Q);
    (ts_of_date 2024 1 16, 0.63%Q);
    (ts_of_date 2024 1 17, 0.70%Q);
    (ts_of_date 2024 1 18, 0.54%Q);
    (ts_of_date 2024 1 19, 0.61%Q);
    (ts_of_date 2024 1 20, 0.68%Q);
    (ts_of_date 2024 1 21, 0.52%Q);
    (ts_of_date 2024 1 22, 0.59%Q);
    (ts_of_date 2024 1 23, 0.66%Q);
    (ts_of_date 2024 1 24, 0.50%Q);
    (ts_of_date 2024 1 25, 0.57%Q);
    (ts_of_date 2024 1 26, 0.64%Q);
    (ts_of_date 2024 1 27, 0.71%Q);
    (ts_of_date 2024 1 28, 0.55%Q);
    (ts_of_date 2024 1 29, 0.62%Q);
    (ts_of_date 2024 1 30, 0.69%Q);
    (ts_of_date 2024 1 31, 0.53%Q);
    (ts_of_date 2024 2 1, 0.60%Q) ].

Local Abbreviation long_lstm_request :=
  {| treq_modelType := "lstm"; treq_propertyId := None;
     treq_trainingData := thirty_two_points; treq_parameters := None |}.

Lemma X26_witness_thirty_two_observations :
  exists (st' : Store) (job' : Job),
    stub_train_model_background "job-1" Stub.now long_lstm_request one_job_store
      = (Ok tt, st') /\
    training_jobs st' !! "job-1" = Some job' /\
    job_status job' = COMPLETED /\
    job_modelPath job' = Some "/app/models/lstm_global_20240701_120000"%string.
Proof.
  assert (Hjob : training_jobs one_job_store !! "job-1" = Some pending_job)
    by apply lookup_singleton_eq.
  assert (Hdf : build_frame Stub.pd_to_datetime (treq_trainingData long_lstm_request)
                = Ok thirty_two_rows) by (vm_compute; reflexivity).
  destruct (stub_lstm_train (map snd thirty_two_rows) None (stub_lstm_init 30%nat, []))
    as [[metrics|e] trained] eqn:Htrain; [|vm_compute in Htrain; discriminate].
  destruct (X26_background_lstm_success Stub.MODELS_DIR Stub.pd_to_datetime
              Stub.mean_absolute_percentage_error Stub.mean_squared_error
              Stub.np_sqrt Stub.ProphetFit Stub.prophet_validate Stub.prophet_fit
              Stub.prophet_predict Stub.KerasModel Stub.keras_compile
              Stub.keras_fit Stub.keras_predict Stub.joblib_dump Stub.keras_save
              one_job_store "job-1" Stub.now long_lstm_request pending_job
              thirty_two_rows metrics trained Hjob eq_refl Hdf Htrain eq_refl eq_refl)
    as (st' & job' & Hrun & Hlookup & Hstatus & _ & _ & Hpath & _).
  exists st', job'. split; [exact Hrun|]. split; [exact Hlookup|].
  split; [exact Hstatus | exact Hpath].
Defined.
